(** * Gastown: task registry and coordination workflow

    A shallow embedding of [gastown/registry.py] and of the workflow commands
    of [gastown/cli.py] (claim, submit, approve, merge), followed by the
    properties of the registry queries and of the state machine.

    Conventions of the embedding:
    - Python [str] is [string]; [list[str]] is [list string];
      [Optional[str]] is [option string].
    - A Python [dict] with string keys is an association list in insertion
      order (Python dicts keep insertion order, and the order of the written
      fields matters here).
    - A raised exception is the left injection of a sum; [sys.exit(1)] is the
      exception [SystemExit 1], as in Python.
    - A task object obtained from [registry.tasks] is an alias of the list
      element: it is modelled by its index in the list, and an attribute
      assignment on it by a list update at that index. *)

From Stdlib Require Import Ascii.
From stdpp Require Import base option numbers list strings.

Set Warnings "-register-all,-clear-no-such-hyp".

(** ** Exceptions *)

Inductive Exn :=
| GitError (msg : string)
| SystemExit (code : Z)
| RuntimeError (msg : string)
| FileNotFoundError (msg : string)
| KeyError (key : string)
| ValueError (msg : string)
| TypeError (msg : string)
| AttributeError (msg : string).

(** ** Python string builtins used by the registry *)

Fixpoint str_contains (c : ascii) (chars : string) : bool :=
  match chars with
  | "" => false
  | String.String d rest => if Ascii.eqb c d then true else str_contains c rest
  end.

(** [s.rstrip(chars)]: drop every trailing character that occurs in [chars]. *)
Fixpoint rstrip (chars s : string) : string :=
  match s with
  | "" => ""
  | String.String c s' =>
      match rstrip chars s' with
      | "" => if str_contains c chars then "" else String.String c ""
      | String.String _ _ as r => String.String c r
      end
  end.

(** [s.startswith(p)]. *)
Fixpoint startswith (s p : string) : bool :=
  match p, s with
  | "", _ => true
  | String.String _ _, "" => false
  | String.String a p', String.String b s' => if Ascii.eqb a b then startswith s' p' else false
  end.

(** [sep.join(items)]. *)
Fixpoint join (sep : string) (items : list string) : string :=
  match items with
  | [] => ""
  | [x] => x
  | x :: rest => x +:+ sep +:+ join sep rest
  end.

(** Truth value of an [Optional[str]]: [None] and the empty string are false. *)
Definition truthy (o : option string) : bool :=
  match o with
  | None => false
  | Some s => negb (String.eqb s "")
  end.

(** ** Parsed YAML documents, as [yaml.safe_load] returns them *)

Inductive yaml :=
| YNull
| YStr (s : string)
| YSeq (items : list yaml)
| YMap (entries : list (string * yaml)).

Definition dict := list (string * yaml).

(** [d.get(key)], [None] when the key is absent. *)
Fixpoint dict_get (key : string) (d : dict) : option yaml :=
  match d with
  | [] => None
  | (k, v) :: rest => if String.eqb k key then Some v else dict_get key rest
  end.

(** [d[key] = v]: overwrite in place, or append a new entry. *)
Fixpoint dict_set (key : string) (v : yaml) (d : dict) : dict :=
  match d with
  | [] => [(key, v)]
  | (k, w) :: rest =>
      if String.eqb k key then (k, v) :: rest else (k, w) :: dict_set key v rest
  end.

(** [d[key]], raising [KeyError]. *)
Definition dict_item (key : string) (d : dict) : Exn + yaml :=
  match dict_get key d with
  | Some v => inr v
  | None => inl (KeyError key)
  end.

(** The embedding is typed where Python is not: a field value of the wrong
    shape, which Python would store unchecked, is reported as [TypeError]. *)
Definition as_str (v : yaml) : Exn + string :=
  match v with
  | YStr s => inr s
  | _ => inl (TypeError "str")
  end.

Definition as_opt_str (v : option yaml) : Exn + option string :=
  match v with
  | None | Some YNull => inr None
  | Some (YStr s) => inr (Some s)
  | Some _ => inl (TypeError "Optional[str]")
  end.

Fixpoint as_strs (items : list yaml) : Exn + list string :=
  match items with
  | [] => inr []
  | YStr s :: rest =>
      match as_strs rest with
      | inr l => inr (s :: l)
      | inl e => inl e
      end
  | _ :: _ => inl (TypeError "list[str]")
  end.

Definition as_str_list (v : yaml) : Exn + list string :=
  match v with
  | YSeq items => as_strs items
  | _ => inl (TypeError "list[str]")
  end.

(** Sequencing of computations that may raise. *)
Definition bind_exn {A B : Type} (m : Exn + A) (k : A → Exn + B) : Exn + B :=
  match m with
  | inl e => inl e
  | inr a => k a
  end.

Notation "'let!' x ':=' m 'in' k" := (bind_exn m (λ x, k))
  (at level 10, x name, m at level 100, k at level 200).

(** ** class TaskStatus(str, Enum) *)

Inductive TaskStatus := PENDING | CLAIMED | IN_PROGRESS | REVIEW | MERGED.

Global Instance TaskStatus_eq_dec : EqDecision TaskStatus.
Proof. solve_decision. Defined.

Module Status.

(** [status.value] *)
Definition value (s : TaskStatus) : string :=
  match s with
  | PENDING => "pending"
  | CLAIMED => "claimed"
  | IN_PROGRESS => "in_progress"
  | REVIEW => "review"
  | MERGED => "merged"
  end.

(** [TaskStatus(v)], raising [ValueError] on an unknown value. *)
Definition of_value (v : string) : Exn + TaskStatus :=
  if String.eqb v "pending" then inr PENDING
  else if String.eqb v "claimed" then inr CLAIMED
  else if String.eqb v "in_progress" then inr IN_PROGRESS
  else if String.eqb v "review" then inr REVIEW
  else if String.eqb v "merged" then inr MERGED
  else inl (ValueError (v +:+ " is not a valid TaskStatus")).

(** Position along Pending, Claimed, InProgress, Review, Merged. *)
Definition rank (s : TaskStatus) : nat :=
  match s with
  | PENDING => 0
  | CLAIMED => 1
  | IN_PROGRESS => 2
  | REVIEW => 3
  | MERGED => 4
  end.

End Status.

(** ** class Task *)

Module Task.

Record t := mk {
  id : string;
  description : string;
  status : TaskStatus;
  claimed_by : option string;
  branch : option string;
  files : list string;
  depends_on : list string;
}.

Definition set_status (s : TaskStatus) (self : t) : t :=
  mk (id self) (description self) s (claimed_by self) (branch self)
     (files self) (depends_on self).

Definition set_claimed_by (a : option string) (self : t) : t :=
  mk (id self) (description self) (status self) a (branch self)
     (files self) (depends_on self).

Definition set_branch (b : option string) (self : t) : t :=
  mk (id self) (description self) (status self) (claimed_by self) b
     (files self) (depends_on self).

(** [Task.from_dict(data)] *)
Definition from_dict (data : dict) : Exn + t :=
  let! v_id := dict_item "id" data in
  let! id_ := as_str v_id in
  let! v_description := dict_item "description" data in
  let! description_ := as_str v_description in
  let! status_value := as_str (default (YStr "pending") (dict_get "status" data)) in
  let! status_ := Status.of_value status_value in
  let! claimed_by_ := as_opt_str (dict_get "claimed_by" data) in
  let! branch_ := as_opt_str (dict_get "branch" data) in
  let! files_ := as_str_list (default (YSeq []) (dict_get "files" data)) in
  let! depends_on_ := as_str_list (default (YSeq []) (dict_get "depends_on" data)) in
  inr (mk id_ description_ status_ claimed_by_ branch_ files_ depends_on_).

(** [task.to_dict()] *)
Definition to_dict (self : t) : dict :=
  let d := [("id", YStr (id self));
            ("description", YStr (description self));
            ("status", YStr (Status.value (status self)))] in
  let d := if truthy (claimed_by self)
           then dict_set "claimed_by" (YStr (default "" (claimed_by self))) d else d in
  let d := if truthy (branch self)
           then dict_set "branch" (YStr (default "" (branch self))) d else d in
  let d := match files self with
           | [] => d
           | _ :: _ => dict_set "files" (YSeq (YStr <$> files self)) d
           end in
  let d := match depends_on self with
           | [] => d
           | _ :: _ => dict_set "depends_on" (YSeq (YStr <$> depends_on self)) d
           end in
  d.

End Task.

Global Instance Task_eq_dec : EqDecision Task.t.
Proof. solve_decision. Defined.

(** ** class Registry *)

Module Registry.

Record t := mk {
  goal : string;
  tasks : list Task.t;
}.

(** [Registry.registry_path(repo_root)] *)
Definition registry_path (repo_root : string) : string :=
  repo_root +:+ "/gastown.yaml".

(** [[Task.from_dict(t) for t in items]]; every item has to be a mapping. *)
Fixpoint tasks_from_data (items : list yaml) : Exn + list Task.t :=
  match items with
  | [] => inr []
  | YMap d :: rest =>
      let! task := Task.from_dict d in
      let! others := tasks_from_data rest in
      inr (task :: others)
  | _ :: _ => inl (TypeError "dict")
  end.

(** [Registry.load(repo_root)]. [file] is the parsed content of
    gastown.yaml, [None] when the file does not exist. *)
Definition load (repo_root : string) (file : option yaml) : Exn + t :=
  match file with
  | None =>
      inl (FileNotFoundError
             ("No gastown.yaml found at " +:+ registry_path repo_root +:+ ". " +:+
              "Create one to define tasks for this project."))
  | Some (YMap data) =>
      let! goal_ := as_str (default (YStr "") (dict_get "goal" data)) in
      let! tasks_ :=
        match default (YSeq []) (dict_get "tasks" data) with
        | YSeq items => tasks_from_data items
        | _ => inl (TypeError "list")
        end in
      inr (mk goal_ tasks_)
  | Some _ => inl (AttributeError "get")
  end.

(** [registry.save(repo_root)]: the document written to gastown.yaml. *)
Definition save (self : t) : yaml :=
  YMap [("goal", YStr (goal self));
        ("tasks", YSeq ((λ task, YMap (Task.to_dict task)) <$> tasks self))].

(** The first task with the given id, with its position in [tasks]. *)
Definition find_task (self : t) (task_id : string) : option (nat * Task.t) :=
  list_find (λ task, Task.id task = task_id) (tasks self).

(** [registry.get_task(task_id)] *)
Definition get_task (self : t) (task_id : string) : option Task.t :=
  snd <$> find_task self task_id.

(** Attribute assignments on the task object at position [i]. *)
Definition update_task (i : nat) (f : Task.t → Task.t) (self : t) : t :=
  mk (goal self) (alter f i (tasks self)).

Definition get_pending_tasks (self : t) : list Task.t :=
  filter (λ task, Task.status task = PENDING) (tasks self).

Definition get_tasks_by_agent (self : t) (agent_name : string) : list Task.t :=
  filter (λ task, Task.claimed_by task = Some agent_name) (tasks self).

Definition get_tasks_in_review (self : t) : list Task.t :=
  filter (λ task, Task.status task = REVIEW) (tasks self).

(** [registry.check_dependencies(task)] *)
Definition check_dependencies (self : t) (task : Task.t) : list string :=
  foldl
    (λ unmet dep_id,
       match get_task self dep_id with
       | None => unmet ++ [dep_id +:+ " (not found)"]
       | Some dep =>
           if decide (Task.status dep ≠ MERGED)
           then unmet ++ [dep_id +:+ " (status: " +:+ Status.value (Task.status dep) +:+ ")"]
           else unmet
       end)
    [] (Task.depends_on task).

(** [Registry._paths_overlap(path1, path2)] *)
Definition _paths_overlap (path1 path2 : string) : bool :=
  let p1 := rstrip "/" path1 in
  let p2 := rstrip "/" path2 in
  startswith p1 p2 || startswith p2 p1 || String.eqb p1 p2.

Definition active_statuses : list TaskStatus := [CLAIMED; IN_PROGRESS; REVIEW].

(** [registry.check_file_conflicts(task)] *)
Definition check_file_conflicts (self : t) (task : Task.t) : list (string * Task.t) :=
  foldl
    (λ conflicts other,
       if decide (Task.id other = Task.id task) then conflicts
       else if decide (Task.status other ∉ active_statuses) then conflicts
       else
         foldl
           (λ conflicts task_file,
              foldl
                (λ conflicts other_file,
                   if _paths_overlap task_file other_file
                   then conflicts ++ [(task_file, other)]
                   else conflicts)
                conflicts (Task.files other))
           conflicts (Task.files task))
    [] (tasks self).

End Registry.

(** ** gitops: the version-control and code-hosting collaborator

    [gitops.py] wraps the [git] and [gh] binaries.  The workflow only sees
    its wrappers, each of which returns a value or raises [GitError] with a
    message; [get_default_branch], [branch_exists] and [has_remote] catch the
    error themselves and always return.  The collaborator is a record of the
    wrappers' outcomes, as functions of the arguments they are called with. *)

Module Gitops.

Record PRInfo := mkPR {
  number : Z;
  title : string;
  branch : string;
  author : string;
  url : string;
}.

(** A returned value, or the message of the [GitError] raised. *)
Definition outcome (A : Type) : Type := string + A.

Record t := mk {
  get_repo_root : outcome string;
  get_current_branch : outcome string;
  get_default_branch : string;
  branch_exists : string → bool;
  has_remote : bool;
  create_branch : string → outcome unit;
  switch_branch : string → outcome unit;
  commit : string → outcome unit;
  stage_file : string → outcome unit;
  pull : outcome unit;
  push : string → bool → outcome unit;
  fetch : outcome unit;
  is_rebased : string → outcome bool;
  create_pr : string → string → string → outcome PRInfo;
  list_prs : string → outcome (list PRInfo);
  approve_pr : Z → outcome unit;
  merge_pr : Z → outcome unit;
}.

End Gitops.

(** ** agent: the identity of the acting agent *)

Module AgentConfig.

Record t := mk { name : string }.

(** [AgentConfig.require()]; [config] is the content of the agent's
    configuration file, [None] when the agent was never initialized. *)
Definition require (config : option t) : Exn + t :=
  match config with
  | Some c => inr c
  | None => inl (RuntimeError "Agent not initialized. Run 'gastown init <name>' first.")
  end.

End AgentConfig.

(** ** cli: the workflow commands *)

(** What a command does to the outside, in the order it does it. Lines
    echoed to standard output are informational and are left out. *)
Inductive Effect :=
| EchoErr (line : string)
| SwitchBranch (branch : string)
| Pull
| Fetch
| CreateBranch (branch : string)
| StageFile (path : string)
| Commit (message : string)
| Push (branch : string) (set_upstream : bool)
| CreatePR (title body base : string)
| ApprovePR (number : Z)
| MergePR (number : Z)
| SaveRegistry (document : yaml).

(** A command either returns or raises, and leaves a trace of effects. *)
Definition Cmd (A : Type) : Type := (Exn + A) * list Effect.

Global Instance Cmd_ret : MRet Cmd := λ A a, (inr a, []).

Global Instance Cmd_bind : MBind Cmd := λ A B k m,
  match m with
  | (inl e, trace) => (inl e, trace)
  | (inr a, trace) => let '(r, trace') := k a in (r, trace ++ trace')
  end.

Definition raise {A : Type} (e : Exn) : Cmd A := (inl e, []).

(** A pure computation that may raise. *)
Definition lift {A : Type} (x : Exn + A) : Cmd A := (x, []).

(** A query of the collaborator. *)
Definition ask {A : Type} (x : Gitops.outcome A) : Cmd A :=
  match x with
  | inr a => (inr a, [])
  | inl msg => (inl (GitError msg), [])
  end.

(** An action of the collaborator: it takes effect when it succeeds. *)
Definition perform {A : Type} (e : Effect) (x : Gitops.outcome A) : Cmd A :=
  match x with
  | inr a => (inr a, [e])
  | inl msg => (inl (GitError msg), [])
  end.

(** [click.echo(line, err=True)] *)
Definition echo_err (line : string) : Cmd unit := (inr tt, [EchoErr line]).

(** [sys.exit(code)] *)
Definition sys_exit {A : Type} (code : Z) : Cmd A := raise (SystemExit code).

(** [try: body except GitError as e: handler(e)]; any other exception,
    [SystemExit] included, passes through. *)
Definition try_except_GitError {A : Type} (body : Cmd A) (handler : string → Cmd A) : Cmd A :=
  match body with
  | (inl (GitError msg), trace) => let '(r, trace') := handler msg in (r, trace ++ trace')
  | _ => body
  end.

(** [try: body except FileNotFoundError as e: handler(e)] *)
Definition try_except_FileNotFoundError {A : Type}
    (body : Cmd A) (handler : string → Cmd A) : Cmd A :=
  match body with
  | (inl (FileNotFoundError msg), trace) => let '(r, trace') := handler msg in (r, trace ++ trace')
  | _ => body
  end.

(** [for x in items: body(x)] *)
Fixpoint for_each {A : Type} (items : list A) (body : A → Cmd unit) : Cmd unit :=
  match items with
  | [] => mret tt
  | x :: rest => body x ;; for_each rest body
  end.

Definition newline : string := String.String "010"%char "".

(** [str(x)] of an [Optional[str]] inside an f-string. *)
Definition str_of (o : option string) : string := default "None" o.

(** [x or y] on an [Optional[str]] option with a string fallback. *)
Definition or_else (o : option string) (fallback : string) : string :=
  if truthy o then default "" o else fallback.

Module Cli.

Section Commands.

(** The collaborator, the agent's configuration file and the parsed
    gastown.yaml of the working tree, as the command finds them. *)
Context (git : Gitops.t)
        (config : option AgentConfig.t)
        (file : option yaml).

(** [get_context()] *)
Definition get_context : Cmd (string * Registry.t) :=
  repo_root ← try_except_GitError (ask (Gitops.get_repo_root git))
                (λ _, echo_err "Error: Not in a git repository." ;; sys_exit 1);
  registry ← try_except_FileNotFoundError (lift (Registry.load repo_root file))
               (λ e, echo_err ("Error: " +:+ e) ;; sys_exit 1);
  mret (repo_root, registry).

(** [registry.save(repo_root)] *)
Definition save (registry : Registry.t) : Cmd unit :=
  (inr tt, [SaveRegistry (Registry.save registry)]).

(** The attribute assignments of a successful claim. *)
Definition mark_claimed (agent_name branch_name : string) (task : Task.t) : Task.t :=
  Task.set_branch (Some branch_name)
    (Task.set_claimed_by (Some agent_name)
       (Task.set_status CLAIMED task)).

(** [gastown claim TASK_ID [--force]] *)
Definition claim (task_id : string) (force : bool) : Cmd unit :=
  agent ← lift (AgentConfig.require config);
  '(repo_root, registry) ← get_context;
  match Registry.find_task registry task_id with
  | None =>
      echo_err ("Error: Task '" +:+ task_id +:+ "' not found.") ;;
      sys_exit 1
  | Some (i, task) =>
      if decide (Task.status task ≠ PENDING) then
        echo_err ("Error: Task '" +:+ task_id +:+ "' is not pending (status: "
                  +:+ Status.value (Task.status task) +:+ ").") ;;
        sys_exit 1
      else
      (* Check dependencies *)
      let unmet := Registry.check_dependencies registry task in
      if bool_decide (unmet ≠ []) && negb force then
        echo_err "Error: Unmet dependencies:" ;;
        for_each unmet (λ dep, echo_err ("  - " +:+ dep)) ;;
        echo_err (newline +:+ "Use --force to claim anyway.") ;;
        sys_exit 1
      else
      (* Check for file conflicts *)
      let conflicts := Registry.check_file_conflicts registry task in
      if bool_decide (conflicts ≠ []) && negb force then
        echo_err "Warning: Potential file conflicts:" ;;
        for_each conflicts
          (λ '(file_, other),
             echo_err ("  - " +:+ file_ +:+ " (also in " +:+ Task.id other +:+ " by "
                       +:+ str_of (Task.claimed_by other) +:+ ")")) ;;
        echo_err (newline +:+ "Use --force to claim anyway.") ;;
        sys_exit 1
      else
      (* Create branch *)
      let branch_name := "agent/" +:+ AgentConfig.name agent +:+ "/" +:+ task_id in
      if Gitops.branch_exists git branch_name then
        echo_err ("Error: Branch '" +:+ branch_name +:+ "' already exists.") ;;
        sys_exit 1
      else
      (* Switch to default branch first *)
      let default_branch := Gitops.get_default_branch git in
      perform (SwitchBranch default_branch) (Gitops.switch_branch git default_branch) ;;
      (* Pull latest *)
      (if Gitops.has_remote git
       then try_except_GitError (perform Pull (Gitops.pull git)) (λ _, mret tt)
       else mret tt) ;;
      (* Create and switch to new branch *)
      perform (CreateBranch branch_name) (Gitops.create_branch git branch_name) ;;
      (* Update registry *)
      let registry :=
        Registry.update_task i (mark_claimed (AgentConfig.name agent) branch_name) registry in
      (* Save registry, then stage and commit *)
      save registry ;;
      perform (StageFile "gastown.yaml") (Gitops.stage_file git "gastown.yaml") ;;
      perform (Commit ("[gastown] Claim task: " +:+ task_id))
              (Gitops.commit git ("[gastown] Claim task: " +:+ task_id)) ;;
      mret tt
  end.

(** The default body of the pull request opened by [submit]. *)
Definition default_pr_body (task : Task.t) (agent : AgentConfig.t) : string :=
  "## Task" +:+ newline +:+
  Task.description task +:+ newline +:+
  newline +:+
  "## Files affected" +:+ newline +:+
  (match Task.files task with
   | [] => "Not specified"
   | _ :: _ => join newline ((λ f, "- " +:+ f) <$> Task.files task)
   end) +:+ newline +:+
  newline +:+
  "---" +:+ newline +:+
  "Submitted by agent: " +:+ AgentConfig.name agent +:+ newline.

(** [gastown submit [--title T] [--body B]] *)
Definition submit (title body : option string) : Cmd unit :=
  agent ← lift (AgentConfig.require config);
  '(repo_root, registry) ← get_context;
  current_branch ← ask (Gitops.get_current_branch git);
  let default_branch := Gitops.get_default_branch git in
  if decide (current_branch = default_branch) then
    echo_err ("Error: You're on " +:+ default_branch +:+ ". Switch to a task branch first.") ;;
    sys_exit 1
  else
  (* Find the task for this branch *)
  match list_find (λ t, Task.branch t = Some current_branch) (Registry.tasks registry) with
  | None =>
      echo_err ("Error: No task found for branch '" +:+ current_branch +:+ "'.") ;;
      sys_exit 1
  | Some (i, task) =>
      if decide (Task.claimed_by task ≠ Some (AgentConfig.name agent)) then
        echo_err ("Error: This task is claimed by '" +:+ str_of (Task.claimed_by task)
                  +:+ "', not you.") ;;
        sys_exit 1
      else
      (* Check if rebased *)
      (if Gitops.has_remote git then
         perform Fetch (Gitops.fetch git) ;;
         rebased ← ask (Gitops.is_rebased git ("origin/" +:+ default_branch));
         if negb rebased then
           echo_err "Error: Branch is not rebased onto latest main." ;;
           echo_err "Run 'gastown sync' first." ;;
           sys_exit 1
         else mret tt
       else mret tt) ;;
      (* Push branch *)
      try_except_GitError
        (perform (Push current_branch true) (Gitops.push git current_branch true))
        (λ e, echo_err ("Push failed: " +:+ e) ;; sys_exit 1) ;;
      (* Create PR *)
      let pr_title := or_else title (Task.id task +:+ ": " +:+ Task.description task) in
      let pr_body := or_else body (default_pr_body task agent) in
      try_except_GitError
        (perform (CreatePR pr_title pr_body default_branch)
                 (Gitops.create_pr git pr_title pr_body default_branch) ;;
         mret tt)
        (λ e, echo_err ("Failed to create PR: " +:+ e) ;;
              echo_err "You may need to create the PR manually.") ;;
      (* Update task status *)
      let registry := Registry.update_task i (Task.set_status REVIEW) registry in
      save registry ;;
      (* Commit registry update *)
      perform (StageFile "gastown.yaml") (Gitops.stage_file git "gastown.yaml") ;;
      perform (Commit ("[gastown] Submit task for review: " +:+ Task.id task))
              (Gitops.commit git ("[gastown] Submit task for review: " +:+ Task.id task)) ;;
      perform (Push current_branch false) (Gitops.push git current_branch false) ;;
      mret tt
  end.

(** The first pull request of the list whose branch is the task's. *)
Definition matching_pr (task : Task.t) (prs : list Gitops.PRInfo)
    : option (nat * Gitops.PRInfo) :=
  list_find (λ pr, Some (Gitops.branch pr) = Task.branch task) prs.

(** [gastown approve TASK_ID] *)
Definition approve (task_id : string) : Cmd unit :=
  agent ← lift (AgentConfig.require config);
  '(repo_root, registry) ← get_context;
  match Registry.find_task registry task_id with
  | None =>
      echo_err ("Error: Task '" +:+ task_id +:+ "' not found.") ;;
      sys_exit 1
  | Some (i, task) =>
      if decide (Task.status task ≠ REVIEW) then
        echo_err ("Error: Task is not in review (status: "
                  +:+ Status.value (Task.status task) +:+ ").") ;;
        sys_exit 1
      else
      if decide (Task.claimed_by task = Some (AgentConfig.name agent)) then
        echo_err "Error: You cannot approve your own task." ;;
        sys_exit 1
      else
      (* Try to find and approve the PR *)
      try_except_GitError
        (prs ← ask (Gitops.list_prs git "open");
         match matching_pr task prs with
         | Some (_, pr) =>
             perform (ApprovePR (Gitops.number pr)) (Gitops.approve_pr git (Gitops.number pr))
         | None => mret tt
         end)
        (λ _, mret tt) ;;
      mret tt
  end.

(** [gastown merge TASK_ID] *)
Definition merge_task (task_id : string) : Cmd unit :=
  agent ← lift (AgentConfig.require config);
  '(repo_root, registry) ← get_context;
  match Registry.find_task registry task_id with
  | None =>
      echo_err ("Error: Task '" +:+ task_id +:+ "' not found.") ;;
      sys_exit 1
  | Some (i, task) =>
      if decide (Task.status task ≠ REVIEW) then
        echo_err ("Error: Task is not in review (status: "
                  +:+ Status.value (Task.status task) +:+ ").") ;;
        sys_exit 1
      else
      (* Try to find and merge the PR *)
      try_except_GitError
        (prs ← ask (Gitops.list_prs git "open");
         match matching_pr task prs with
         | Some (_, pr) =>
             perform (MergePR (Gitops.number pr)) (Gitops.merge_pr git (Gitops.number pr))
         | None =>
             echo_err "No matching PR found on GitHub." ;;
             echo_err "You may need to merge manually." ;;
             sys_exit 1
         end)
        (λ e, echo_err ("Merge failed: " +:+ e) ;; sys_exit 1) ;;
      (* Update task status *)
      let registry := Registry.update_task i (Task.set_status MERGED) registry in
      save registry ;;
      (* Need to update registry on main branch *)
      let default_branch := Gitops.get_default_branch git in
      perform (SwitchBranch default_branch) (Gitops.switch_branch git default_branch) ;;
      perform Pull (Gitops.pull git) ;;
      (* Registry should be updated - save and commit *)
      perform (StageFile "gastown.yaml") (Gitops.stage_file git "gastown.yaml") ;;
      perform (Commit ("[gastown] Mark task as merged: " +:+ task_id))
              (Gitops.commit git ("[gastown] Mark task as merged: " +:+ task_id)) ;;
      perform (Push default_branch false) (Gitops.push git default_branch false) ;;
      mret tt
  end.

End Commands.

End Cli.

(** * Specification-side notions

    The definitions below follow the wording of the specification; the
    theorems relate them to the code above. *)

(** [p] is a prefix of [s], as plain strings. *)
Definition is_prefix (p s : string) : Prop := ∃ k, s = p +:+ k.

Fixpoint slashes (n : nat) : string :=
  match n with
  | O => ""
  | S n' => String.String "/"%char (slashes n')
  end.

Definition ends_with_slash (s : string) : Prop := ∃ r, s = r +:+ "/".

(** [q] is [p] with its trailing slashes stripped. *)
Definition stripped (p q : string) : Prop :=
  (∃ n, p = q +:+ slashes n) ∧ ¬ ends_with_slash q.

(** The descriptor reported for one dependency id, if it is unmet. *)
Definition unmet_descriptor (registry : Registry.t) (dep_id : string) : option string :=
  match Registry.get_task registry dep_id with
  | None => Some (dep_id +:+ " (not found)")
  | Some dep =>
      if decide (Task.status dep = MERGED) then None
      else Some (dep_id +:+ " (status: " +:+ Status.value (Task.status dep) +:+ ")")
  end.

(** The dependency exists and is Merged. *)
Definition dependency_merged (registry : Registry.t) (dep_id : string) : Prop :=
  ∃ dep, Registry.get_task registry dep_id = Some dep ∧ Task.status dep = MERGED.

(** The active statuses: Claimed, InProgress, Review. *)
Definition is_active (s : TaskStatus) : bool :=
  match s with
  | CLAIMED | IN_PROGRESS | REVIEW => true
  | PENDING | MERGED => false
  end.

(** The conflicts of [task] with one other task: the task's files in order,
    and for each of them the other's files in order. *)
Definition conflicts_between (task other : Task.t) : list (string * Task.t) :=
  task_file ← Task.files task;
  other_file ← Task.files other;
  if Registry._paths_overlap task_file other_file then [(task_file, other)] else [].

(** The conflicts of [task]: the other active tasks in registry order. *)
Definition file_conflicts (registry : Registry.t) (task : Task.t) : list (string * Task.t) :=
  other ← Registry.tasks registry;
  if decide (Task.id other ≠ Task.id task ∧ is_active (Task.status other) = true)
  then conflicts_between task other
  else [].

(** An optional string as it is read back: the empty string is written as
    an absent field. *)
Definition absent_if_empty (o : option string) : option string :=
  if truthy o then o else None.

Definition normalize_task (task : Task.t) : Task.t :=
  Task.set_branch (absent_if_empty (Task.branch task))
    (Task.set_claimed_by (absent_if_empty (Task.claimed_by task)) task).

Definition normalize (registry : Registry.t) : Registry.t :=
  Registry.mk (Registry.goal registry) (normalize_task <$> Registry.tasks registry).

(** Neither optional field of the task holds the empty string. *)
Definition no_empty_optional (task : Task.t) : Prop :=
  Task.claimed_by task ≠ Some "" ∧ Task.branch task ≠ Some "".

(** The keys of a written task, in the order of the persisted layout, the
    empty optional fields left out. *)
Definition layout_keys (task : Task.t) : list string :=
  ["id"; "description"; "status"]
  ++ (if truthy (Task.claimed_by task) then ["claimed_by"] else [])
  ++ (if truthy (Task.branch task) then ["branch"] else [])
  ++ (if bool_decide (Task.files task ≠ []) then ["files"] else [])
  ++ (if bool_decide (Task.depends_on task ≠ []) then ["depends_on"] else []).

(** ** Workflow *)

(** The command returns normally (exit status 0). *)
Definition succeeds {A : Type} (run : Cmd A) : Prop := ∃ a, run.1 = inr a.

(** The command persists a registry. *)
Definition mutates_registry {A : Type} (run : Cmd A) : Prop :=
  ∃ document, SaveRegistry document ∈ run.2.

(** The collaborator's call returned. *)
Definition ok {A : Type} (o : Gitops.outcome A) : Prop := ∃ a, o = inr a.

(** The conditions of the specification for a claim to succeed. *)
Definition claim_conditions (registry : Registry.t) (task_id : string) (force : bool) : Prop :=
  ∃ task,
    Registry.get_task registry task_id = Some task
    ∧ Task.status task = PENDING
    ∧ (Registry.check_dependencies registry task = [] ∨ force = true)
    ∧ (Registry.check_file_conflicts registry task = [] ∨ force = true).

(** The branch of a claim: agent/<agentName>/<taskId>. *)
Definition claim_branch (agent_name task_id : string) : string :=
  "agent/" +:+ agent_name +:+ "/" +:+ task_id.

(** What a claim needs of the repository: the branch is new, and the git
    steps of the claim go through (a failing pull does not matter). *)
Definition git_allows_claim (git : Gitops.t) (branch_name task_id : string) : Prop :=
  Gitops.branch_exists git branch_name = false
  ∧ ok (Gitops.switch_branch git (Gitops.get_default_branch git))
  ∧ ok (Gitops.create_branch git branch_name)
  ∧ ok (Gitops.stage_file git "gastown.yaml")
  ∧ ok (Gitops.commit git ("[gastown] Claim task: " +:+ task_id)).

(** The task as a successful claim leaves it. *)
Definition claimed_task (agent_name task_id : string) (task : Task.t) : Task.t :=
  Task.mk (Task.id task) (Task.description task) CLAIMED
    (Some agent_name) (Some (claim_branch agent_name task_id))
    (Task.files task) (Task.depends_on task).

(** The effects of a successful claim. *)
Definition claim_effects (git : Gitops.t) (agent_name task_id : string)
    (registry : Registry.t) (i : nat) (task : Task.t) : list Effect :=
  [SwitchBranch (Gitops.get_default_branch git)]
  ++ (if Gitops.has_remote git then
        match Gitops.pull git with inr _ => [Pull] | inl _ => [] end
      else [])
  ++ [CreateBranch (claim_branch agent_name task_id);
      SaveRegistry
        (Registry.save
           (Registry.mk (Registry.goal registry)
              (<[i := claimed_task agent_name task_id task]> (Registry.tasks registry))));
      StageFile "gastown.yaml";
      Commit ("[gastown] Claim task: " +:+ task_id)].

(** The rebase check of [submit]: without a remote there is no check; with
    one, the fetch goes through and the branch is rebased onto the remote
    tip of the default branch. *)
Definition rebase_check_passes (git : Gitops.t) : Prop :=
  if Gitops.has_remote git
  then ok (Gitops.fetch git)
       ∧ Gitops.is_rebased git ("origin/" +:+ Gitops.get_default_branch git) = inr true
  else True.

(** The effects of the rebase check when it passes. *)
Definition rebase_check_effects (git : Gitops.t) : list Effect :=
  if Gitops.has_remote git then [Fetch] else [].

(** The pull request does not belong to the task's branch. *)
Definition other_branch (task : Task.t) (pr : Gitops.PRInfo) : Prop :=
  Some (Gitops.branch pr) ≠ Task.branch task.

(** The registry with the status of the task at position [i] replaced. *)
Definition with_status (s : TaskStatus) (i : nat) (task : Task.t)
    (registry : Registry.t) : Registry.t :=
  Registry.mk (Registry.goal registry)
    (<[i := Task.set_status s task]> (Registry.tasks registry)).

(** The registry documents a command writes, in order. *)
Definition saved_documents (trace : list Effect) : list yaml :=
  omap (λ e, match e with SaveRegistry document => Some document | _ => None end) trace.

(** No task of [after] is behind its status in [before]. *)
Definition never_backward (before after : Registry.t) : Prop :=
  Forall2 (λ task task', Status.rank (Task.status task) ≤ Status.rank (Task.status task'))
    (Registry.tasks before) (Registry.tasks after).

(** ** Concrete repositories, used to exercise the statements *)

Module Examples.

Definition alice : AgentConfig.t := AgentConfig.mk "alice".
Definition bob : AgentConfig.t := AgentConfig.mk "bob".

(** A repository without remote where every call goes through: [current]
    is checked out and [prs] are the open pull requests. *)
Definition cooperative (current : string) (prs : list Gitops.PRInfo) : Gitops.t :=
  Gitops.mk (inr "/repo") (inr current) "main" (λ _, false) false
    (λ _, inr tt) (λ _, inr tt) (λ _, inr tt) (λ _, inr tt) (inr tt)
    (λ _ _, inr tt) (inr tt) (λ _, inr true)
    (λ title _ _, inr (Gitops.mkPR 1 title current "" "https://example.org/pull/1"))
    (λ _, inr prs) (λ _, inr tt) (λ _, inr tt).

(** The same repository with a remote, fetched and rebased onto. *)
Definition with_remote (git : Gitops.t) : Gitops.t :=
  Gitops.mk (Gitops.get_repo_root git) (Gitops.get_current_branch git)
    (Gitops.get_default_branch git) (Gitops.branch_exists git) true
    (Gitops.create_branch git) (Gitops.switch_branch git) (Gitops.commit git)
    (Gitops.stage_file git) (Gitops.pull git) (Gitops.push git) (inr tt)
    (λ _, inr true) (Gitops.create_pr git) (Gitops.list_prs git)
    (Gitops.approve_pr git) (Gitops.merge_pr git).

(** The same repository, where every branch name is already taken. *)
Definition branch_taken (git : Gitops.t) : Gitops.t :=
  Gitops.mk (Gitops.get_repo_root git) (Gitops.get_current_branch git)
    (Gitops.get_default_branch git) (λ _, true) (Gitops.has_remote git)
    (Gitops.create_branch git) (Gitops.switch_branch git) (Gitops.commit git)
    (Gitops.stage_file git) (Gitops.pull git) (Gitops.push git) (Gitops.fetch git)
    (Gitops.is_rebased git) (Gitops.create_pr git) (Gitops.list_prs git)
    (Gitops.approve_pr git) (Gitops.merge_pr git).

(** The same repository, where the hosting service refuses to open or to
    merge a pull request. *)
Definition hosting_refuses (git : Gitops.t) : Gitops.t :=
  Gitops.mk (Gitops.get_repo_root git) (Gitops.get_current_branch git)
    (Gitops.get_default_branch git) (Gitops.branch_exists git) (Gitops.has_remote git)
    (Gitops.create_branch git) (Gitops.switch_branch git) (Gitops.commit git)
    (Gitops.stage_file git) (Gitops.pull git) (Gitops.push git) (Gitops.fetch git)
    (Gitops.is_rebased git) (λ _ _ _, inl "refused") (Gitops.list_prs git)
    (Gitops.approve_pr git) (λ _, inl "refused").

(** The same repository, where nothing can be pushed. *)
Definition push_rejected (git : Gitops.t) : Gitops.t :=
  Gitops.mk (Gitops.get_repo_root git) (Gitops.get_current_branch git)
    (Gitops.get_default_branch git) (Gitops.branch_exists git) (Gitops.has_remote git)
    (Gitops.create_branch git) (Gitops.switch_branch git) (Gitops.commit git)
    (Gitops.stage_file git) (Gitops.pull git) (λ _ _, inl "rejected") (Gitops.fetch git)
    (Gitops.is_rebased git) (Gitops.create_pr git) (Gitops.list_prs git)
    (Gitops.approve_pr git) (Gitops.merge_pr git).

Definition t1 (s : TaskStatus) (owner branch_ : option string) : Task.t :=
  Task.mk "t1" "D" s owner branch_ ["src/a"] [].

Definition t1_pending : Task.t := t1 PENDING None None.
Definition t1_claimed : Task.t := t1 CLAIMED (Some "alice") (Some "agent/alice/t1").
Definition t1_review : Task.t := t1 REVIEW (Some "alice") (Some "agent/alice/t1").
Definition t1_merged : Task.t := t1 MERGED (Some "alice") (Some "agent/alice/t1").

(** A claimed task that declares no files. *)
Definition unscoped : Task.t := Task.mk "t2" "E" CLAIMED (Some "bob") None [] [].

(** A task claimed by an agent whose name is the empty string. *)
Definition anonymous : Task.t :=
  Task.mk "t3" "F" CLAIMED (Some "") (Some "agent//t3") [] [].

Definition fresh : Registry.t := Registry.mk "G" [t1_pending].
Definition claimed : Registry.t := Registry.mk "G" [t1_claimed].
Definition in_review : Registry.t := Registry.mk "G" [t1_review].
Definition merged : Registry.t := Registry.mk "G" [t1_merged].
Definition busy : Registry.t := Registry.mk "G" [t1_review; unscoped].
Definition with_anonymous : Registry.t := Registry.mk "G" [anonymous].

(** Dependencies: "a" is Merged, "b" is Claimed, "z" does not exist. *)
Definition dep (task_id : string) (s : TaskStatus) : Task.t :=
  Task.mk task_id "" s None None [] [].
Definition dependent : Task.t := Task.mk "c" "" PENDING None None [] ["a"; "b"; "z"].
Definition with_dependencies : Registry.t :=
  Registry.mk "G" [dep "a" MERGED; dep "b" CLAIMED; dependent].

(** File scopes: "x" declares src/x, "y" declares a file below it. *)
Definition scoped (task_id : string) (s : TaskStatus) (files_ : list string) : Task.t :=
  Task.mk task_id "" s None None files_ [].
Definition overlapping (s : TaskStatus) : Registry.t :=
  Registry.mk "G" [scoped "x" PENDING ["src/x"]; scoped "y" s ["src/x/y.py"]].

(** The open pull request of t1, behind an unrelated one. *)
Definition pr_other : Gitops.PRInfo :=
  Gitops.mkPR 6 "t0: C" "agent/bob/t0" "bob" "https://example.org/pull/6".
Definition pr_t1 : Gitops.PRInfo :=
  Gitops.mkPR 7 "t1: D" "agent/alice/t1" "alice" "https://example.org/pull/7".

End Examples.

(** ** Further notions, for the properties beyond the specification's *)

(** The seven keys [Task.from_dict] reads. *)
Definition task_keys : list string :=
  ["id"; "description"; "status"; "claimed_by"; "branch"; "files"; "depends_on"].

(** ** cli: the commands that administer the registry *)

Module CliAdmin.

Section Commands.

Context (git : Gitops.t)
        (file : option yaml).

(** [gastown new-task TASK_ID DESCRIPTION [-f FILE]... [-d TASK]...] *)
Definition new_task (task_id description : string) (files depends : list string)
    : Cmd unit :=
  '(repo_root, registry) ← Cli.get_context git file;
  match Registry.get_task registry task_id with
  | Some _ =>
      echo_err ("Error: Task '" +:+ task_id +:+ "' already exists.") ;;
      sys_exit 1
  | None =>
      let task := Task.mk task_id description PENDING None None files depends in
      let registry := Registry.mk (Registry.goal registry) (Registry.tasks registry ++ [task]) in
      Cli.save registry ;;
      mret tt
  end.

(** [gastown create-registry GOAL]. The registry file exists when [file]
    holds a document, whatever the document. *)
Definition create_registry (goal : string) : Cmd unit :=
  repo_root ← try_except_GitError (ask (Gitops.get_repo_root git))
                (λ _, echo_err "Error: Not in a git repository." ;; sys_exit 1);
  let registry_path := Registry.registry_path repo_root in
  if bool_decide (is_Some file) then
    echo_err ("Error: " +:+ registry_path +:+ " already exists.") ;;
    sys_exit 1
  else
  let registry := Registry.mk goal [] in
  Cli.save registry ;;
  mret tt.

End Commands.

End CliAdmin.

(** The effect is a line on standard error. *)
Definition is_stderr (e : Effect) : Prop := ∃ line, e = EchoErr line.

(** The message of [AgentConfig.require] for a missing configuration. *)
Definition not_initialized : string :=
  "Agent not initialized. Run 'gastown init <name>' first.".

(** What a command makes of a registry that does not load: a missing file
    is reported; any other exception of the load is not caught. *)
Definition load_failure (e : Exn) : Cmd unit :=
  match e with
  | FileNotFoundError msg => (inl (SystemExit 1), [EchoErr ("Error: " +:+ msg)])
  | _ => (inl e, [])
  end.

(** The exceptions of reading a document. *)
Definition is_data_error (e : Exn) : Prop :=
  match e with
  | FileNotFoundError _ | KeyError _ | ValueError _ | TypeError _ | AttributeError _ => True
  | GitError _ | SystemExit _ | RuntimeError _ => False
  end.

Module MoreExamples.

(** A directory that is not a git repository. *)
Definition outside_repository : Gitops.t :=
  Gitops.mk (inl "fatal: not a git repository") (inl "fatal: not a git repository")
    "master" (λ _, false) false
    (λ _, inl "fatal") (λ _, inl "fatal") (λ _, inl "fatal") (λ _, inl "fatal") (inl "fatal")
    (λ _ _, inl "fatal") (inl "fatal") (λ _, inl "fatal")
    (λ _ _ _, inl "fatal") (λ _, inl "fatal") (λ _, inl "fatal") (λ _, inl "fatal").

(** Two active tasks on overlapping files. *)
Definition api : Task.t :=
  Task.mk "api" "" CLAIMED (Some "alice") (Some "agent/alice/api") ["src/api/"] [].
Definition api_tests : Task.t :=
  Task.mk "api-tests" "" REVIEW (Some "bob") (Some "agent/bob/api-tests")
    ["src/api/tests/test_users.py"] [].
Definition overlapping_work : Registry.t := Registry.mk "G" [api; api_tests].

(** A task that depends on itself. *)
Definition circular : Task.t := Task.mk "loop" "" PENDING None None [] ["loop"].
Definition with_circular : Registry.t := Registry.mk "G" [circular].

End MoreExamples.


(** The git steps of a merge after the pull request is merged. *)
Definition git_allows_merge (git : Gitops.t) (task_id : string) : Prop :=
  ok (Gitops.switch_branch git (Gitops.get_default_branch git))
  ∧ ok (Gitops.pull git)
  ∧ ok (Gitops.stage_file git "gastown.yaml")
  ∧ ok (Gitops.commit git ("[gastown] Mark task as merged: " +:+ task_id))
  ∧ ok (Gitops.push git (Gitops.get_default_branch git) false).


(** The task a successful [new-task] appends. *)
Definition fresh_task (task_id description : string) (files depends : list string) : Task.t :=
  Task.mk task_id description PENDING None None files depends.

(** The ids of the registry, in order. *)
Definition task_ids (registry : Registry.t) : list string :=
  Task.id <$> Registry.tasks registry.

(** The fields no command assigns: id, description, files, dependencies. *)
Definition same_definition (task task' : Task.t) : Prop :=
  Task.id task' = Task.id task
  ∧ Task.description task' = Task.description task
  ∧ Task.files task' = Task.files task
  ∧ Task.depends_on task' = Task.depends_on task.

(** [after] keeps the goal and every task of [before], in place and with
    its definition, and may have tasks added at the end. *)
Definition evolves (before after : Registry.t) : Prop :=
  Registry.goal after = Registry.goal before
  ∧ ∃ kept added,
      Registry.tasks after = kept ++ added
      ∧ Forall2 same_definition (Registry.tasks before) kept.

(** ** agent: the configuration file *)

Module AgentFile.

(** [config.save()]: the document written to ~/.gastown/config.yaml. *)
Definition save (self : AgentConfig.t) : yaml :=
  YMap [("name", YStr (AgentConfig.name self))].

(** [AgentConfig.load()]; [file] is the parsed configuration file, [None]
    when it does not exist. Subscripting a document that is not a mapping
    raises [TypeError]. *)
Definition load (file : option yaml) : Exn + option AgentConfig.t :=
  match file with
  | None => inr None
  | Some (YMap data) =>
      let! v := dict_item "name" data in
      let! name_ := as_str v in
      inr (Some (AgentConfig.mk name_))
  | Some _ => inl (TypeError "subscript")
  end.

(** [AgentConfig.require()], from the file. *)
Definition require (file : option yaml) : Exn + AgentConfig.t :=
  let! config := load file in
  AgentConfig.require config.

(** [get_agent_name()] *)
Definition get_agent_name (file : option yaml) : Exn + string :=
  let! config := require file in
  inr (AgentConfig.name config).

(** [gastown init NAME]: the configuration file it writes. *)
Definition init (name_ : string) : yaml := save (AgentConfig.mk name_).

End AgentFile.

(** ** gitops, function by function, over [subprocess.run]

    [run argv cwd] is the completed process of
    [subprocess.run(argv, cwd=cwd, capture_output=True, text=True)], and
    [strip] is [str.strip]; both are taken as given.  A wrapper returns or
    raises, and leaves the list of the processes it started.  [int_of] is
    [int] on a string, [str_of_int] is [str] on an integer and [json_loads]
    is [json.loads], taken as given as well. *)

Module Subprocess.

Record CompletedProcess := mk {
  returncode : Z;
  stdout : string;
  stderr : string;
}.

(** What a run leaves behind: the processes it started, each with its
    command line and working directory, and the lines it wrote on standard
    error. *)
Inductive Event :=
| Started (argv : list string) (cwd : option string)
| Stderr (line : string).

End Subprocess.

(** Parsed JSON, as [json.loads] returns it (numbers are integers here). *)
Inductive json :=
| JNull
| JBool (b : bool)
| JNum (n : Z)
| JStr (s : string)
| JArr (items : list json)
| JObj (members : list (string * json)).

Definition Proc (A : Type) : Type := (Exn + A) * list Subprocess.Event.

Global Instance Proc_ret : MRet Proc := λ A a, (inr a, []).

Global Instance Proc_bind : MBind Proc := λ A B k m,
  match m with
  | (inl e, log) => (inl e, log)
  | (inr a, log) => let '(r, log') := k a in (r, log ++ log')
  end.

(** [try: body except GitError: handler(message)] *)
Definition proc_except_GitError {A : Type} (body : Proc A) (handler : string → Proc A)
    : Proc A :=
  match body with
  | (inl (GitError msg), log) => let '(r, log') := handler msg in (r, log ++ log')
  | _ => body
  end.

(** [s.split(sep)] for a one-character separator. *)
Fixpoint split_on (sep : ascii) (s : string) : list string :=
  match s with
  | "" => [""]
  | String.String c rest =>
      if Ascii.eqb c sep then "" :: split_on sep rest
      else match split_on sep rest with
           | [] => [String.String c ""]
           | word :: words => String.String c word :: words
           end
  end.

Module Wrappers.

Section Wrappers.

Context (strip : string → string)
        (int_of : string → Exn + Z)
        (str_of_int : Z → string)
        (json_loads : string → Exn + json)
        (run : list string → option string → Subprocess.CompletedProcess).

(** [subprocess.run(argv, cwd=cwd, capture_output=True, text=True)] *)
Definition spawn (argv : list string) (cwd : option string)
    : Proc Subprocess.CompletedProcess :=
  (inr (run argv cwd), [Subprocess.Started argv cwd]).

(** [run_git(args..., cwd=cwd, check=check)] *)
Definition run_git (args : list string) (cwd : option string) (check : bool) : Proc string :=
  result ← spawn ("git" :: args) cwd;
  if check && negb (Subprocess.returncode result =? 0)%Z then
    (inl (GitError ("git " +:+ join " " args +:+ " failed: "
                    +:+ strip (Subprocess.stderr result))), [])
  else mret (strip (Subprocess.stdout result)).

Definition get_repo_root (cwd : option string) : Proc string :=
  run_git ["rev-parse"; "--show-toplevel"] cwd true.

Definition get_current_branch (cwd : option string) : Proc string :=
  run_git ["rev-parse"; "--abbrev-ref"; "HEAD"] cwd true.

Definition get_default_branch (cwd : option string) : Proc string :=
  proc_except_GitError
    (run_git ["rev-parse"; "--verify"; "main"] cwd true ;; mret "main")
    (λ _, mret "master").

Definition branch_exists (branch : string) (cwd : option string) : Proc bool :=
  proc_except_GitError
    (run_git ["rev-parse"; "--verify"; branch] cwd true ;; mret true)
    (λ _, mret false).

Definition create_branch (branch : string) (cwd : option string) : Proc unit :=
  run_git ["checkout"; "-b"; branch] cwd true ;; mret tt.

Definition switch_branch (branch : string) (cwd : option string) : Proc unit :=
  run_git ["checkout"; branch] cwd true ;; mret tt.

Definition commit (message : string) (cwd : option string) : Proc unit :=
  run_git ["commit"; "-m"; message] cwd true ;; mret tt.

Definition stage_file (path : string) (cwd : option string) : Proc unit :=
  run_git ["add"; path] cwd true ;; mret tt.

(** [bool(s)] of a string *)
Definition nonempty (s : string) : bool := negb (String.eqb s "").

Definition has_changes (cwd : option string) : Proc bool :=
  status ← run_git ["status"; "--porcelain"] cwd true;
  mret (nonempty status).

Definition has_staged_changes (cwd : option string) : Proc bool :=
  diff ← run_git ["diff"; "--cached"; "--name-only"] cwd true;
  mret (nonempty diff).

Definition pull (cwd : option string) : Proc unit :=
  run_git ["pull"] cwd true ;; mret tt.

Definition push (branch : string) (set_upstream : bool) (cwd : option string) : Proc unit :=
  if set_upstream
  then run_git ["push"; "-u"; "origin"; branch] cwd true ;; mret tt
  else run_git ["push"] cwd true ;; mret tt.

Definition rebase (base : string) (cwd : option string) : Proc unit :=
  run_git ["rebase"; base] cwd true ;; mret tt.

Definition fetch (cwd : option string) : Proc unit :=
  run_git ["fetch"; "--all"] cwd true ;; mret tt.

Definition is_rebased (base : string) (cwd : option string) : Proc bool :=
  merge_base ← run_git ["merge-base"; "HEAD"; base] cwd true;
  base_commit ← run_git ["rev-parse"; base] cwd true;
  mret (bool_decide (merge_base = base_commit)).

Definition get_remote_url (cwd : option string) : Proc (option string) :=
  proc_except_GitError
    (url ← run_git ["remote"; "get-url"; "origin"] cwd true; mret (Some url))
    (λ _, mret None).

Definition has_remote (cwd : option string) : Proc bool :=
  url ← get_remote_url cwd;
  mret (bool_decide (url ≠ None)).

(** [items[-1]] of a list that [split] returned (never empty). *)
Definition last_item (items : list string) : string := default "" (last items).

(** [create_pr(title, body, base, cwd)] *)
Definition create_pr (title body base : string) (cwd : option string)
    : Proc Gitops.PRInfo :=
  run_git ["gh"; "pr"; "create"; "--title"; title; "--body"; body; "--base"; base]
    None true ;;
  proc ← spawn ["gh"; "pr"; "create"; "--title"; title; "--body"; body; "--base"; base] cwd;
  if negb (Subprocess.returncode proc =? 0)%Z then
    (inl (GitError ("Failed to create PR: " +:+ strip (Subprocess.stderr proc))), [])
  else
  let url := strip (Subprocess.stdout proc) in
  match int_of (last_item (split_on "/" url)) with
  | inl e => (inl e, [])
  | inr number =>
      branch ← get_current_branch cwd;
      mret (Gitops.mkPR number title branch "" url)
  end.

(** [d.get(key)] and [d[key]] on the members of a JSON object. *)
Fixpoint json_get (key : string) (members : list (string * json)) : option json :=
  match members with
  | [] => None
  | (k, v) :: rest => if String.eqb k key then Some v else json_get key rest
  end.

Definition json_item (key : string) (value : json) : Exn + json :=
  match value with
  | JObj members =>
      match json_get key members with
      | Some v => inr v
      | None => inl (KeyError key)
      end
  | _ => inl (TypeError "subscript")
  end.

(** Truth value of a JSON value. *)
Definition json_truthy (value : json) : bool :=
  match value with
  | JNull | JBool false | JNum 0 | JStr "" | JArr [] | JObj [] => false
  | _ => true
  end.

Definition json_str (value : json) : Exn + string :=
  match value with
  | JStr s => inr s
  | _ => inl (TypeError "str")
  end.

Definition json_int (value : json) : Exn + Z :=
  match value with
  | JNum n => inr n
  | _ => inl (TypeError "int")
  end.

(** One entry of the listing as a [PRInfo]. A field of the wrong shape,
    which Python would store unchecked, is reported as [TypeError]. *)
Definition pr_info (pr : json) : Exn + Gitops.PRInfo :=
  let! v_number := json_item "number" pr in
  let! number_ := json_int v_number in
  let! v_title := json_item "title" pr in
  let! title_ := json_str v_title in
  let! v_branch := json_item "headRefName" pr in
  let! branch_ := json_str v_branch in
  let! author_ :=
    match pr with
    | JObj members =>
        match json_get "author" members with
        | Some author =>
            if json_truthy author then
              let! v_login := json_item "login" author in
              json_str v_login
            else inr ""
        | None => inr ""
        end
    | _ => inl (TypeError "get")
    end in
  let! v_url := json_item "url" pr in
  let! url_ := json_str v_url in
  inr (Gitops.mkPR number_ title_ branch_ author_ url_).

Fixpoint pr_infos (prs : list json) : Exn + list Gitops.PRInfo :=
  match prs with
  | [] => inr []
  | pr :: rest =>
      let! info := pr_info pr in
      let! infos := pr_infos rest in
      inr (info :: infos)
  end.

(** [list_prs(state, cwd)]. Iterating an empty object or string yields
    nothing; a non-empty one yields keys or characters, whose subscript
    raises [TypeError]. *)
Definition list_prs (state : string) (cwd : option string) : Proc (list Gitops.PRInfo) :=
  proc ← spawn ["gh"; "pr"; "list"; "--state"; state; "--json";
                "number,title,headRefName,author,url"] cwd;
  if negb (Subprocess.returncode proc =? 0)%Z then
    (inl (GitError ("Failed to list PRs: " +:+ strip (Subprocess.stderr proc))), [])
  else
  if nonempty (strip (Subprocess.stdout proc)) then
    match json_loads (Subprocess.stdout proc) with
    | inl e => (inl e, [])
    | inr (JArr prs) => (pr_infos prs, [])
    | inr (JObj []) | inr (JStr "") => mret []
    | inr _ => (inl (TypeError "iterate"), [])
    end
  else mret [].

(** [approve_pr(number, cwd)] *)
Definition approve_pr (number : Z) (cwd : option string) : Proc unit :=
  proc ← spawn ["gh"; "pr"; "review"; str_of_int number; "--approve"] cwd;
  if negb (Subprocess.returncode proc =? 0)%Z then
    (inl (GitError ("Failed to approve PR: " +:+ strip (Subprocess.stderr proc))), [])
  else mret tt.

(** [merge_pr(number, cwd)] *)
Definition merge_pr (number : Z) (cwd : option string) : Proc unit :=
  proc ← spawn ["gh"; "pr"; "merge"; str_of_int number; "--merge"; "--delete-branch"] cwd;
  if negb (Subprocess.returncode proc =? 0)%Z then
    (inl (GitError ("Failed to merge PR: " +:+ strip (Subprocess.stderr proc))), [])
  else mret tt.

(** [click.echo(line, err=True)] and [sys.exit(code)] *)
Definition proc_echo_err (line : string) : Proc unit := (inr tt, [Subprocess.Stderr line]).
Definition proc_exit {A : Type} (code : Z) : Proc A := (inl (SystemExit code), []).

(** [get_context()], over the wrappers. *)
Definition get_context (registry_file : option yaml) : Proc (string * Registry.t) :=
  repo_root ← proc_except_GitError (get_repo_root None)
                (λ _, proc_echo_err "Error: Not in a git repository." ;; proc_exit 1);
  registry ←
    match Registry.load repo_root registry_file with
    | inl (FileNotFoundError msg) => proc_echo_err ("Error: " +:+ msg) ;; proc_exit 1
    | inl e => (inl e, [])
    | inr registry => mret registry
    end;
  mret (repo_root, registry).

(** [gastown sync] *)
Definition sync (config_file registry_file : option yaml) : Proc unit :=
  agent ← ((AgentFile.require config_file, []) : Proc AgentConfig.t);
  '(repo_root, registry) ← get_context registry_file;
  current_branch ← get_current_branch (Some repo_root);
  default_branch ← get_default_branch (Some repo_root);
  if decide (current_branch = default_branch) then
    remote ← has_remote (Some repo_root);
    if (remote : bool) then
      fetch (Some repo_root) ;;
      pull (Some repo_root)
    else mret tt
  else
  changes ← has_changes (Some repo_root);
  if (changes : bool) then
    proc_echo_err "Error: You have uncommitted changes. Commit or stash first." ;;
    proc_exit 1
  else
  remote ← has_remote (Some repo_root);
  (if (remote : bool) then fetch (Some repo_root) else mret tt) ;;
  proc_except_GitError
    (rebase ("origin/" +:+ default_branch) (Some repo_root))
    (λ e, proc_echo_err ("Rebase failed: " +:+ e) ;;
          proc_echo_err "Resolve conflicts and run 'git rebase --continue'" ;;
          proc_exit 1).

End Wrappers.

End Wrappers.

(** A git process started in [cwd]. *)
Definition git_call (args : list string) (cwd : option string) : Subprocess.Event :=
  Subprocess.Started ("git" :: args) cwd.

(** The string has no slash. *)
Fixpoint no_slash (s : string) : Prop :=
  match s with
  | "" => True
  | String.String c rest => c ≠ "/"%char ∧ no_slash rest
  end.

(** The entry of a listing and the [PRInfo] made of it agree on the
    number and on the branch. *)
Definition same_pr (pr : json) (info : Gitops.PRInfo) : Prop :=
  Wrappers.json_item "number" pr = inr (JNum (Gitops.number info))
  ∧ Wrappers.json_item "headRefName" pr = inr (JStr (Gitops.branch info)).

(** What [sync] finds out first: the repository root, the current branch
    and the default branch, each by one git process. *)
Definition sync_probes (repo_root : string) : list Subprocess.Event :=
  [git_call ["rev-parse"; "--show-toplevel"] None;
   git_call ["rev-parse"; "--abbrev-ref"; "HEAD"] (Some repo_root);
   git_call ["rev-parse"; "--verify"; "main"] (Some repo_root)].

(** ** Concrete processes, used to exercise the statements *)

Module Scripted.

(** The ASCII characters that [str.strip] removes: tab, line feed, vertical
    tab, form feed, carriage return, the four separators 28 to 31, space. *)
Definition white : string :=
  String.string_of_list_ascii
    ["009"; "010"; "011"; "012"; "013"; "028"; "029"; "030"; "031"; " "]%char.

Fixpoint lstrip (chars s : string) : string :=
  match s with
  | "" => ""
  | String.String c rest => if str_contains c chars then lstrip chars rest else s
  end.

(** [str.strip] on ASCII text. *)
Definition strip (s : string) : string := rstrip white (lstrip white s).

Definition digit (c : ascii) : option Z :=
  let n := Z.of_nat (nat_of_ascii c) in
  if bool_decide (48 ≤ n ≤ 57)%Z then Some (n - 48)%Z else None.

Fixpoint decimal_from (acc : Z) (s : string) : option Z :=
  match s with
  | "" => Some acc
  | String.String c rest =>
      match digit c with
      | Some d => decimal_from (10 * acc + d) rest
      | None => None
      end
  end.

(** [int] on a string of decimal digits, the only strings the examples
    convert (Python also reads a sign, underscores and surrounding white
    space). *)
Definition int_of (s : string) : Exn + Z :=
  match s with
  | "" => inl (ValueError "invalid literal for int()")
  | _ =>
      match decimal_from 0 s with
      | Some n => inr n
      | None => inl (ValueError "invalid literal for int()")
      end
  end.

(** Processes that answer from a table of command lines; a command line
    that is not in the table fails. *)
Fixpoint answer (table : list (list string * Subprocess.CompletedProcess))
    (argv : list string) : Subprocess.CompletedProcess :=
  match table with
  | [] => Subprocess.mk 1 "" "unknown command"
  | (known, result) :: rest => if decide (argv = known) then result else answer rest argv
  end.

Definition run (table : list (list string * Subprocess.CompletedProcess))
    (argv : list string) (cwd : option string) : Subprocess.CompletedProcess :=
  answer table argv.

Definition ok_with (out : string) : Subprocess.CompletedProcess := Subprocess.mk 0 out "".

Definition newline_ : string := String.String "010"%char "".

(** A clone in /repo, with the given branch checked out. *)
Definition clone (current : string) : list (list string * Subprocess.CompletedProcess) :=
  [(["git"; "rev-parse"; "--show-toplevel"], ok_with ("/repo" +:+ newline_));
   (["git"; "rev-parse"; "--abbrev-ref"; "HEAD"], ok_with (current +:+ newline_));
   (["git"; "rev-parse"; "--verify"; "main"], ok_with ("0a1b2c3" +:+ newline_))].

(** The hosting tool prints the address of the pull request it opened. *)
Definition pr_opened : list (list string * Subprocess.CompletedProcess) :=
  [(["git"; "gh"; "pr"; "create"; "--title"; "T"; "--body"; "B"; "--base"; "main"],
    ok_with "");
   (["gh"; "pr"; "create"; "--title"; "T"; "--body"; "B"; "--base"; "main"],
    ok_with ("https://github.com/o/r/pull/12" +:+ newline_))].

(** The working tree of the clone has an uncommitted change. *)
Definition dirty : list (list string * Subprocess.CompletedProcess) :=
  [(["git"; "status"; "--porcelain"], ok_with (" M src/a" +:+ newline_))].

End Scripted.

Module Scenarios.

(** The same repository, where git refuses every commit. *)
Definition commit_refused (git : Gitops.t) : Gitops.t :=
  Gitops.mk (Gitops.get_repo_root git) (Gitops.get_current_branch git)
    (Gitops.get_default_branch git) (Gitops.branch_exists git) (Gitops.has_remote git)
    (Gitops.create_branch git) (Gitops.switch_branch git) (λ _, inl "nothing to commit")
    (Gitops.stage_file git) (Gitops.pull git) (Gitops.push git) (Gitops.fetch git)
    (Gitops.is_rebased git) (Gitops.create_pr git) (Gitops.list_prs git)
    (Gitops.approve_pr git) (Gitops.merge_pr git).

End Scenarios.

(** * Properties *)

(** ** Strings *)

Lemma append_cons (c : ascii) (s t : string) :
  String.String c s +:+ t = String.String c (s +:+ t).
Proof. reflexivity. Qed.

Lemma append_nil_l (s : string) : "" +:+ s = s.
Proof. reflexivity. Qed.

Lemma append_nil_r (s : string) : s +:+ "" = s.
Proof. induction s as [|c s IH]; [done | by rewrite append_cons, IH]. Qed.

Lemma append_assoc (a b c : string) : (a +:+ b) +:+ c = a +:+ (b +:+ c).
Proof. induction a as [|x a IH]; [done | by rewrite !append_cons, IH]. Qed.

Lemma append_inj_l (a b c : string) : a +:+ b = a +:+ c → b = c.
Proof.
  induction a as [|x a IH]; [done |].
  rewrite !append_cons. intros [= H]. by apply IH.
Qed.

Lemma ascii_eqb_true (a b : ascii) : Ascii.eqb a b = true ↔ a = b.
Proof. apply Ascii.eqb_eq. Qed.

Lemma startswith_is_prefix (s p : string) : startswith s p = true ↔ is_prefix p s.
Proof.
  revert s. induction p as [|a p IH]; intros s.
  - split; [intros _; by exists s | by destruct s].
  - destruct s as [|b s]; simpl.
    + split; [done | intros [k Hk]; discriminate Hk].
    + destruct (Ascii.eqb a b) eqn:Hab.
      * apply ascii_eqb_true in Hab as ->. rewrite IH.
        split; intros [k Hk]; exists k.
        -- by rewrite append_cons, Hk.
        -- rewrite append_cons in Hk. by injection Hk.
      * split; [done |]. intros [k Hk]. rewrite append_cons in Hk.
        injection Hk as -> _. by rewrite Ascii.eqb_refl in Hab.
Qed.

Lemma is_prefix_refl (s : string) : is_prefix s s.
Proof. exists "". by rewrite append_nil_r. Qed.

Lemma ends_with_slash_cons (c : ascii) (s : string) :
  ends_with_slash (String.String c s) ↔ (s = "" ∧ c = "/"%char) ∨ ends_with_slash s.
Proof.
  split.
  - intros [r Hr]. destruct r as [|d r].
    + rewrite append_nil_l in Hr. injection Hr as -> ->. by left.
    + rewrite append_cons in Hr. injection Hr as -> ->. right. by exists r.
  - intros [[-> ->] | [r ->]]; [by exists "" | by exists (String.String c r)].
Qed.

Lemma not_ends_with_slash_nil : ¬ ends_with_slash "".
Proof. intros [[|c r] Hr]; discriminate Hr. Qed.

Lemma rstrip_slashes (n : nat) : rstrip "/" (slashes n) = "".
Proof. induction n as [|n IH]; simpl; [done | by rewrite IH]. Qed.

Lemma rstrip_append_slashes (q : string) (n : nat) :
  rstrip "/" (q +:+ slashes n) = rstrip "/" q.
Proof.
  induction q as [|c q IH].
  - apply rstrip_slashes.
  - rewrite append_cons. simpl. by rewrite IH.
Qed.

Lemma rstrip_fixed (q : string) : ¬ ends_with_slash q → rstrip "/" q = q.
Proof.
  induction q as [|c q IH]; [done |].
  intros Hq. rewrite ends_with_slash_cons in Hq. simpl.
  destruct q as [|d q].
  - simpl. destruct (Ascii.eqb c "/") eqn:Hc; [|done].
    apply ascii_eqb_true in Hc. tauto.
  - rewrite IH; [done | tauto].
Qed.

Lemma rstrip_not_ends_with_slash (p : string) : ¬ ends_with_slash (rstrip "/" p).
Proof.
  induction p as [|c p IH]; simpl.
  - apply not_ends_with_slash_nil.
  - destruct (rstrip "/" p) as [|d r] eqn:Hr.
    + simpl. destruct (Ascii.eqb c "/") eqn:Hc.
      * apply not_ends_with_slash_nil.
      * rewrite ends_with_slash_cons. intros [[_ ->] | H]; [done |].
        by apply not_ends_with_slash_nil.
    + rewrite ends_with_slash_cons. intros [[? _] | H]; [done | tauto].
Qed.

Lemma rstrip_decompose (p : string) : ∃ n, p = rstrip "/" p +:+ slashes n.
Proof.
  induction p as [|c p [n IH]]; simpl.
  - by exists 0.
  - destruct (rstrip "/" p) as [|d r] eqn:Hr.
    + simpl. destruct (Ascii.eqb c "/") eqn:Hc.
      * apply ascii_eqb_true in Hc as ->. exists (S n).
        rewrite append_nil_l in *. simpl. by rewrite <- IH.
      * exists n. rewrite append_cons, append_nil_l in *. by rewrite <- IH.
    + exists n. rewrite append_cons. by rewrite <- IH.
Qed.

(** [rstrip "/"] computes the stripped path, and nothing else is one. *)
Lemma stripped_rstrip (p : string) : stripped p (rstrip "/" p).
Proof. split; [apply rstrip_decompose | apply rstrip_not_ends_with_slash]. Qed.

Lemma stripped_unique (p q : string) : stripped p q → q = rstrip "/" p.
Proof.
  intros [[n ->] Hq]. by rewrite rstrip_append_slashes, rstrip_fixed.
Qed.

(** C4. Two paths overlap exactly when, once the trailing slashes of both
    are stripped, one is a prefix of the other as a plain string (equal
    strings included); no path segments are involved, so that "src/auth"
    overlaps "src/auth2". *)
Theorem paths_overlap_iff_prefix (path1 path2 : string) :
  (Registry._paths_overlap path1 path2 = true ↔
     ∃ p1 p2, stripped path1 p1 ∧ stripped path2 p2 ∧ (is_prefix p2 p1 ∨ is_prefix p1 p2))
  ∧ Registry._paths_overlap "src/auth" "src/auth2" = true.
Proof.
  split; [|reflexivity].
  unfold Registry._paths_overlap. rewrite !orb_true_iff, !startswith_is_prefix. split.
  - intros H. exists (rstrip "/" path1), (rstrip "/" path2).
    split_and!; try apply stripped_rstrip.
    destruct H as [[H | H] | H]; [by left | by right |].
    apply String.eqb_eq in H as ->. left. apply is_prefix_refl.
  - intros (p1 & p2 & H1 & H2 & H).
    apply stripped_unique in H1 as ->. apply stripped_unique in H2 as ->.
    destruct H; [left; by left | left; by right].
Qed.

(** ** Registry queries *)

Lemma get_task_None (registry : Registry.t) (task_id : string) :
  Registry.get_task registry task_id = None ↔
  ∀ task, task ∈ Registry.tasks registry → Task.id task ≠ task_id.
Proof.
  unfold Registry.get_task, Registry.find_task.
  rewrite fmap_None, list_find_None, Forall_forall. done.
Qed.

Lemma get_task_Some (registry : Registry.t) (task_id : string) (task : Task.t) :
  Registry.get_task registry task_id = Some task →
  task ∈ Registry.tasks registry ∧ Task.id task = task_id.
Proof.
  unfold Registry.get_task, Registry.find_task.
  intros ([i x] & Hfind & ->)%fmap_Some.
  apply list_find_Some in Hfind as (Hi & Hid & _).
  split; [by eapply list_elem_of_lookup_2 | done].
Qed.

(** A loop that only appends to its accumulator collects, in order, what
    each iteration appends. *)
Lemma foldl_collect {A B : Type} (step : list B → A → list B) (f : A → list B) :
  (∀ acc x, step acc x = acc ++ f x) →
  ∀ l acc, foldl step acc l = acc ++ (l ≫= f).
Proof.
  intros Hstep l. induction l as [|x l IH]; intros acc.
  - simpl. by rewrite app_nil_r.
  - rewrite bind_cons. simpl. by rewrite IH, Hstep, app_assoc.
Qed.

Lemma check_dependencies_omap (registry : Registry.t) (task : Task.t) :
  Registry.check_dependencies registry task
  = omap (unmet_descriptor registry) (Task.depends_on task).
Proof.
  unfold Registry.check_dependencies.
  rewrite (foldl_collect _ (λ dep_id, option_list (unmet_descriptor registry dep_id))).
  - rewrite app_nil_l. induction (Task.depends_on task) as [|d l IH]; [done |].
    rewrite bind_cons, IH. simpl. by destruct (unmet_descriptor registry d).
  - intros acc dep_id. unfold unmet_descriptor.
    destruct (Registry.get_task registry dep_id) as [dep|]; [|done].
    repeat case_decide; simpl; try done; by rewrite ?app_nil_r.
Qed.

Lemma unmet_descriptor_None (registry : Registry.t) (dep_id : string) :
  unmet_descriptor registry dep_id = None ↔ dependency_merged registry dep_id.
Proof.
  unfold unmet_descriptor, dependency_merged.
  destruct (Registry.get_task registry dep_id) as [dep|].
  - case_decide; naive_solver.
  - naive_solver.
Qed.

(** C3. [check_dependencies] reports the dependencies of the task in
    [depends_on] order: "<id> (not found)" when no task has the id,
    "<id> (status: <status>)" when the dependency is not Merged, nothing
    when it is Merged.  The report is empty exactly when every dependency
    exists and is Merged, and a task without dependencies has an empty
    report. *)
Theorem check_dependencies_descriptors (registry : Registry.t) (task : Task.t) :
  Registry.check_dependencies registry task
  = omap (unmet_descriptor registry) (Task.depends_on task)
  ∧ (Registry.check_dependencies registry task = [] ↔
     Forall (dependency_merged registry) (Task.depends_on task))
  ∧ (∀ dep_id,
       (unmet_descriptor registry dep_id = Some (dep_id +:+ " (not found)") ↔
          ∀ other, other ∈ Registry.tasks registry → Task.id other ≠ dep_id)
       ∧ (∀ dep, Registry.get_task registry dep_id = Some dep →
            unmet_descriptor registry dep_id
            = if decide (Task.status dep = MERGED) then None
              else Some (dep_id +:+ " (status: " +:+ Status.value (Task.status dep) +:+ ")")))
  ∧ (∀ i d s c b f, Registry.check_dependencies registry (Task.mk i d s c b f []) = []).
Proof.
  split_and!.
  - apply check_dependencies_omap.
  - rewrite check_dependencies_omap.
    induction (Task.depends_on task) as [|d l IH]; simpl.
    + split; [constructor | done].
    + rewrite Forall_cons, <- IH, <- unmet_descriptor_None.
      destruct (unmet_descriptor registry d); naive_solver.
  - intros dep_id. split.
    + rewrite <- get_task_None. unfold unmet_descriptor.
      destruct (Registry.get_task registry dep_id) as [dep|]; [|done].
      split; [|done]. case_decide; [done |]. intros [= Heq]. exfalso.
      apply append_inj_l in Heq. rewrite !append_cons in Heq. discriminate Heq.
    + intros dep Hdep. unfold unmet_descriptor. by rewrite Hdep.
  - done.
Qed.

Lemma is_active_elem_of (s : TaskStatus) :
  s ∈ Registry.active_statuses ↔ is_active s = true.
Proof.
  unfold Registry.active_statuses. rewrite !elem_of_cons, elem_of_nil.
  destruct s; simpl; naive_solver.
Qed.

Lemma check_file_conflicts_refines (registry : Registry.t) (task : Task.t) :
  Registry.check_file_conflicts registry task = file_conflicts registry task.
Proof.
  unfold Registry.check_file_conflicts, file_conflicts.
  rewrite (foldl_collect _
    (λ other, if decide (Task.id other ≠ Task.id task ∧ is_active (Task.status other) = true)
              then conflicts_between task other else [])); [done |].
  intros acc other.
  destruct (decide (Task.id other = Task.id task)) as [Hid | Hid].
  { rewrite decide_False by tauto. by rewrite app_nil_r. }
  destruct (decide (Task.status other ∉ Registry.active_statuses)) as [Hst | Hst].
  { rewrite is_active_elem_of in Hst. rewrite decide_False by tauto. by rewrite app_nil_r. }
  apply dec_stable in Hst. rewrite is_active_elem_of in Hst.
  rewrite decide_True by done.
  unfold conflicts_between.
  apply foldl_collect. intros acc' task_file.
  apply foldl_collect. intros acc'' other_file.
  destruct (Registry._paths_overlap task_file other_file); [done | by rewrite app_nil_r].
Qed.

Lemma elem_of_conflicts_between (task other : Task.t) (f : string) (o : Task.t) :
  (f, o) ∈ conflicts_between task other ↔
  o = other ∧ f ∈ Task.files task
  ∧ ∃ g, g ∈ Task.files other ∧ Registry._paths_overlap f g = true.
Proof.
  unfold conflicts_between. rewrite list_elem_of_bind. split.
  - intros (tf & (g & Hin & Hg)%list_elem_of_bind & Htf).
    destruct (Registry._paths_overlap tf g) eqn:Hov.
    + apply list_elem_of_singleton in Hin as [= -> ->]. eauto.
    + by apply elem_of_nil in Hin.
  - intros (-> & Hf & g & Hg & Hov). exists f. split; [|done].
    apply list_elem_of_bind. exists g. split; [|done].
    rewrite Hov. by apply list_elem_of_singleton.
Qed.

Lemma elem_of_check_file_conflicts (registry : Registry.t) (task : Task.t)
    (f : string) (o : Task.t) :
  (f, o) ∈ Registry.check_file_conflicts registry task ↔
  o ∈ Registry.tasks registry
  ∧ Task.id o ≠ Task.id task
  ∧ is_active (Task.status o) = true
  ∧ f ∈ Task.files task
  ∧ ∃ g, g ∈ Task.files o ∧ Registry._paths_overlap f g = true.
Proof.
  rewrite check_file_conflicts_refines. unfold file_conflicts.
  rewrite list_elem_of_bind. split.
  - intros (other & Hin & Hother). case_decide as Hc.
    + apply elem_of_conflicts_between in Hin as (-> & ?). tauto.
    + by apply elem_of_nil in Hin.
  - intros (Ho & Hid & Hact & Hf & Hg). exists o. split; [|done].
    rewrite decide_True by done. by apply elem_of_conflicts_between.
Qed.

(** C5. [check_file_conflicts] runs over the other tasks in registry order,
    then the task's files, then the other's files, and emits one pair
    (task file, other task) per overlap, duplicates included.  A pair is
    emitted only for a task with a different id whose status is Claimed,
    InProgress or Review: never for the task itself, never for a Pending or
    Merged task. *)
Theorem check_file_conflicts_spec (registry : Registry.t) (task : Task.t) :
  Registry.check_file_conflicts registry task = file_conflicts registry task
  ∧ (∀ f o,
       (f, o) ∈ Registry.check_file_conflicts registry task ↔
       o ∈ Registry.tasks registry
       ∧ Task.id o ≠ Task.id task
       ∧ Task.status o ∈ [CLAIMED; IN_PROGRESS; REVIEW]
       ∧ f ∈ Task.files task
       ∧ ∃ g, g ∈ Task.files o ∧ Registry._paths_overlap f g = true)
  ∧ (∀ f, (f, task) ∉ Registry.check_file_conflicts registry task)
  ∧ (∀ f o, (f, o) ∈ Registry.check_file_conflicts registry task →
            Task.status o ≠ PENDING ∧ Task.status o ≠ MERGED).
Proof.
  split_and!.
  - apply check_file_conflicts_refines.
  - intros f o. rewrite elem_of_check_file_conflicts.
    by rewrite <- is_active_elem_of.
  - intros f (_ & Hid & _)%elem_of_check_file_conflicts. done.
  - intros f o (_ & _ & Hact & _)%elem_of_check_file_conflicts.
    by destruct (Task.status o).
Qed.

(** C10. A task without files takes part in no file conflict: it has no
    conflicts of its own, and no task, whatever the statuses, has a conflict
    pair naming it as the other task. *)
Theorem empty_files_never_conflict (registry : Registry.t) (unscoped : Task.t) :
  Task.files unscoped = [] →
  Registry.check_file_conflicts registry unscoped = []
  ∧ ∀ task f, (f, unscoped) ∉ Registry.check_file_conflicts registry task.
Proof.
  intros Hfiles. split.
  - apply elem_of_nil_inv. intros [f o] (_ & _ & _ & Hf & _)%elem_of_check_file_conflicts.
    rewrite Hfiles in Hf. by apply elem_of_nil in Hf.
  - intros task f (_ & _ & _ & _ & g & Hg & _)%elem_of_check_file_conflicts.
    rewrite Hfiles in Hg. by apply elem_of_nil in Hg.
Qed.

(** The examples of the specification. *)
Example check_dependencies_example :
  Registry.check_dependencies Examples.with_dependencies Examples.dependent
  = ["b (status: claimed)"; "z (not found)"].
Proof. reflexivity. Qed.

Example check_file_conflicts_active :
  Registry.check_file_conflicts (Examples.overlapping CLAIMED)
    (Examples.scoped "x" PENDING ["src/x"])
  = [("src/x", Examples.scoped "y" CLAIMED ["src/x/y.py"])].
Proof. reflexivity. Qed.

Example check_file_conflicts_inactive :
  Registry.check_file_conflicts (Examples.overlapping PENDING)
    (Examples.scoped "x" PENDING ["src/x"]) = []
  ∧ Registry.check_file_conflicts (Examples.overlapping MERGED)
      (Examples.scoped "x" PENDING ["src/x"]) = [].
Proof. split; reflexivity. Qed.

(** ** Persisted layout *)

Lemma of_value_value (s : TaskStatus) : Status.of_value (Status.value s) = inr s.
Proof. by destruct s. Qed.

Lemma as_strs_fmap (l : list string) : as_strs (YStr <$> l) = inr l.
Proof.
  induction l as [|x l IH]; [done |].
  rewrite fmap_cons. cbn [as_strs]. by rewrite IH.
Qed.

Lemma truthy_Some (s : string) : truthy (Some s) = true ↔ s ≠ "".
Proof.
  unfold truthy. destruct (String.eqb_spec s ""); simpl; naive_solver.
Qed.

Lemma absent_if_empty_id (o : option string) : o ≠ Some "" → absent_if_empty o = o.
Proof.
  unfold absent_if_empty. destruct o as [s|]; [|done].
  intros Hs. destruct (truthy (Some s)) eqn:Ht; [done |].
  apply not_true_iff_false in Ht. rewrite truthy_Some in Ht.
  apply dec_stable in Ht. by subst.
Qed.

Section RoundTrip.

Local Arguments as_strs : simpl never.
Local Arguments Status.of_value : simpl never.
Local Arguments Status.value : simpl never.

Lemma from_dict_to_dict (task : Task.t) :
  Task.from_dict (Task.to_dict task) = inr (normalize_task task).
Proof.
  destruct task as [i d s c b f dp].
  unfold Task.to_dict, Task.from_dict, normalize_task, absent_if_empty,
    Task.set_branch, Task.set_claimed_by.
  cbn [Task.id Task.description Task.status Task.claimed_by Task.branch
       Task.files Task.depends_on].
  destruct c as [c|], b as [b|]; simpl;
    repeat match goal with
           | |- context [String.eqb ?x ""] => destruct (String.eqb x "")
           end; simpl;
    destruct f as [|f0 f], dp as [|d0 dp]; simpl;
    rewrite ?of_value_value; simpl;
    rewrite <- ?fmap_cons, ?as_strs_fmap; simpl;
    rewrite <- ?fmap_cons, ?as_strs_fmap; simpl; reflexivity.
Qed.

Lemma keys_to_dict (task : Task.t) : (Task.to_dict task).*1 = layout_keys task.
Proof.
  destruct task as [i d s c b f dp]. unfold Task.to_dict, layout_keys.
  cbn [Task.id Task.description Task.status Task.claimed_by Task.branch
       Task.files Task.depends_on].
  destruct (truthy c), (truthy b), f, dp; reflexivity.
Qed.

End RoundTrip.

Lemma tasks_from_data_to_dict (tasks : list Task.t) :
  Registry.tasks_from_data ((λ task, YMap (Task.to_dict task)) <$> tasks)
  = inr (normalize_task <$> tasks).
Proof.
  induction tasks as [|task tasks IH]; [done |].
  rewrite !fmap_cons. cbn [Registry.tasks_from_data].
  by rewrite from_dict_to_dict, IH.
Qed.

Lemma load_save (repo_root : string) (registry : Registry.t) :
  Registry.load repo_root (Some (Registry.save registry)) = inr (normalize registry).
Proof.
  unfold Registry.load, Registry.save. simpl.
  by rewrite tasks_from_data_to_dict.
Qed.

Lemma normalize_task_id (task : Task.t) : no_empty_optional task → normalize_task task = task.
Proof.
  intros [Hc Hb]. destruct task as [i d s c b f dp]. unfold normalize_task. simpl in *.
  unfold Task.set_branch, Task.set_claimed_by. simpl.
  by rewrite !absent_if_empty_id.
Qed.

Lemma normalize_id (registry : Registry.t) :
  Forall no_empty_optional (Registry.tasks registry) → normalize registry = registry.
Proof.
  destruct registry as [g tasks]. unfold normalize. simpl. intros Hall. f_equal.
  induction Hall as [|task tasks Htask _ IH]; [done |].
  by rewrite fmap_cons, normalize_task_id, IH.
Qed.

(** C9, as amended. For every registry whose tasks hold no empty string in
    [claimed_by] or [branch], writing the registry in the persisted layout
    and reading it back yields the same registry, field for field; each
    task is written with the keys id, description, status, claimed_by,
    branch, files, depends_on in that order, the empty optional fields left
    out.  (An empty-string [claimed_by] or [branch] is written as an absent
    field and read back as [None].) *)
Theorem load_save_roundtrip (repo_root : string) (registry : Registry.t) :
  Forall no_empty_optional (Registry.tasks registry) →
  Registry.load repo_root (Some (Registry.save registry)) = inr registry
  ∧ Forall (λ task, (Task.to_dict task).*1 = layout_keys task) (Registry.tasks registry).
Proof.
  intros Hall. split.
  - by rewrite load_save, normalize_id.
  - apply Forall_forall. intros task _. apply keys_to_dict.
Qed.

Lemma load_save_roundtrip_witness :
  Registry.load "/repo" (Some (Registry.save Examples.busy)) = inr Examples.busy
  ∧ Forall (λ task, (Task.to_dict task).*1 = layout_keys task)
      (Registry.tasks Examples.busy).
Proof.
  apply (load_save_roundtrip "/repo" Examples.busy).
  repeat constructor; done.
Defined.

(** C9 fails as stated: a task claimed by the agent named "" is written
    without [claimed_by] and read back unowned. *)
Lemma load_save_loses_empty_owner :
  Registry.load "/repo" (Some (Registry.save Examples.with_anonymous))
  ≠ inr Examples.with_anonymous.
Proof. vm_compute. discriminate. Qed.

Lemma empty_files_never_conflict_witness :
  Registry.check_file_conflicts Examples.busy Examples.unscoped = []
  ∧ ∀ task f, (f, Examples.unscoped) ∉ Registry.check_file_conflicts Examples.busy task.
Proof.
  apply (empty_files_never_conflict Examples.busy Examples.unscoped).
  reflexivity.
Defined.

(** ** Commands *)

Lemma bind_pure {A B : Type} (a : A) (k : A → Cmd B) : (inr a, []) ≫= k = k a.
Proof. unfold mbind, Cmd_bind. by destruct (k a). Qed.

Lemma not_succeeds_raise {A : Type} (e : Exn) (trace : list Effect) :
  ¬ succeeds ((inl e, trace) : Cmd A).
Proof. by intros [a Ha]. Qed.

Lemma not_succeeds_bind {A B : Type} (m : Cmd A) (k : A → Cmd B) :
  (∀ a, ¬ succeeds (k a)) → ¬ succeeds (m ≫= k).
Proof.
  intros Hk [b Hb]. destruct m as [[e|a] trace]; [done |].
  unfold mbind, Cmd_bind in Hb. destruct (k a) as [r trace'] eqn:Hka.
  apply (Hk a). exists b. by rewrite Hka.
Qed.

Lemma not_succeeds_after {A : Type} (e : Effect) (m : Cmd A) :
  ¬ succeeds m → ¬ succeeds (let '(r, trace') := m in (r, e :: trace')).
Proof. destruct m as [r trace]. intros Hm [a Ha]. apply Hm. by exists a. Qed.

Lemma failing_run {A : Type} (run : Cmd A) (C Q : Prop) :
  ¬ C → ¬ succeeds run → (succeeds run ↔ C) ∧ (succeeds run → Q).
Proof. tauto. Qed.

Lemma ok_inl {A : Type} (msg : string) : ¬ ok (inl msg : Gitops.outcome A).
Proof. by intros [a Ha]. Qed.

Lemma ok_inr {A : Type} (a : A) : ok (inr a : Gitops.outcome A).
Proof. by exists a. Qed.

Lemma alter_lookup_insert {A : Type} (f : A → A) (l : list A) (i : nat) (x : A) :
  l !! i = Some x → alter f i l = <[i := f x]> l.
Proof.
  revert i. induction l as [|y l IH]; intros [|i] Hi; simplify_eq/=; [done |].
  f_equal. by apply IH.
Qed.

Lemma find_task_lookup (registry : Registry.t) (task_id : string) (i : nat) (task : Task.t) :
  Registry.find_task registry task_id = Some (i, task) →
  Registry.tasks registry !! i = Some task ∧ Task.id task = task_id.
Proof. intros (? & ? & _)%list_find_Some. done. Qed.

Lemma get_context_ok (git : Gitops.t) (file : option yaml)
    (repo_root : string) (registry : Registry.t) :
  Gitops.get_repo_root git = inr repo_root →
  Registry.load repo_root file = inr registry →
  Cli.get_context git file = (inr (repo_root, registry), []).
Proof.
  intros Hroot Hload. unfold Cli.get_context. rewrite Hroot. simpl. by rewrite Hload.
Qed.

Lemma update_status (s : TaskStatus) (registry : Registry.t) (i : nat) (task : Task.t) :
  Registry.tasks registry !! i = Some task →
  Registry.update_task i (Task.set_status s) registry = with_status s i task registry.
Proof.
  intros Hi. unfold Registry.update_task, with_status. f_equal.
  by apply alter_lookup_insert.
Qed.

Lemma claimed_update (agent_name task_id : string) (registry : Registry.t)
    (i : nat) (task : Task.t) :
  Registry.tasks registry !! i = Some task →
  Registry.update_task i (Cli.mark_claimed agent_name (claim_branch agent_name task_id)) registry
  = Registry.mk (Registry.goal registry)
      (<[i := claimed_task agent_name task_id task]> (Registry.tasks registry)).
Proof.
  intros Hi. unfold Registry.update_task. f_equal.
  by rewrite (alter_lookup_insert _ _ _ _ Hi).
Qed.

(** C1, as amended. In a repository whose registry loads, a claim succeeds
    exactly when the task exists with status Pending, its dependencies are
    satisfied or --force is given, it has no file conflict with an active
    task or --force is given, the branch agent/<agentName>/<taskId> does
    not exist yet, and the git steps of the claim (switch to the default
    branch, create the branch, stage, commit) go through.  Whenever it
    succeeds, the registry it saves has the task Claimed, owned by the
    claiming agent, on the branch agent/<agentName>/<taskId>. *)
Theorem claim_succeeds_iff (git : Gitops.t) (agent : AgentConfig.t) (file : option yaml)
    (repo_root : string) (registry : Registry.t) (task_id : string) (force : bool) :
  Gitops.get_repo_root git = inr repo_root →
  Registry.load repo_root file = inr registry →
  let run := Cli.claim git (Some agent) file task_id force in
  let agent_name := AgentConfig.name agent in
  (succeeds run ↔
     claim_conditions registry task_id force
     ∧ git_allows_claim git (claim_branch agent_name task_id) task_id)
  ∧ (succeeds run →
     ∃ i task,
       Registry.find_task registry task_id = Some (i, task)
       ∧ run = (inr tt, claim_effects git agent_name task_id registry i task)).
Proof.
  intros Hroot Hload run agent_name. subst run agent_name.
  unfold Cli.claim. unfold lift, AgentConfig.require. rewrite bind_pure.
  rewrite (get_context_ok _ _ _ _ Hroot Hload), bind_pure.
  unfold claim_conditions, Registry.get_task.
  destruct (Registry.find_task registry task_id) as [[i task]|] eqn:Hfind; simpl.
  2:{ unfold succeeds. simpl. naive_solver. }
  destruct (find_task_lookup _ _ _ _ Hfind) as [Hi _].
  destruct (decide (Task.status task ≠ PENDING)) as [Hst | Hst].
  { apply failing_run; [naive_solver | apply not_succeeds_raise]. }
  apply dec_stable in Hst.
  destruct (bool_decide (Registry.check_dependencies registry task ≠ []) && negb force)
    eqn:Hdeps.
  { apply andb_true_iff in Hdeps as [Hne%bool_decide_eq_true ->%negb_true_iff].
    apply failing_run; [naive_solver |].
    apply not_succeeds_after, not_succeeds_bind. intros _. apply not_succeeds_raise. }
  destruct (bool_decide (Registry.check_file_conflicts registry task ≠ []) && negb force)
    eqn:Hconf.
  { apply andb_true_iff in Hconf as [Hne%bool_decide_eq_true ->%negb_true_iff].
    apply failing_run; [naive_solver |].
    apply not_succeeds_after, not_succeeds_bind. intros _. apply not_succeeds_raise. }
  assert (Hcond : Registry.check_dependencies registry task = [] ∨ force = true).
  { apply andb_false_iff in Hdeps as [Hd%bool_decide_eq_false | Hf%negb_false_iff];
      [left; by apply dec_stable | by right]. }
  assert (Hcond' : Registry.check_file_conflicts registry task = [] ∨ force = true).
  { apply andb_false_iff in Hconf as [Hd%bool_decide_eq_false | Hf%negb_false_iff];
      [left; by apply dec_stable | by right]. }
  clear Hdeps Hconf.
  unfold git_allows_claim, claim_effects.
  fold (claim_branch (AgentConfig.name agent) task_id).
  rewrite (claimed_update _ _ _ _ _ Hi).
  destruct (Gitops.branch_exists git _) eqn:Hexists.
  { apply failing_run; [naive_solver | apply not_succeeds_raise]. }
  destruct (Gitops.switch_branch git _) as [msg | []] eqn:Hswitch.
  { apply failing_run; [intros (_ & _ & []%ok_inl & _) | apply not_succeeds_raise]. }
  destruct (Gitops.create_branch git _) as [msg | []] eqn:Hcreate.
  { apply failing_run; [intros (_ & _ & _ & []%ok_inl & _) |].
    destruct (Gitops.has_remote git), (Gitops.pull git) as [? | []];
      apply not_succeeds_raise. }
  destruct (Gitops.stage_file git _) as [msg | []] eqn:Hstage.
  { apply failing_run; [intros (_ & _ & _ & _ & []%ok_inl & _) |].
    destruct (Gitops.has_remote git), (Gitops.pull git) as [? | []];
      apply not_succeeds_raise. }
  destruct (Gitops.commit git _) as [msg | []] eqn:Hcommit.
  { apply failing_run; [intros (_ & _ & _ & _ & _ & []%ok_inl) |].
    destruct (Gitops.has_remote git), (Gitops.pull git) as [? | []];
      apply not_succeeds_raise. }
  split.
  - split; [intros _ | intros _].
    + split; [exists task; done | split_and!; try apply ok_inr; done].
    + destruct (Gitops.has_remote git), (Gitops.pull git) as [? | []]; by exists tt.
  - intros _. exists i, task. split; [done |].
    destruct (Gitops.has_remote git), (Gitops.pull git) as [? | []]; reflexivity.
Qed.

Lemma claim_succeeds_iff_witness :
  (succeeds (Cli.claim (Examples.cooperative "main" []) (Some Examples.alice)
               (Some (Registry.save Examples.fresh)) "t1" false) ↔
     claim_conditions Examples.fresh "t1" false
     ∧ git_allows_claim (Examples.cooperative "main" []) (claim_branch "alice" "t1") "t1")
  ∧ (succeeds (Cli.claim (Examples.cooperative "main" []) (Some Examples.alice)
                 (Some (Registry.save Examples.fresh)) "t1" false) →
     ∃ i task,
       Registry.find_task Examples.fresh "t1" = Some (i, task)
       ∧ Cli.claim (Examples.cooperative "main" []) (Some Examples.alice)
           (Some (Registry.save Examples.fresh)) "t1" false
         = (inr tt, claim_effects (Examples.cooperative "main" []) "alice" "t1"
                      Examples.fresh i task)).
Proof.
  apply (claim_succeeds_iff (Examples.cooperative "main" []) Examples.alice
           (Some (Registry.save Examples.fresh)) "/repo" Examples.fresh "t1" false);
    reflexivity.
Defined.

(** C1 fails as stated: the task is Pending, without dependencies or
    conflicts, and the claim is refused because the branch exists. *)
Lemma claim_refused_when_branch_exists :
  ¬ (succeeds (Cli.claim (Examples.branch_taken (Examples.cooperative "main" []))
                 (Some Examples.alice) (Some (Registry.save Examples.fresh)) "t1" false)
     ↔ claim_conditions Examples.fresh "t1" false).
Proof.
  intros [_ Hsucceeds].
  assert (Hconditions : claim_conditions Examples.fresh "t1" false).
  { exists Examples.t1_pending.
    split_and!; [reflexivity | reflexivity | by left | by left]. }
  destruct (Hsucceeds Hconditions) as [a Ha]. discriminate Ha.
Qed.

(** C6. On a task in Review, an approval requested by the agent recorded
    in [claimed_by] exits with the validation error "You cannot approve
    your own task", whatever the hosting service holds, and saves no
    registry. *)
Theorem approve_rejects_own_task (git : Gitops.t) (agent : AgentConfig.t)
    (file : option yaml) (repo_root : string) (registry : Registry.t)
    (task_id : string) (task : Task.t) :
  Gitops.get_repo_root git = inr repo_root →
  Registry.load repo_root file = inr registry →
  Registry.get_task registry task_id = Some task →
  Task.status task = REVIEW →
  Task.claimed_by task = Some (AgentConfig.name agent) →
  Cli.approve git (Some agent) file task_id
  = (inl (SystemExit 1), [EchoErr "Error: You cannot approve your own task."])
  ∧ ¬ mutates_registry (Cli.approve git (Some agent) file task_id).
Proof.
  intros Hroot Hload Htask Hst Hown.
  assert (Hrun : Cli.approve git (Some agent) file task_id
    = (inl (SystemExit 1), [EchoErr "Error: You cannot approve your own task."])).
  { unfold Cli.approve. unfold lift, AgentConfig.require. rewrite bind_pure.
    rewrite (get_context_ok _ _ _ _ Hroot Hload), bind_pure.
    unfold Registry.get_task in Htask.
    destruct (Registry.find_task registry task_id) as [[i task']|]; simplify_eq/=.
    rewrite decide_False by (rewrite Hst; tauto).
    by rewrite decide_True. }
  split; [done |]. rewrite Hrun. intros [document Hin]. simpl in Hin.
  by apply list_elem_of_singleton in Hin.
Qed.

Lemma approve_rejects_own_task_witness :
  Cli.approve (Examples.cooperative "main" [Examples.pr_t1]) (Some Examples.alice)
    (Some (Registry.save Examples.in_review)) "t1"
  = (inl (SystemExit 1), [EchoErr "Error: You cannot approve your own task."])
  ∧ ¬ mutates_registry
        (Cli.approve (Examples.cooperative "main" [Examples.pr_t1]) (Some Examples.alice)
           (Some (Registry.save Examples.in_review)) "t1").
Proof.
  apply (approve_rejects_own_task (Examples.cooperative "main" [Examples.pr_t1])
           Examples.alice (Some (Registry.save Examples.in_review)) "/repo"
           Examples.in_review "t1" Examples.t1_review);
    reflexivity.
Defined.

Lemma matching_pr_None (task : Task.t) (prs : list Gitops.PRInfo) :
  Forall (other_branch task) prs → Cli.matching_pr task prs = None.
Proof. intros Hall. by apply list_find_None. Qed.

Lemma matching_pr_first (task : Task.t) (before after : list Gitops.PRInfo)
    (pr : Gitops.PRInfo) :
  Forall (other_branch task) before →
  Some (Gitops.branch pr) = Task.branch task →
  Cli.matching_pr task (before ++ pr :: after) = Some (length before, pr).
Proof.
  intros Hbefore Hpr. apply list_find_Some. split_and!.
  - by rewrite list_lookup_middle.
  - done.
  - intros j y Hj Hlt. rewrite lookup_app_l in Hj by done.
    eapply Forall_lookup_1 in Hbefore; [|done]. done.
Qed.

(** C7, as amended. A merge of a task in Review fails without saving a
    registry when no open pull request is on the task's branch.  Otherwise
    the pull request merged is the first of the returned list that is on the
    task's branch; when the hosting service merges it, the task is saved as
    Merged whatever the later switch, pull, stage, commit and push do, and
    when the hosting service refuses, the merge fails and nothing is
    saved. *)
Theorem merge_requires_merged_pr (git : Gitops.t) (agent : AgentConfig.t)
    (file : option yaml) (repo_root : string) (registry : Registry.t)
    (task_id : string) (i : nat) (task : Task.t) (prs : list Gitops.PRInfo) :
  Gitops.get_repo_root git = inr repo_root →
  Registry.load repo_root file = inr registry →
  Registry.find_task registry task_id = Some (i, task) →
  Task.status task = REVIEW →
  Gitops.list_prs git "open" = inr prs →
  let run := Cli.merge_task git (Some agent) file task_id in
  (Forall (other_branch task) prs →
     run = (inl (SystemExit 1),
            [EchoErr "No matching PR found on GitHub.";
             EchoErr "You may need to merge manually."])
     ∧ ¬ mutates_registry run)
  ∧ (∀ before pr after,
       prs = before ++ pr :: after →
       Forall (other_branch task) before →
       Some (Gitops.branch pr) = Task.branch task →
       (∀ msg, Gitops.merge_pr git (Gitops.number pr) = inl msg →
          run = (inl (SystemExit 1), [EchoErr ("Merge failed: " +:+ msg)]))
       ∧ (ok (Gitops.merge_pr git (Gitops.number pr)) →
          ∃ result rest,
            run = (result,
                   [MergePR (Gitops.number pr);
                    SaveRegistry (Registry.save (with_status MERGED i task registry))]
                   ++ rest))).
Proof.
  intros Hroot Hload Hfind Hst Hprs run. subst run.
  destruct (find_task_lookup _ _ _ _ Hfind) as [Hi _].
  unfold Cli.merge_task. unfold lift, AgentConfig.require. rewrite bind_pure.
  rewrite (get_context_ok _ _ _ _ Hroot Hload), bind_pure.
  rewrite Hfind. rewrite decide_False by (rewrite Hst; tauto).
  rewrite Hprs. unfold ask. rewrite bind_pure.
  rewrite (update_status _ _ _ _ Hi).
  split.
  - intros Hnone. rewrite (matching_pr_None _ _ Hnone). simpl.
    split; [done |]. intros [document Hin].
    simpl in Hin. rewrite !elem_of_cons, elem_of_nil in Hin. naive_solver.
  - intros before pr after -> Hbefore Hpr.
    rewrite (matching_pr_first _ _ _ _ Hbefore Hpr). split.
    + intros msg Hmsg. rewrite Hmsg. reflexivity.
    + intros [[] Hok]. rewrite Hok. simpl.
      destruct (Gitops.switch_branch git _) as [? | []]; simpl; [by eauto |].
      destruct (Gitops.pull git) as [? | []]; simpl; [by eauto |].
      destruct (Gitops.stage_file git _) as [? | []]; simpl; [by eauto |].
      destruct (Gitops.commit git _) as [? | []]; simpl; [by eauto |].
      destruct (Gitops.push git _ _) as [? | []]; simpl; by eauto.
Qed.

Lemma merge_requires_merged_pr_witness :
  (∃ result rest,
     Cli.merge_task (Examples.push_rejected
                       (Examples.cooperative "main" [Examples.pr_other; Examples.pr_t1]))
       (Some Examples.bob) (Some (Registry.save Examples.in_review)) "t1"
     = (result,
        [MergePR 7; SaveRegistry (Registry.save Examples.merged)] ++ rest))
  ∧ Cli.merge_task (Examples.cooperative "main" [Examples.pr_other])
      (Some Examples.bob) (Some (Registry.save Examples.in_review)) "t1"
    = (inl (SystemExit 1),
       [EchoErr "No matching PR found on GitHub.";
        EchoErr "You may need to merge manually."]).
Proof.
  split.
  - refine (proj2 (proj2
      (merge_requires_merged_pr
         (Examples.push_rejected
            (Examples.cooperative "main" [Examples.pr_other; Examples.pr_t1]))
         Examples.bob (Some (Registry.save Examples.in_review)) "/repo"
         Examples.in_review "t1" 0 Examples.t1_review [Examples.pr_other; Examples.pr_t1]
         eq_refl eq_refl eq_refl eq_refl eq_refl)
      [Examples.pr_other] Examples.pr_t1 [] eq_refl _ eq_refl) _).
    + repeat constructor. discriminate.
    + by exists tt.
  - refine (proj1 (proj1
      (merge_requires_merged_pr (Examples.cooperative "main" [Examples.pr_other])
         Examples.bob (Some (Registry.save Examples.in_review)) "/repo"
         Examples.in_review "t1" 0 Examples.t1_review [Examples.pr_other]
         eq_refl eq_refl eq_refl eq_refl eq_refl) _)).
    repeat constructor. discriminate.
Defined.

(** C7 fails as stated: an open pull request is on the task's branch, the
    hosting service refuses to merge it, and no registry is saved. *)
Lemma merge_refused_saves_nothing :
  ¬ ((∃ pr, pr ∈ [Examples.pr_other; Examples.pr_t1]
            ∧ Some (Gitops.branch pr) = Task.branch Examples.t1_review) →
     mutates_registry
       (Cli.merge_task
          (Examples.hosting_refuses
             (Examples.cooperative "main" [Examples.pr_other; Examples.pr_t1]))
          (Some Examples.bob) (Some (Registry.save Examples.in_review)) "t1")).
Proof.
  intros Hclaim. destruct Hclaim as [document Hin].
  - exists Examples.pr_t1. split; [|reflexivity].
    apply elem_of_cons. right. apply elem_of_cons. by left.
  - change (SaveRegistry document ∈ [EchoErr "Merge failed: refused"]) in Hin.
    by apply list_elem_of_singleton in Hin.
Qed.

(** C8. In a submit that reaches the push of the branch: when the push is
    refused, the command exits with an error and saves no registry; when
    the push goes through and the creation of the pull request fails, the
    failure is only reported, the task is saved in Review, and the command
    goes on to stage, commit and push the registry file as after a created
    pull request (the commit is made when git stages and commits, and the
    command returns normally when the final push goes through as well). *)
Theorem submit_pr_failure_not_fatal (git : Gitops.t) (agent : AgentConfig.t)
    (file : option yaml) (repo_root : string) (registry : Registry.t)
    (title body : option string) (current : string) (i : nat) (task : Task.t) :
  Gitops.get_repo_root git = inr repo_root →
  Registry.load repo_root file = inr registry →
  Gitops.get_current_branch git = inr current →
  current ≠ Gitops.get_default_branch git →
  list_find (λ t, Task.branch t = Some current) (Registry.tasks registry) = Some (i, task) →
  Task.claimed_by task = Some (AgentConfig.name agent) →
  rebase_check_passes git →
  let run := Cli.submit git (Some agent) file title body in
  let pr_title := or_else title (Task.id task +:+ ": " +:+ Task.description task) in
  let pr_body := or_else body (Cli.default_pr_body task agent) in
  let commit_message := "[gastown] Submit task for review: " +:+ Task.id task in
  (∀ msg, Gitops.push git current true = inl msg →
     run = (inl (SystemExit 1),
            rebase_check_effects git ++ [EchoErr ("Push failed: " +:+ msg)])
     ∧ ¬ mutates_registry run)
  ∧ (∀ msg,
       ok (Gitops.push git current true) →
       Gitops.create_pr git pr_title pr_body (Gitops.get_default_branch git) = inl msg →
       ∃ result rest,
         run = (result,
                rebase_check_effects git
                ++ [Push current true;
                    EchoErr ("Failed to create PR: " +:+ msg);
                    EchoErr "You may need to create the PR manually.";
                    SaveRegistry (Registry.save (with_status REVIEW i task registry))]
                ++ rest)
         ∧ (result, rest)
           = (perform (StageFile "gastown.yaml") (Gitops.stage_file git "gastown.yaml") ;;
              perform (Commit commit_message) (Gitops.commit git commit_message) ;;
              perform (Push current false) (Gitops.push git current false) ;;
              mret tt)
         ∧ (ok (Gitops.stage_file git "gastown.yaml") →
            ok (Gitops.commit git commit_message) →
            ∃ rest', rest = [StageFile "gastown.yaml"; Commit commit_message] ++ rest')
         ∧ (ok (Gitops.stage_file git "gastown.yaml") →
            ok (Gitops.commit git commit_message) →
            ok (Gitops.push git current false) →
            result = inr tt)).
Proof.
  intros Hroot Hload Hcurrent Hne Hfind Hown Hcheck run pr_title pr_body commit_message.
  subst run pr_title pr_body commit_message.
  assert (Hi : Registry.tasks registry !! i = Some task).
  { by apply list_find_Some in Hfind as (? & _). }
  unfold Cli.submit. unfold lift, AgentConfig.require. rewrite bind_pure.
  rewrite (get_context_ok _ _ _ _ Hroot Hload), bind_pure.
  rewrite Hcurrent. unfold ask. rewrite bind_pure.
  rewrite decide_False by done. rewrite Hfind.
  rewrite decide_False by (rewrite Hown; tauto).
  rewrite (update_status _ _ _ _ Hi).
  unfold rebase_check_passes, rebase_check_effects in *.
  assert (Hcheck' :
    (if Gitops.has_remote git
     then perform Fetch (Gitops.fetch git) ;;
          rebased ← match Gitops.is_rebased git ("origin/" +:+ Gitops.get_default_branch git) with
                    | inr a => (inr a, [])
                    | inl msg => (inl (GitError msg), [])
                    end;
          if negb rebased
          then echo_err "Error: Branch is not rebased onto latest main." ;;
               echo_err "Run 'gastown sync' first." ;; sys_exit 1
          else mret ()
     else mret ())
    = ((inr (), if Gitops.has_remote git then [Fetch] else []) : Cmd unit)).
  { destruct (Gitops.has_remote git); [|done].
    destruct Hcheck as [[[] ->] ->]. reflexivity. }
  rewrite Hcheck'. clear Hcheck'.
  set (pre := if Gitops.has_remote git then [Fetch] else []).
  split.
  - intros msg Hpush. rewrite Hpush. simpl.
    split; [done |]. intros [document Hin]. simpl in Hin.
    apply elem_of_app in Hin as [Hin | Hin].
    + subst pre. destruct (Gitops.has_remote git);
        rewrite ?elem_of_cons, elem_of_nil in Hin; naive_solver.
    + by apply list_elem_of_singleton in Hin.
  - intros msg [[] Hpush] Hpr. rewrite Hpush, Hpr. simpl.
    destruct (Gitops.stage_file git _) as [? | []] eqn:Hstage; simpl.
    { eexists _, _. split_and!; [reflexivity .. | |]; by intros []%ok_inl. }
    destruct (Gitops.commit git _) as [? | []] eqn:Hcommit; simpl.
    { eexists _, _. split_and!; [reflexivity .. | |]; by intros _ []%ok_inl. }
    destruct (Gitops.push git current false) as [? | []] eqn:Hpush'; simpl.
    { eexists _, _. split_and!; [reflexivity .. | by eauto | by intros _ _ []%ok_inl]. }
    eexists _, _. split_and!; [reflexivity .. | by eauto | done].
Qed.

Lemma submit_pr_failure_not_fatal_witness :
  ∃ result rest,
    Cli.submit (Examples.hosting_refuses (Examples.cooperative "agent/alice/t1" []))
      (Some Examples.alice) (Some (Registry.save Examples.claimed)) None None
    = (result,
       [] ++ [Push "agent/alice/t1" true;
              EchoErr "Failed to create PR: refused";
              EchoErr "You may need to create the PR manually.";
              SaveRegistry (Registry.save Examples.in_review)]
       ++ rest)
    ∧ (∃ rest', rest = [StageFile "gastown.yaml";
                        Commit "[gastown] Submit task for review: t1"] ++ rest')
    ∧ result = inr tt.
Proof.
  destruct (proj2
    (submit_pr_failure_not_fatal
       (Examples.hosting_refuses (Examples.cooperative "agent/alice/t1" []))
       Examples.alice (Some (Registry.save Examples.claimed)) "/repo" Examples.claimed
       None None "agent/alice/t1" 0 Examples.t1_claimed
       eq_refl eq_refl eq_refl ltac:(discriminate) eq_refl eq_refl I)
    "refused" (ex_intro _ tt eq_refl) eq_refl)
    as (result & rest & Hrun & _ & Hcommitted & Hresult).
  exists result, rest. split; [exact Hrun |].
  split; [apply Hcommitted | apply Hresult]; by exists tt.
Defined.

(** ** Monotonicity of the status *)

Lemma saved_documents_app (a b : list Effect) :
  saved_documents (a ++ b) = saved_documents a ++ saved_documents b.
Proof. apply omap_app. Qed.

Lemma saved_documents_echo (lines : list string) :
  saved_documents (EchoErr <$> lines) = [].
Proof. induction lines as [|line lines IH]; [done | by rewrite fmap_cons]. Qed.

Lemma for_each_echo {A : Type} (items : list A) (body : A → Cmd unit) (line : A → string) :
  (∀ x, body x = echo_err (line x)) →
  for_each items body = (inr tt, EchoErr <$> (line <$> items)).
Proof.
  intros Hbody. induction items as [|x items IH]; [done |].
  simpl. rewrite Hbody, IH. reflexivity.
Qed.

Lemma never_backward_insert (registry : Registry.t) (i : nat) (task task' : Task.t) :
  Registry.tasks registry !! i = Some task →
  Status.rank (Task.status task) ≤ Status.rank (Task.status task') →
  never_backward registry
    (Registry.mk (Registry.goal registry) (<[i := task']> (Registry.tasks registry))).
Proof.
  intros Hi Hrank. unfold never_backward. simpl.
  apply Forall2_same_length_lookup_2; [by rewrite length_insert |].
  intros j t t' Ht Ht'.
  destruct (decide (i = j)) as [-> | Hne].
  - rewrite list_lookup_insert_eq in Ht' by (by eapply lookup_lt_Some).
    by simplify_eq.
  - rewrite list_lookup_insert_ne in Ht' by done. by simplify_eq.
Qed.

(** What [claim] saves, if anything, is the registry with the Pending task
    claimed. *)
Lemma claim_saved_documents (git : Gitops.t) (agent : AgentConfig.t) (file : option yaml)
    (repo_root : string) (registry : Registry.t) (task_id : string) (force : bool) :
  Gitops.get_repo_root git = inr repo_root →
  Registry.load repo_root file = inr registry →
  saved_documents (Cli.claim git (Some agent) file task_id force).2 = []
  ∨ ∃ i task,
      Registry.tasks registry !! i = Some task
      ∧ Task.status task = PENDING
      ∧ saved_documents (Cli.claim git (Some agent) file task_id force).2
        = [Registry.save
             (Registry.mk (Registry.goal registry)
                (<[i := claimed_task (AgentConfig.name agent) task_id task]>
                   (Registry.tasks registry)))].
Proof.
  intros Hroot Hload.
  unfold Cli.claim. unfold lift, AgentConfig.require. rewrite bind_pure.
  rewrite (get_context_ok _ _ _ _ Hroot Hload), bind_pure.
  destruct (Registry.find_task registry task_id) as [[i task]|] eqn:Hfind; [|by left].
  destruct (find_task_lookup _ _ _ _ Hfind) as [Hi _].
  destruct (decide (Task.status task ≠ PENDING)) as [Hst | Hst]; [by left |].
  apply dec_stable in Hst.
  destruct (bool_decide (Registry.check_dependencies registry task ≠ []) && negb force).
  { left. rewrite (for_each_echo _ _ (λ dep, "  - " +:+ dep)) by done.
    simpl. by rewrite saved_documents_app, saved_documents_echo. }
  destruct (bool_decide (Registry.check_file_conflicts registry task ≠ []) && negb force).
  { left.
    rewrite (for_each_echo _ _
      (λ '(file_, other), "  - " +:+ file_ +:+ " (also in " +:+ Task.id other +:+ " by "
                          +:+ str_of (Task.claimed_by other) +:+ ")")) by (by intros []).
    simpl. by rewrite saved_documents_app, saved_documents_echo. }
  fold (claim_branch (AgentConfig.name agent) task_id).
  rewrite (claimed_update _ _ _ _ _ Hi).
  destruct (Gitops.branch_exists git _); [by left |].
  destruct (Gitops.switch_branch git _) as [? | []]; [by left |].
  destruct (Gitops.has_remote git), (Gitops.pull git) as [? | []],
    (Gitops.create_branch git _) as [? | []]; try (by left);
    right; exists i, task; (split; [done |]); (split; [done |]);
    destruct (Gitops.stage_file git _) as [? | []], (Gitops.commit git _) as [? | []];
    reflexivity.
Qed.

(** [approve] saves nothing. *)
Lemma approve_saved_documents (git : Gitops.t) (config : option AgentConfig.t)
    (file : option yaml) (task_id : string) :
  saved_documents (Cli.approve git config file task_id).2 = [].
Proof.
  unfold Cli.approve. destruct config as [agent|]; [|done].
  unfold lift, AgentConfig.require. rewrite bind_pure.
  unfold Cli.get_context.
  destruct (Gitops.get_repo_root git) as [? | repo_root]; [done |].
  simpl. destruct (Registry.load repo_root file) as [[] | registry]; try done.
  simpl.
  destruct (Registry.find_task registry task_id) as [[i task]|]; [|done].
  destruct (decide (Task.status task ≠ REVIEW)); [done |].
  destruct (decide (Task.claimed_by task = Some (AgentConfig.name agent))); [done |].
  destruct (Gitops.list_prs git "open") as [? | prs]; [done |].
  simpl. destruct (Cli.matching_pr task prs) as [[j pr]|]; [|done].
  by destruct (Gitops.approve_pr git (Gitops.number pr)) as [? | []].
Qed.

(** What [merge] saves, if anything, is the registry with the task in
    Review marked Merged. *)
Lemma merge_saved_documents (git : Gitops.t) (agent : AgentConfig.t) (file : option yaml)
    (repo_root : string) (registry : Registry.t) (task_id : string) :
  Gitops.get_repo_root git = inr repo_root →
  Registry.load repo_root file = inr registry →
  saved_documents (Cli.merge_task git (Some agent) file task_id).2 = []
  ∨ ∃ i task,
      Registry.tasks registry !! i = Some task
      ∧ Task.status task = REVIEW
      ∧ saved_documents (Cli.merge_task git (Some agent) file task_id).2
        = [Registry.save (with_status MERGED i task registry)].
Proof.
  intros Hroot Hload.
  unfold Cli.merge_task. unfold lift, AgentConfig.require. rewrite bind_pure.
  rewrite (get_context_ok _ _ _ _ Hroot Hload), bind_pure.
  destruct (Registry.find_task registry task_id) as [[i task]|] eqn:Hfind; [|by left].
  destruct (find_task_lookup _ _ _ _ Hfind) as [Hi _].
  destruct (decide (Task.status task ≠ REVIEW)) as [Hst | Hst]; [by left |].
  apply dec_stable in Hst.
  rewrite (update_status _ _ _ _ Hi).
  destruct (Gitops.list_prs git "open") as [? | prs]; [by left |].
  simpl. destruct (Cli.matching_pr task prs) as [[j pr]|]; [|by left].
  destruct (Gitops.merge_pr git (Gitops.number pr)) as [? | []]; [by left |].
  right. exists i, task. split; [done |]. split; [done |]. simpl.
  destruct (Gitops.switch_branch git _) as [? | []]; [done |].
  destruct (Gitops.pull git) as [? | []]; [done |].
  destruct (Gitops.stage_file git _) as [? | []]; [done |].
  destruct (Gitops.commit git _) as [? | []]; [done |].
  by destruct (Gitops.push git _ _) as [? | []].
Qed.

(** The operations that guard on the status (claim, approve, merge) never
    save a registry in which a task has moved backward. *)
Lemma guarded_operations_never_move_backward (git : Gitops.t) (agent : AgentConfig.t)
    (file : option yaml) (repo_root : string) (registry : Registry.t)
    (task_id : string) (force : bool) (document : yaml) :
  Gitops.get_repo_root git = inr repo_root →
  Registry.load repo_root file = inr registry →
  document ∈ saved_documents (Cli.claim git (Some agent) file task_id force).2
  ∨ document ∈ saved_documents (Cli.approve git (Some agent) file task_id).2
  ∨ document ∈ saved_documents (Cli.merge_task git (Some agent) file task_id).2 →
  ∃ after, document = Registry.save after ∧ never_backward registry after.
Proof.
  intros Hroot Hload [Hin | [Hin | Hin]].
  - destruct (claim_saved_documents git agent file repo_root registry task_id force
                Hroot Hload) as [Hnone | (i & task & Hi & Hst & Hsaved)].
    + rewrite Hnone in Hin. by apply elem_of_nil in Hin.
    + rewrite Hsaved in Hin. apply list_elem_of_singleton in Hin as ->.
      eexists. split; [reflexivity |].
      apply (never_backward_insert _ _ task); [done |]. rewrite Hst. simpl. lia.
  - rewrite approve_saved_documents in Hin. by apply elem_of_nil in Hin.
  - destruct (merge_saved_documents git agent file repo_root registry task_id
                Hroot Hload) as [Hnone | (i & task & Hi & Hst & Hsaved)].
    + rewrite Hnone in Hin. by apply elem_of_nil in Hin.
    + rewrite Hsaved in Hin. apply list_elem_of_singleton in Hin as ->.
      eexists. split; [reflexivity |].
      apply (never_backward_insert _ _ task); [done |]. rewrite Hst. simpl. lia.
Qed.

(** C2 is not met by [submit]: it has no guard on the status, where
    [claim], [approve] and [merge] have one.  The owner of a Merged task who
    submits again from the task's branch moves the task back to Review. *)
Theorem submit_reopens_merged_task :
  Registry.load "/repo" (Some (Registry.save Examples.merged)) = inr Examples.merged
  ∧ Cli.submit (Examples.with_remote (Examples.cooperative "agent/alice/t1" []))
      (Some Examples.alice) (Some (Registry.save Examples.merged)) None None
    = (inr tt,
       [Fetch;
        Push "agent/alice/t1" true;
        CreatePR "t1: D" (Cli.default_pr_body Examples.t1_merged Examples.alice) "main";
        SaveRegistry (Registry.save Examples.in_review);
        StageFile "gastown.yaml";
        Commit "[gastown] Submit task for review: t1";
        Push "agent/alice/t1" false])
  ∧ Registry.get_task Examples.merged "t1" = Some Examples.t1_merged
  ∧ Registry.get_task Examples.in_review "t1" = Some Examples.t1_review
  ∧ Task.status Examples.t1_merged = MERGED
  ∧ Task.status Examples.t1_review = REVIEW
  ∧ Status.rank REVIEW < Status.rank MERGED
  ∧ ¬ never_backward Examples.merged Examples.in_review.
Proof.
  split_and!; [reflexivity .. | simpl; lia |].
  intros Hback. apply Forall2_cons_1 in Hback as [Hrank _]. simpl in Hrank. lia.
Qed.

(** * Further properties of the code *)

(** ** Registry file and queries *)


(** X1. TaskStatus(v) returns a status exactly when v is that status's wire
    string (pending, claimed, in_progress, review, merged), so .value and
    TaskStatus(...) are inverse to each other; every other string raises
    ValueError. *)
Theorem status_wire_strings (v : string) :
  (∀ s, Status.of_value v = inr s ↔ v = Status.value s)
  ∧ ((∀ s, v ≠ Status.value s) → ∃ msg, Status.of_value v = inl (ValueError msg)).
Proof.
  unfold Status.of_value.
  repeat match goal with
         | |- context [String.eqb v ?w] => destruct (String.eqb_spec v w) as [-> | ?]
         end.
  1-5: split; [intros s; destruct s; simpl; split; (done || (intros [= <-]; done) || discriminate) | intros H; exfalso ].
  1: by apply (H PENDING). 1: by apply (H CLAIMED). 1: by apply (H IN_PROGRESS).
  1: by apply (H REVIEW). 1: by apply (H MERGED).
  split; [|eauto]. intros s. split; [done |]. intros ->. by destruct s.
Qed.

Lemma bind_exn_inr {A B : Type} (m : Exn + A) (k : A → Exn + B) (b : B) :
  bind_exn m k = inr b → ∃ a, m = inr a ∧ k a = inr b.
Proof. destruct m as [e | a]; [done | eauto]. Qed.

Lemma as_str_not_KeyError (v : yaml) (k : string) : as_str v ≠ inl (KeyError k).
Proof. by destruct v. Qed.

Lemma as_opt_str_not_KeyError (v : option yaml) (k : string) : as_opt_str v ≠ inl (KeyError k).
Proof. by destruct v as [[]|]. Qed.

Lemma as_strs_not_KeyError (items : list yaml) (k : string) : as_strs items ≠ inl (KeyError k).
Proof.
  induction items as [|[] items IH]; simpl; try done.
  destruct (as_strs items); [|done]. intros [= ->]. done.
Qed.

Lemma as_str_list_not_KeyError (v : yaml) (k : string) : as_str_list v ≠ inl (KeyError k).
Proof. destruct v; simpl; try done. apply as_strs_not_KeyError. Qed.

Lemma of_value_not_KeyError (v k : string) : Status.of_value v ≠ inl (KeyError k).
Proof.
  unfold Status.of_value.
  repeat match goal with |- context [String.eqb v ?w] => destruct (String.eqb v w) end; done.
Qed.

(** X2. Task.from_dict raises KeyError('id') when the mapping has no 'id',
    and KeyError('description') when it has a string 'id' but no
    'description'; these are the only KeyErrors it can raise, the other five
    keys being optional. *)
Theorem from_dict_required_keys (data : dict) :
  (dict_get "id" data = None → Task.from_dict data = inl (KeyError "id"))
  ∧ (∀ i, dict_get "id" data = Some (YStr i) → dict_get "description" data = None →
          Task.from_dict data = inl (KeyError "description"))
  ∧ (∀ k, Task.from_dict data = inl (KeyError k) →
          (k = "id" ∧ dict_get "id" data = None)
          ∨ (k = "description" ∧ dict_get "description" data = None)).
Proof.
  unfold Task.from_dict, dict_item. split_and!.
  - by intros ->.
  - intros i -> ->. done.
  - intros k.
    destruct (dict_get "id" data) as [v|]; simpl; [|intros [= <-]; by left].
    destruct (as_str v) eqn:Hv; simpl; [intros [= ->]; by apply as_str_not_KeyError in Hv |].
    destruct (dict_get "description" data) as [w|]; simpl; [|intros [= <-]; by right].
    destruct (as_str w) eqn:Hw; simpl; [intros [= ->]; by apply as_str_not_KeyError in Hw |].
    destruct (as_str (default _ (dict_get "status" data))) eqn:H1; simpl;
      [intros [= ->]; by apply as_str_not_KeyError in H1 |].
    destruct (Status.of_value _) eqn:H2; simpl;
      [intros [= ->]; by apply of_value_not_KeyError in H2 |].
    destruct (as_opt_str (dict_get "claimed_by" data)) eqn:H3; simpl;
      [intros [= ->]; by apply as_opt_str_not_KeyError in H3 |].
    destruct (as_opt_str (dict_get "branch" data)) eqn:H4; simpl;
      [intros [= ->]; by apply as_opt_str_not_KeyError in H4 |].
    destruct (as_str_list (default _ (dict_get "files" data))) eqn:H5; simpl;
      [intros [= ->]; by apply as_str_list_not_KeyError in H5 |].
    destruct (as_str_list (default _ (dict_get "depends_on" data))) eqn:H6; simpl;
      [intros [= ->]; by apply as_str_list_not_KeyError in H6 | done].
Qed.



(** X3. Task.from_dict depends only on the keys id, description, status,
    claimed_by, branch, files and depends_on: two mappings that agree on
    these give the same result, any other key is ignored. A mapping with
    only id and description gives a Pending task with no owner, no branch,
    no files and no dependencies. *)
Theorem from_dict_reads_seven_keys (data1 data2 : dict) (i d : string) :
  ((∀ k, k ∈ task_keys → dict_get k data1 = dict_get k data2) →
   Task.from_dict data1 = Task.from_dict data2)
  ∧ Task.from_dict [("id", YStr i); ("description", YStr d)]
    = inr (Task.mk i d PENDING None None [] []).
Proof.
  split; [|reflexivity].
  intros Hkeys. unfold Task.from_dict, dict_item.
  rewrite !Hkeys; [done | unfold task_keys; repeat constructor ..].
Qed.

Lemma absent_if_empty_idemp (o : option string) :
  absent_if_empty (absent_if_empty o) = absent_if_empty o.
Proof. unfold absent_if_empty. by destruct (truthy o) eqn:H; rewrite ?H. Qed.

Lemma truthy_absent_if_empty (o : option string) : truthy (absent_if_empty o) = truthy o.
Proof. unfold absent_if_empty. by destruct (truthy o) eqn:H. Qed.

Lemma default_absent_if_empty (o : option string) :
  truthy o = true → default "" (absent_if_empty o) = default "" o.
Proof. unfold absent_if_empty. by intros ->. Qed.

Lemma to_dict_normalize_task (task : Task.t) :
  Task.to_dict (normalize_task task) = Task.to_dict task.
Proof.
  destruct task as [i d s c b f dp]. unfold Task.to_dict, normalize_task. simpl.
  rewrite !truthy_absent_if_empty.
  destruct (truthy c) eqn:Hc, (truthy b) eqn:Hb;
    rewrite ?default_absent_if_empty by done; reflexivity.
Qed.

Lemma save_normalize (registry : Registry.t) :
  Registry.save (normalize registry) = Registry.save registry.
Proof.
  unfold Registry.save, normalize. simpl. do 5 f_equal.
  rewrite <- list_fmap_compose. apply list_fmap_ext. intros _ task _. simpl.
  by rewrite to_dict_normalize_task.
Qed.

(** X4. Loading the document that Registry.save wrote always succeeds;
    saving the loaded registry writes the same document again, and loading
    that document gives the same registry: after one save, load and save are
    inverse to each other. *)
Theorem save_load_save (repo_root : string) (registry : Registry.t) :
  ∃ read,
    Registry.load repo_root (Some (Registry.save registry)) = inr read
    ∧ Registry.save read = Registry.save registry
    ∧ Registry.load repo_root (Some (Registry.save read)) = inr read.
Proof.
  exists (normalize registry). split_and!.
  - apply load_save.
  - apply save_normalize.
  - by rewrite save_normalize, load_save.
Qed.

(** X5. When the task ids of a registry are pairwise distinct,
    get_task(task.id) returns that very task, for every task of the
    registry. *)
Theorem get_task_unique_ids (registry : Registry.t) (task : Task.t) :
  NoDup (Task.id <$> Registry.tasks registry) →
  task ∈ Registry.tasks registry →
  Registry.get_task registry (Task.id task) = Some task.
Proof.
  intros Hnodup Hin. unfold Registry.get_task, Registry.find_task.
  apply list_elem_of_lookup in Hin as [i Hi].
  assert (Hfind : list_find (λ t, Task.id t = Task.id task) (Registry.tasks registry)
                  = Some (i, task)).
  { apply list_find_Some. split_and!; [done | done |].
    intros j other Hj Hlt Hid.
    assert (i = j); [|lia].
    eapply NoDup_lookup; [exact Hnodup | |]; rewrite list_lookup_fmap.
    - by rewrite Hi.
    - rewrite Hj. simpl. by rewrite Hid. }
  by rewrite Hfind.
Qed.

Lemma get_task_unique_ids_witness :
  Registry.get_task Examples.busy "t2" = Some Examples.unscoped.
Proof.
  apply (get_task_unique_ids Examples.busy Examples.unscoped).
  - apply (bool_decide_unpack _). vm_compute. reflexivity.
  - apply (bool_decide_unpack _). vm_compute. reflexivity.
Defined.

(** X6. get_task returns the first task in list order that has the given id:
    no task before it has that id, so a later task with a duplicate id is
    never returned; when it returns None no task has the id. *)
Theorem get_task_first_match (registry : Registry.t) (task_id : string) :
  match Registry.get_task registry task_id with
  | Some task =>
      ∃ before after,
        Registry.tasks registry = before ++ task :: after
        ∧ Task.id task = task_id
        ∧ Forall (λ other, Task.id other ≠ task_id) before
  | None => Forall (λ other, Task.id other ≠ task_id) (Registry.tasks registry)
  end.
Proof.
  unfold Registry.get_task, Registry.find_task.
  destruct (list_find _ _) as [[i task]|] eqn:Hfind; simpl.
  - apply list_find_Some in Hfind as (Hi & Hid & Hbefore).
    exists (take i (Registry.tasks registry)), (drop (S i) (Registry.tasks registry)).
    split_and!; [by rewrite take_drop_middle | done |].
    apply Forall_lookup. intros j other Hj.
    apply lookup_take_Some in Hj as [Hj Hlt]. by eapply Hbefore.
  - by apply list_find_None in Hfind.
Qed.


Lemma startswith_nil (s : string) : startswith s "" = true.
Proof. by destruct s. Qed.

Lemma startswith_refl (s : string) : startswith s s = true.
Proof. apply startswith_is_prefix, is_prefix_refl. Qed.

(** X7. _paths_overlap is reflexive and symmetric, ignores any number of
    trailing slashes on either path, and a path that consists of slashes
    only (the empty path included) overlaps every path. *)
Theorem paths_overlap_algebra (path1 path2 : string) (n m : nat) :
  Registry._paths_overlap path1 path1 = true
  ∧ Registry._paths_overlap path1 path2 = Registry._paths_overlap path2 path1
  ∧ Registry._paths_overlap (path1 +:+ slashes n) (path2 +:+ slashes m)
    = Registry._paths_overlap path1 path2
  ∧ Registry._paths_overlap (slashes n) path2 = true.
Proof.
  unfold Registry._paths_overlap. split_and!.
  - by rewrite startswith_refl.
  - rewrite (orb_comm (startswith (rstrip "/" path1) _)). f_equal.
    apply String.eqb_sym.
  - by rewrite !rstrip_append_slashes.
  - by rewrite rstrip_slashes, startswith_nil, orb_true_r.
Qed.

(** X8. File conflicts are mutual: when an active task of the registry has a
    conflict with another task, check_file_conflicts of that other task
    reports a conflict with the first one. *)
Theorem file_conflicts_mutual (registry : Registry.t) (task other : Task.t) :
  task ∈ Registry.tasks registry →
  is_active (Task.status task) = true →
  (∃ f, (f, other) ∈ Registry.check_file_conflicts registry task) →
  ∃ g, (g, task) ∈ Registry.check_file_conflicts registry other.
Proof.
  intros Htask Hactive [f (Hother & Hid & _ & Hf & g & Hg & Hov)%elem_of_check_file_conflicts].
  exists g. apply elem_of_check_file_conflicts. split_and!; try done.
  exists f. split; [done |].
  unfold Registry._paths_overlap in *.
  rewrite (orb_comm (startswith (rstrip "/" g) _)), String.eqb_sym. done.
Qed.

Lemma file_conflicts_mutual_witness :
  ∃ g, (g, MoreExamples.api_tests)
       ∈ Registry.check_file_conflicts MoreExamples.overlapping_work MoreExamples.api.
Proof.
  apply (file_conflicts_mutual MoreExamples.overlapping_work MoreExamples.api_tests
           MoreExamples.api).
  - apply list_elem_of_In. simpl. auto.
  - reflexivity.
  - exists "src/api/tests/test_users.py". apply list_elem_of_In. vm_compute. auto.
Defined.

(** X9. A task that get_task finds under its own id, that is not Merged and
    that lists its own id in depends_on always has the unmet dependency
    '<id> (status: <its status>)'. *)
Theorem self_dependency_unmet (registry : Registry.t) (task : Task.t) :
  Registry.get_task registry (Task.id task) = Some task →
  Task.status task ≠ MERGED →
  Task.id task ∈ Task.depends_on task →
  Task.id task +:+ " (status: " +:+ Status.value (Task.status task) +:+ ")"
  ∈ Registry.check_dependencies registry task.
Proof.
  intros Hget Hst Hin. rewrite check_dependencies_omap.
  apply list_elem_of_omap. exists (Task.id task). split; [done |].
  unfold unmet_descriptor. rewrite Hget. by rewrite decide_False.
Qed.

Lemma self_dependency_unmet_witness :
  "loop (status: pending)"
  ∈ Registry.check_dependencies MoreExamples.with_circular MoreExamples.circular.
Proof.
  apply (self_dependency_unmet MoreExamples.with_circular MoreExamples.circular).
  - reflexivity.
  - discriminate.
  - apply list_elem_of_In. simpl. auto.
Defined.

(** X10. check_dependencies reports at most one line per entry of
    depends_on, and every line it reports starts with one of the task's
    dependency ids. *)
Theorem check_dependencies_bounds (registry : Registry.t) (task : Task.t) :
  length (Registry.check_dependencies registry task) ≤ length (Task.depends_on task)
  ∧ ∀ line, line ∈ Registry.check_dependencies registry task →
      ∃ dep_id, dep_id ∈ Task.depends_on task ∧ is_prefix dep_id line.
Proof.
  rewrite check_dependencies_omap. split.
  - induction (Task.depends_on task) as [|d l IH]; [done |].
    change (omap (unmet_descriptor registry) (d :: l))
      with (match unmet_descriptor registry d with
            | Some line => line :: omap (unmet_descriptor registry) l
            | None => omap (unmet_descriptor registry) l
            end).
    destruct (unmet_descriptor registry d); simpl; lia.
  - intros line (dep_id & Hin & Hdesc)%list_elem_of_omap.
    exists dep_id. split; [done |]. unfold unmet_descriptor in Hdesc.
    destruct (Registry.get_task registry dep_id) as [dep|].
    + case_decide; [done |]. injection Hdesc as <-. eexists; reflexivity.
    + injection Hdesc as <-. eexists; reflexivity.
Qed.

(** ** Commands: context and refusals *)

(** Without an agent configuration no workflow command gets as far as the
    repository. *)
Lemma commands_require_agent (git : Gitops.t) (file : option yaml)
    (task_id : string) (force : bool) (title body : option string) :
  Cli.claim git None file task_id force = (inl (RuntimeError not_initialized), [])
  ∧ Cli.submit git None file title body = (inl (RuntimeError not_initialized), [])
  ∧ Cli.approve git None file task_id = (inl (RuntimeError not_initialized), [])
  ∧ Cli.merge_task git None file task_id = (inl (RuntimeError not_initialized), []).
Proof. split_and!; reflexivity. Qed.

Lemma get_context_not_repo (git : Gitops.t) (file : option yaml) (msg : string) :
  Gitops.get_repo_root git = inl msg →
  Cli.get_context git file
  = (inl (SystemExit 1), [EchoErr "Error: Not in a git repository."]).
Proof. intros Hroot. unfold Cli.get_context. by rewrite Hroot. Qed.


Lemma get_context_load_failure (git : Gitops.t) (file : option yaml)
    (repo_root : string) (e : Exn) :
  Gitops.get_repo_root git = inr repo_root →
  Registry.load repo_root file = inl e →
  Cli.get_context git file
  = (match (load_failure e).1 with inl e' => inl e' | inr _ => inl e end, (load_failure e).2).
Proof.
  intros Hroot Hload. unfold Cli.get_context. rewrite Hroot. simpl. rewrite Hload.
  by destruct e.
Qed.

Lemma bind_raise {A B : Type} (e : Exn) (trace : list Effect) (k : A → Cmd B) :
  ((inl e, trace) : Cmd A) ≫= k = (inl e, trace).
Proof. reflexivity. Qed.

(** X11. When get_repo_root raises GitError, claim, submit, approve, merge
    (with an initialized agent), new-task and create-registry each exit with
    code 1 after writing the single line 'Error: Not in a git repository.'
    to stderr: nothing is saved and no git or hosting action is run. *)
Theorem commands_outside_repository (git : Gitops.t) (agent : AgentConfig.t)
    (file : option yaml) (msg task_id : string) (force : bool)
    (title body : option string) (description : string) (files depends : list string)
    (goal : string) :
  Gitops.get_repo_root git = inl msg →
  let refused : Cmd unit :=
    (inl (SystemExit 1), [EchoErr "Error: Not in a git repository."]) in
  Cli.claim git (Some agent) file task_id force = refused
  ∧ Cli.submit git (Some agent) file title body = refused
  ∧ Cli.approve git (Some agent) file task_id = refused
  ∧ Cli.merge_task git (Some agent) file task_id = refused
  ∧ CliAdmin.new_task git file task_id description files depends = refused
  ∧ CliAdmin.create_registry git file goal = refused.
Proof.
  intros Hroot refused. subst refused.
  unfold Cli.claim, Cli.submit, Cli.approve, Cli.merge_task, CliAdmin.new_task,
    CliAdmin.create_registry.
  unfold lift, AgentConfig.require. rewrite !bind_pure.
  rewrite (get_context_not_repo _ _ _ Hroot). rewrite Hroot.
  split_and!; reflexivity.
Qed.

Lemma commands_outside_repository_witness :
  CliAdmin.create_registry MoreExamples.outside_repository None "G"
  = (inl (SystemExit 1), [EchoErr "Error: Not in a git repository."]).
Proof.
  apply (commands_outside_repository MoreExamples.outside_repository Examples.alice None
           "fatal: not a git repository" "t1" false None None "D" [] [] "G").
  reflexivity.
Defined.



Lemma Forall_stderr_echo (lines : list string) : Forall is_stderr (EchoErr <$> lines).
Proof. apply Forall_fmap, Forall_forall. intros line _. by exists line. Qed.

Lemma is_stderr_echo (line : string) : is_stderr (EchoErr line).
Proof. by exists line. Qed.

Lemma as_str_error (v : yaml) (e : Exn) : as_str v = inl e → is_data_error e.
Proof. destruct v; intros [= <-]; done. Qed.

Lemma as_opt_str_error (v : option yaml) (e : Exn) : as_opt_str v = inl e → is_data_error e.
Proof. destruct v as [[]|]; intros [= <-]; done. Qed.

Lemma as_strs_error (items : list yaml) (e : Exn) : as_strs items = inl e → is_data_error e.
Proof.
  induction items as [|[] items IH]; simpl; try (intros [= <-]; done).
  destruct (as_strs items); [|done]. intros [= <-]. by apply IH.
Qed.

Lemma as_str_list_error (v : yaml) (e : Exn) : as_str_list v = inl e → is_data_error e.
Proof. destruct v; simpl; try (intros [= <-]; done). apply as_strs_error. Qed.

Lemma of_value_error (v : string) (e : Exn) : Status.of_value v = inl e → is_data_error e.
Proof.
  unfold Status.of_value.
  repeat match goal with |- context [String.eqb v ?w] => destruct (String.eqb v w) end;
    intros [= <-]; done.
Qed.

Lemma from_dict_error (data : dict) (e : Exn) : Task.from_dict data = inl e → is_data_error e.
Proof.
  unfold Task.from_dict, dict_item.
  destruct (dict_get "id" data) as [v|]; simpl; [|intros [= <-]; done].
  destruct (as_str v) eqn:Hv; simpl; [intros [= <-]; by eapply as_str_error |].
  destruct (dict_get "description" data) as [w|]; simpl; [|intros [= <-]; done].
  destruct (as_str w) eqn:Hw; simpl; [intros [= <-]; by eapply as_str_error |].
  destruct (as_str (default _ (dict_get "status" data))) eqn:H1; simpl;
    [intros [= <-]; by eapply as_str_error |].
  destruct (Status.of_value _) eqn:H2; simpl;
    [intros [= <-]; by eapply of_value_error |].
  destruct (as_opt_str (dict_get "claimed_by" data)) eqn:H3; simpl;
    [intros [= <-]; by eapply as_opt_str_error |].
  destruct (as_opt_str (dict_get "branch" data)) eqn:H4; simpl;
    [intros [= <-]; by eapply as_opt_str_error |].
  destruct (as_str_list (default _ (dict_get "files" data))) eqn:H5; simpl;
    [intros [= <-]; by eapply as_str_list_error |].
  destruct (as_str_list (default _ (dict_get "depends_on" data))) eqn:H6; simpl;
    [intros [= <-]; by eapply as_str_list_error | done].
Qed.

Lemma tasks_from_data_error (items : list yaml) (e : Exn) :
  Registry.tasks_from_data items = inl e → is_data_error e.
Proof.
  induction items as [|[] items IH]; simpl; try (intros [= <-]; done).
  destruct (Task.from_dict entries) eqn:Hd; simpl; [intros [= <-]; by eapply from_dict_error |].
  destruct (Registry.tasks_from_data items); simpl; [|done]. intros [= <-]. by apply IH.
Qed.

Lemma load_error (repo_root : string) (file : option yaml) (e : Exn) :
  Registry.load repo_root file = inl e → is_data_error e.
Proof.
  unfold Registry.load. destruct file as [[| | |data]|]; try (intros [= <-]; done).
  destruct (as_str (default _ (dict_get "goal" data))) eqn:Hg; simpl;
    [intros [= <-]; by eapply as_str_error |].
  destruct (default _ (dict_get "tasks" data)); simpl; try (intros [= <-]; done).
  destruct (Registry.tasks_from_data items) eqn:Ht; simpl; [|done].
  intros [= <-]. by eapply tasks_from_data_error.
Qed.

(** The three outcomes of [get_context]. *)
Lemma get_context_cases (git : Gitops.t) (file : option yaml) :
  (∃ repo_root registry,
     Gitops.get_repo_root git = inr repo_root
     ∧ Registry.load repo_root file = inr registry
     ∧ Cli.get_context git file = (inr (repo_root, registry), []))
  ∨ (∃ line, Cli.get_context git file = (inl (SystemExit 1), [EchoErr line]))
  ∨ (∃ e, is_data_error e ∧ Cli.get_context git file = (inl e, [])).
Proof.
  destruct (Gitops.get_repo_root git) as [msg | repo_root] eqn:Hroot.
  { right. left. eexists. by apply (get_context_not_repo _ _ msg). }
  destruct (Registry.load repo_root file) as [e | registry] eqn:Hload.
  - rewrite (get_context_load_failure _ _ _ _ Hroot Hload).
    apply load_error in Hload.
    destruct e; simpl; try done; try (right; right; eexists; split; [|reflexivity]; done).
    right. left. eauto.
  - left. exists repo_root, registry. split_and!; try done. by apply get_context_ok.
Qed.


Ltac only_stderr :=
  intros [= <-]; split; [done | repeat constructor; apply is_stderr_echo].

Ltac enter_context git file :=
  destruct (get_context_cases git file)
    as [(repo_root & registry & Hroot & Hload & ->)
       | [[line ->] | (e & He & ->)]];
  [rewrite bind_pure
  | rewrite bind_raise; simpl; try only_stderr
  | rewrite bind_raise; simpl; try (intros [= ->]; done)].

(** X13. Whenever claim, approve or merge ends through sys.exit, the exit
    code is 1 and the trace of the run holds only lines written to stderr:
    no registry was saved and no git or hosting action had taken effect
    before the exit. *)
Theorem refusals_only_write_stderr (git : Gitops.t) (config : option AgentConfig.t)
    (file : option yaml) (task_id : string) (force : bool) (code : Z) :
  ((Cli.claim git config file task_id force).1 = inl (SystemExit code) →
     code = 1%Z ∧ Forall is_stderr (Cli.claim git config file task_id force).2)
  ∧ ((Cli.approve git config file task_id).1 = inl (SystemExit code) →
     code = 1%Z ∧ Forall is_stderr (Cli.approve git config file task_id).2)
  ∧ ((Cli.merge_task git config file task_id).1 = inl (SystemExit code) →
     code = 1%Z ∧ Forall is_stderr (Cli.merge_task git config file task_id).2).
Proof.
  destruct config as [agent|]; [|split_and!; intros [=]].
  split_and!.
  - unfold Cli.claim. unfold lift, AgentConfig.require. rewrite bind_pure.
    enter_context git file.
    destruct (Registry.find_task registry task_id) as [[i task]|] eqn:Hfind;
      [|only_stderr].
    destruct (decide (Task.status task ≠ PENDING)) as [Hst | Hst]; [only_stderr |].
    destruct (bool_decide (Registry.check_dependencies registry task ≠ []) && negb force).
    { rewrite (for_each_echo _ _ (λ dep, "  - " +:+ dep)) by done. simpl.
      intros [= <-]. split; [done |]. constructor; [apply is_stderr_echo |].
      apply Forall_app. split; [apply Forall_stderr_echo |].
      repeat constructor; apply is_stderr_echo. }
    destruct (bool_decide (Registry.check_file_conflicts registry task ≠ []) && negb force).
    { rewrite (for_each_echo _ _
        (λ '(file_, other), "  - " +:+ file_ +:+ " (also in " +:+ Task.id other +:+ " by "
                            +:+ str_of (Task.claimed_by other) +:+ ")")) by (by intros []).
      simpl. intros [= <-]. split; [done |]. constructor; [apply is_stderr_echo |].
      apply Forall_app. split; [apply Forall_stderr_echo |].
      repeat constructor; apply is_stderr_echo. }
    destruct (Gitops.branch_exists git _); [only_stderr |].
    destruct (Gitops.switch_branch git _) as [? | []]; [done |].
    destruct (Gitops.has_remote git), (Gitops.pull git) as [? | []],
      (Gitops.create_branch git _) as [? | []]; try done;
      destruct (Gitops.stage_file git _) as [? | []]; try done;
      destruct (Gitops.commit git _) as [? | []]; done.
  - unfold Cli.approve. unfold lift, AgentConfig.require. rewrite bind_pure.
    enter_context git file.
    destruct (Registry.find_task registry task_id) as [[i task]|] eqn:Hfind;
      [|only_stderr].
    destruct (decide (Task.status task ≠ REVIEW)) as [Hst | Hst]; [only_stderr |].
    destruct (decide (Task.claimed_by task = Some (AgentConfig.name agent)));
      [only_stderr |].
    destruct (Gitops.list_prs git "open") as [? | prs]; [done |].
    simpl. destruct (Cli.matching_pr task prs) as [[j pr]|]; [|done].
    by destruct (Gitops.approve_pr git (Gitops.number pr)) as [? | []].
  - unfold Cli.merge_task. unfold lift, AgentConfig.require. rewrite bind_pure.
    enter_context git file.
    destruct (Registry.find_task registry task_id) as [[i task]|] eqn:Hfind;
      [|only_stderr].
    destruct (decide (Task.status task ≠ REVIEW)) as [Hst | Hst]; [only_stderr |].
    destruct (Gitops.list_prs git "open") as [? | prs]; [only_stderr |].
    simpl. destruct (Cli.matching_pr task prs) as [[j pr]|]; [|only_stderr].
    destruct (Gitops.merge_pr git (Gitops.number pr)) as [? | []]; [only_stderr |].
    simpl.
    destruct (Gitops.switch_branch git _) as [? | []]; [done |].
    destruct (Gitops.pull git) as [? | []]; [done |].
    destruct (Gitops.stage_file git _) as [? | []]; [done |].
    destruct (Gitops.commit git _) as [? | []]; [done |].
    by destruct (Gitops.push git _ _) as [? | []].
Qed.

(** ** Commands: outcomes and invariants *)

Ltac stderr_or_fetch :=
  intros [= <-]; split; [done |];
  repeat (apply Forall_cons_2; [first [by right | left; apply is_stderr_echo] |]);
  apply Forall_nil_2.

(** X14. Whenever submit ends through sys.exit, the exit code is 1 and the
    run did nothing but write to stderr and, at most, fetch from the remote:
    the registry is not saved, nothing is pushed, staged or committed and no
    pull request is created. *)
Theorem submit_refusals_change_nothing (git : Gitops.t) (config : option AgentConfig.t)
    (file : option yaml) (title body : option string) (code : Z) :
  (Cli.submit git config file title body).1 = inl (SystemExit code) →
  code = 1%Z
  ∧ Forall (λ e, is_stderr e ∨ e = Fetch) (Cli.submit git config file title body).2.
Proof.
  destruct config as [agent|]; [|intros [=]].
  unfold Cli.submit. unfold lift, AgentConfig.require. rewrite bind_pure.
  destruct (get_context_cases git file)
    as [(repo_root & registry & Hroot & Hload & ->)
       | [[line ->] | (e & He & ->)]].
  2:{ stderr_or_fetch. }
  2:{ intros [= ->]. done. }
  rewrite bind_pure.
  destruct (Gitops.get_current_branch git) as [? | current]; [done |].
  unfold ask. rewrite bind_pure.
  destruct (decide (current = Gitops.get_default_branch git)).
  { stderr_or_fetch. }
  destruct (list_find _ _) as [[i task]|].
  2:{ stderr_or_fetch. }
  destruct (decide (Task.claimed_by task ≠ Some (AgentConfig.name agent))).
  { stderr_or_fetch. }
  destruct (Gitops.has_remote git).
  - destruct (Gitops.fetch git) as [? | []]; [done |].
    destruct (Gitops.is_rebased git _) as [? | []]; [done | |].
    + destruct (Gitops.push git current true) as [? | []].
      { stderr_or_fetch. }
      destruct (Gitops.create_pr git _ _ _) as [? | ?];
        destruct (Gitops.stage_file git _) as [? | []]; try done;
        destruct (Gitops.commit git _) as [? | []]; try done;
        destruct (Gitops.push git current false) as [? | []]; done.
    + stderr_or_fetch.
  - destruct (Gitops.push git current true) as [? | []].
    { stderr_or_fetch. }
    destruct (Gitops.create_pr git _ _ _) as [? | ?];
      destruct (Gitops.stage_file git _) as [? | []]; try done;
      destruct (Gitops.commit git _) as [? | []]; try done;
      destruct (Gitops.push git current false) as [? | []]; done.
Qed.

Lemma submit_refusals_change_nothing_witness :
  Forall (λ e, is_stderr e ∨ e = Fetch)
    (Cli.submit (Examples.cooperative "main" []) (Some Examples.alice)
       (Some (Registry.save Examples.claimed)) None None).2.
Proof.
  apply (submit_refusals_change_nothing (Examples.cooperative "main" [])
           (Some Examples.alice) (Some (Registry.save Examples.claimed)) None None 1).
  reflexivity.
Defined.

Lemma failing_iff {A : Type} (run : Cmd A) (C : Prop) :
  ¬ C → ¬ succeeds run → (succeeds run ↔ C).
Proof. tauto. Qed.

Lemma succeeds_inr {A : Type} (a : A) (trace : list Effect) :
  succeeds ((inr a, trace) : Cmd A).
Proof. by exists a. Qed.



(** X16. In a repository whose registry loads, merge succeeds exactly when
    the task exists and is in Review, the open pull requests can be listed
    and one of them is on the task's branch, the hosting service merges the
    first such pull request, and the git steps that follow (switch to the
    default branch, pull, stage gastown.yaml, commit, push) all succeed. *)
Theorem merge_succeeds_iff (git : Gitops.t) (agent : AgentConfig.t) (file : option yaml)
    (repo_root : string) (registry : Registry.t) (task_id : string) :
  Gitops.get_repo_root git = inr repo_root →
  Registry.load repo_root file = inr registry →
  succeeds (Cli.merge_task git (Some agent) file task_id) ↔
    ∃ task prs j pr,
      Registry.get_task registry task_id = Some task
      ∧ Task.status task = REVIEW
      ∧ Gitops.list_prs git "open" = inr prs
      ∧ Cli.matching_pr task prs = Some (j, pr)
      ∧ ok (Gitops.merge_pr git (Gitops.number pr))
      ∧ git_allows_merge git task_id.
Proof.
  intros Hroot Hload.
  unfold Cli.merge_task. unfold lift, AgentConfig.require. rewrite bind_pure.
  rewrite (get_context_ok _ _ _ _ Hroot Hload), bind_pure.
  unfold Registry.get_task, git_allows_merge.
  destruct (Registry.find_task registry task_id) as [[i task]|]; simpl.
  2:{ apply failing_iff; [naive_solver | apply not_succeeds_raise]. }
  destruct (decide (Task.status task ≠ REVIEW)) as [Hst | Hst].
  { apply failing_iff; [naive_solver | apply not_succeeds_raise]. }
  apply dec_stable in Hst.
  destruct (Gitops.list_prs git "open") as [? | prs].
  { apply failing_iff; [naive_solver | apply not_succeeds_raise]. }
  simpl. destruct (Cli.matching_pr task prs) as [[j pr]|] eqn:Hmatch.
  2:{ apply failing_iff; [|apply not_succeeds_raise].
      intros (? & ? & ? & ? & [= <-] & _ & [= <-] & Hm & _). congruence. }
  destruct (Gitops.merge_pr git (Gitops.number pr)) as [? | []] eqn:Hmerge.
  { apply failing_iff; [|apply not_succeeds_raise].
    intros (? & ? & ? & ? & [= <-] & _ & [= <-] & Hm & Hok & _).
    rewrite Hmatch in Hm. injection Hm as <- <-. rewrite Hmerge in Hok.
    by apply ok_inl in Hok. }
  simpl.
  destruct (Gitops.switch_branch git _) as [? | []].
  { apply failing_iff; [|apply not_succeeds_raise].
    intros (? & ? & ? & ? & _ & _ & _ & _ & _ & []%ok_inl & _). }
  destruct (Gitops.pull git) as [? | []].
  { apply failing_iff; [|apply not_succeeds_raise].
    intros (? & ? & ? & ? & _ & _ & _ & _ & _ & _ & []%ok_inl & _). }
  destruct (Gitops.stage_file git _) as [? | []].
  { apply failing_iff; [|apply not_succeeds_raise].
    intros (? & ? & ? & ? & _ & _ & _ & _ & _ & _ & _ & []%ok_inl & _). }
  destruct (Gitops.commit git _) as [? | []].
  { apply failing_iff; [|apply not_succeeds_raise].
    intros (? & ? & ? & ? & _ & _ & _ & _ & _ & _ & _ & _ & []%ok_inl & _). }
  destruct (Gitops.push git _ _) as [? | []].
  { apply failing_iff; [|apply not_succeeds_raise].
    intros (? & ? & ? & ? & _ & _ & _ & _ & _ & _ & _ & _ & _ & []%ok_inl). }
  split; [intros _ | intros _; apply succeeds_inr].
  exists task, prs, j, pr. rewrite Hmerge. split_and!; try done; apply ok_inr.
Qed.

Lemma merge_succeeds_iff_witness :
  succeeds (Cli.merge_task (Examples.cooperative "main" [Examples.pr_other; Examples.pr_t1])
              (Some Examples.bob) (Some (Registry.save Examples.in_review)) "t1")
  ∧ ¬ succeeds (Cli.merge_task (Examples.cooperative "main" [Examples.pr_other])
                  (Some Examples.bob) (Some (Registry.save Examples.in_review)) "t1").
Proof.
  split.
  - apply (merge_succeeds_iff (Examples.cooperative "main" [Examples.pr_other; Examples.pr_t1])
             Examples.bob (Some (Registry.save Examples.in_review)) "/repo"
             Examples.in_review "t1" eq_refl eq_refl).
    exists Examples.t1_review, [Examples.pr_other; Examples.pr_t1], 1, Examples.pr_t1.
    unfold git_allows_merge. split_and!; try reflexivity; by exists tt.
  - intros Hok.
    apply (merge_succeeds_iff (Examples.cooperative "main" [Examples.pr_other])
             Examples.bob (Some (Registry.save Examples.in_review)) "/repo"
             Examples.in_review "t1" eq_refl eq_refl) in Hok
      as (task & prs & j & pr & Hget & _ & Hprs & Hmatch & _).
    injection Hget as <-. injection Hprs as <-. discriminate Hmatch.
Defined.




(** X18. When the task exists in a registry that loads, claim on a task that
    is not Pending, and approve and merge on a task that is not in Review,
    exit with code 1 after one line on stderr that names the task's actual
    status, and do nothing else, whatever --force says and whatever git or
    the hosting service would answer. *)
Theorem status_guards (git : Gitops.t) (agent : AgentConfig.t) (file : option yaml)
    (repo_root : string) (registry : Registry.t) (task_id : string) (force : bool)
    (task : Task.t) :
  Gitops.get_repo_root git = inr repo_root →
  Registry.load repo_root file = inr registry →
  Registry.get_task registry task_id = Some task →
  (Task.status task ≠ PENDING →
     Cli.claim git (Some agent) file task_id force
     = (inl (SystemExit 1),
        [EchoErr ("Error: Task '" +:+ task_id +:+ "' is not pending (status: "
                  +:+ Status.value (Task.status task) +:+ ").")]))
  ∧ (Task.status task ≠ REVIEW →
     Cli.approve git (Some agent) file task_id
     = (inl (SystemExit 1),
        [EchoErr ("Error: Task is not in review (status: "
                  +:+ Status.value (Task.status task) +:+ ").")])
     ∧ Cli.merge_task git (Some agent) file task_id
       = (inl (SystemExit 1),
          [EchoErr ("Error: Task is not in review (status: "
                    +:+ Status.value (Task.status task) +:+ ").")])).
Proof.
  intros Hroot Hload Hget.
  unfold Cli.claim, Cli.approve, Cli.merge_task.
  unfold lift, AgentConfig.require. rewrite !bind_pure.
  rewrite (get_context_ok _ _ _ _ Hroot Hload), !bind_pure.
  unfold Registry.get_task in Hget.
  destruct (Registry.find_task registry task_id) as [[i task']|]; simplify_eq/=.
  split; [intros Hst | intros Hst; split]; by rewrite decide_True.
Qed.

Lemma status_guards_witness :
  Cli.claim (Examples.cooperative "main" []) (Some Examples.bob)
    (Some (Registry.save Examples.merged)) "t1" true
  = (inl (SystemExit 1), [EchoErr "Error: Task 't1' is not pending (status: merged)."])
  ∧ Cli.merge_task (Examples.cooperative "main" [Examples.pr_t1]) (Some Examples.bob)
      (Some (Registry.save Examples.merged)) "t1"
    = (inl (SystemExit 1), [EchoErr "Error: Task is not in review (status: merged)."]).
Proof.
  split.
  - apply (status_guards (Examples.cooperative "main" []) Examples.bob
             (Some (Registry.save Examples.merged)) "/repo" Examples.merged "t1" true
             Examples.t1_merged eq_refl eq_refl eq_refl).
    discriminate.
  - apply (status_guards (Examples.cooperative "main" [Examples.pr_t1]) Examples.bob
             (Some (Registry.save Examples.merged)) "/repo" Examples.merged "t1" true
             Examples.t1_merged eq_refl eq_refl eq_refl).
    discriminate.
Defined.

(** X19. claim saves the registry before it runs git: when every check
    passes and the branch switch, the branch creation and the staging
    succeed but the commit fails, claim raises the GitError of the commit,
    yet gastown.yaml has been written with the task Claimed and the branch
    agent/<name>/<id> has been created. *)
Theorem claim_not_atomic (git : Gitops.t) (agent : AgentConfig.t) (file : option yaml)
    (repo_root : string) (registry : Registry.t) (task_id : string) (force : bool)
    (i : nat) (task : Task.t) (msg : string) :
  Gitops.get_repo_root git = inr repo_root →
  Registry.load repo_root file = inr registry →
  Registry.find_task registry task_id = Some (i, task) →
  Task.status task = PENDING →
  Registry.check_dependencies registry task = [] ∨ force = true →
  Registry.check_file_conflicts registry task = [] ∨ force = true →
  Gitops.branch_exists git (claim_branch (AgentConfig.name agent) task_id) = false →
  ok (Gitops.switch_branch git (Gitops.get_default_branch git)) →
  ok (Gitops.create_branch git (claim_branch (AgentConfig.name agent) task_id)) →
  ok (Gitops.stage_file git "gastown.yaml") →
  Gitops.commit git ("[gastown] Claim task: " +:+ task_id) = inl msg →
  (Cli.claim git (Some agent) file task_id force).1 = inl (GitError msg)
  ∧ CreateBranch (claim_branch (AgentConfig.name agent) task_id)
    ∈ (Cli.claim git (Some agent) file task_id force).2
  ∧ saved_documents (Cli.claim git (Some agent) file task_id force).2
    = [Registry.save
         (Registry.mk (Registry.goal registry)
            (<[i := claimed_task (AgentConfig.name agent) task_id task]>
               (Registry.tasks registry)))].
Proof.
  intros Hroot Hload Hfind Hst Hdeps Hconf Hexists [[] Hswitch] [[] Hcreate] [[] Hstage]
    Hcommit.
  destruct (find_task_lookup _ _ _ _ Hfind) as [Hi _].
  unfold Cli.claim. unfold lift, AgentConfig.require. rewrite bind_pure.
  rewrite (get_context_ok _ _ _ _ Hroot Hload), bind_pure.
  rewrite Hfind. rewrite decide_False by (rewrite Hst; tauto).
  assert (Hd : bool_decide (Registry.check_dependencies registry task ≠ []) && negb force
               = false).
  { destruct Hdeps as [-> | ->]; [done | apply andb_false_r]. }
  assert (Hc : bool_decide (Registry.check_file_conflicts registry task ≠ []) && negb force
               = false).
  { destruct Hconf as [-> | ->]; [done | apply andb_false_r]. }
  rewrite Hd, Hc.
  fold (claim_branch (AgentConfig.name agent) task_id).
  rewrite (claimed_update _ _ _ _ _ Hi).
  rewrite Hexists, Hswitch, Hcreate, Hstage, Hcommit.
  destruct (Gitops.has_remote git), (Gitops.pull git) as [? | []]; simpl;
    (split_and!; [done | | done]);
    rewrite !elem_of_cons; tauto.
Qed.

Lemma claim_not_atomic_witness :
  (Cli.claim (Scenarios.commit_refused (Examples.cooperative "main" []))
     (Some Examples.alice) (Some (Registry.save Examples.fresh)) "t1" false).1
  = inl (GitError "nothing to commit")
  ∧ CreateBranch "agent/alice/t1"
    ∈ (Cli.claim (Scenarios.commit_refused (Examples.cooperative "main" []))
         (Some Examples.alice) (Some (Registry.save Examples.fresh)) "t1" false).2
  ∧ saved_documents
      (Cli.claim (Scenarios.commit_refused (Examples.cooperative "main" []))
         (Some Examples.alice) (Some (Registry.save Examples.fresh)) "t1" false).2
    = [Registry.save Examples.claimed].
Proof.
  apply (claim_not_atomic (Scenarios.commit_refused (Examples.cooperative "main" []))
           Examples.alice (Some (Registry.save Examples.fresh)) "/repo" Examples.fresh
           "t1" false 0 Examples.t1_pending "nothing to commit");
    try reflexivity; try (by left); by exists tt.
Defined.

Lemma elem_of_saved_documents (trace : list Effect) (document : yaml) :
  document ∈ saved_documents trace ↔ SaveRegistry document ∈ trace.
Proof.
  unfold saved_documents. rewrite list_elem_of_omap. split.
  - intros (e & He & Hdoc). destruct e; simplify_eq. done.
  - intros He. by exists (SaveRegistry document).
Qed.

(** What [claim] saves is the registry with the first task of that id
    claimed. *)
Lemma claim_saved_at (git : Gitops.t) (agent : AgentConfig.t) (file : option yaml)
    (repo_root : string) (registry : Registry.t) (task_id : string) (force : bool)
    (document : yaml) :
  Gitops.get_repo_root git = inr repo_root →
  Registry.load repo_root file = inr registry →
  SaveRegistry document ∈ (Cli.claim git (Some agent) file task_id force).2 →
  ∃ i task,
    Registry.find_task registry task_id = Some (i, task)
    ∧ Task.status task = PENDING
    ∧ document
      = Registry.save
          (Registry.mk (Registry.goal registry)
             (<[i := claimed_task (AgentConfig.name agent) task_id task]>
                (Registry.tasks registry))).
Proof.
  intros Hroot Hload Hin. apply elem_of_saved_documents in Hin. revert Hin.
  unfold Cli.claim. unfold lift, AgentConfig.require. rewrite bind_pure.
  rewrite (get_context_ok _ _ _ _ Hroot Hload), bind_pure.
  destruct (Registry.find_task registry task_id) as [[i task]|] eqn:Hfind;
    [|by intros ?%elem_of_nil].
  destruct (find_task_lookup _ _ _ _ Hfind) as [Hi _].
  destruct (decide (Task.status task ≠ PENDING)) as [Hst | Hst]; [by intros ?%elem_of_nil |].
  apply dec_stable in Hst.
  destruct (bool_decide (Registry.check_dependencies registry task ≠ []) && negb force).
  { rewrite (for_each_echo _ _ (λ dep, "  - " +:+ dep)) by done.
    simpl. rewrite saved_documents_app, saved_documents_echo. by intros ?%elem_of_nil. }
  destruct (bool_decide (Registry.check_file_conflicts registry task ≠ []) && negb force).
  { rewrite (for_each_echo _ _
      (λ '(file_, other), "  - " +:+ file_ +:+ " (also in " +:+ Task.id other +:+ " by "
                          +:+ str_of (Task.claimed_by other) +:+ ")")) by (by intros []).
    simpl. rewrite saved_documents_app, saved_documents_echo. by intros ?%elem_of_nil. }
  fold (claim_branch (AgentConfig.name agent) task_id).
  rewrite (claimed_update _ _ _ _ _ Hi).
  destruct (Gitops.branch_exists git _); [by intros ?%elem_of_nil |].
  destruct (Gitops.switch_branch git _) as [? | []]; [by intros ?%elem_of_nil |].
  destruct (Gitops.has_remote git), (Gitops.pull git) as [? | []],
    (Gitops.create_branch git _) as [? | []]; try (by intros ?%elem_of_nil);
    destruct (Gitops.stage_file git _) as [? | []], (Gitops.commit git _) as [? | []];
    simpl; intros ->%list_elem_of_singleton; by exists i, task.
Qed.

Lemma find_task_insert (registry : Registry.t) (task_id : string) (i : nat)
    (task task' : Task.t) :
  Registry.find_task registry task_id = Some (i, task) →
  Task.id task' = Task.id task →
  Registry.find_task
    (Registry.mk (Registry.goal registry) (<[i := task']> (Registry.tasks registry))) task_id
  = Some (i, task').
Proof.
  unfold Registry.find_task. simpl. intros (Hi & Hid & Hbefore)%list_find_Some Hsame.
  apply list_find_Some. split_and!.
  - apply list_lookup_insert_eq. by eapply lookup_lt_Some.
  - congruence.
  - intros j other Hj Hlt. rewrite list_lookup_insert_ne in Hj by lia. by eapply Hbefore.
Qed.

Lemma find_task_normalize (registry : Registry.t) (task_id : string) (i : nat)
    (task : Task.t) :
  Registry.find_task registry task_id = Some (i, task) →
  Registry.find_task (normalize registry) task_id = Some (i, normalize_task task).
Proof.
  unfold Registry.find_task, normalize. simpl. intros (Hi & Hid & Hbefore)%list_find_Some.
  apply list_find_Some. split_and!.
  - by rewrite list_lookup_fmap, Hi.
  - by destruct task.
  - intros j other Hj Hlt. rewrite list_lookup_fmap in Hj.
    destruct (Registry.tasks registry !! j) as [t|] eqn:Ht; simplify_eq/=.
    specialize (Hbefore j t Ht Hlt). by destruct t.
Qed.

(** X20. Whatever registry a claim has saved, a second claim of the same
    task id on that saved registry, by any agent, with any answers of git
    and with or without --force, exits with code 1 with the message that the
    task is not pending (status: claimed), and does nothing else. *)
Theorem claimed_task_cannot_be_claimed_again (git git' : Gitops.t)
    (agent agent' : AgentConfig.t) (file : option yaml) (repo_root repo_root' : string)
    (registry : Registry.t) (task_id : string) (force force' : bool) (document : yaml) :
  Gitops.get_repo_root git = inr repo_root →
  Registry.load repo_root file = inr registry →
  SaveRegistry document ∈ (Cli.claim git (Some agent) file task_id force).2 →
  Gitops.get_repo_root git' = inr repo_root' →
  Cli.claim git' (Some agent') (Some document) task_id force'
  = (inl (SystemExit 1),
     [EchoErr ("Error: Task '" +:+ task_id +:+ "' is not pending (status: claimed).")]).
Proof.
  intros Hroot Hload Hin Hroot'.
  destruct (claim_saved_at _ _ _ _ _ _ _ _ Hroot Hload Hin) as (i & task & Hfind & _ & ->).
  pose proof (find_task_insert registry task_id i task
                (claimed_task (AgentConfig.name agent) task_id task) Hfind eq_refl) as Hfind'.
  apply find_task_normalize in Hfind'.
  unfold Cli.claim. unfold lift, AgentConfig.require. rewrite bind_pure.
  rewrite (get_context_ok _ _ _ _ Hroot' (load_save repo_root' _)), bind_pure.
  rewrite Hfind'. reflexivity.
Qed.

Lemma claimed_task_cannot_be_claimed_again_witness :
  Cli.claim (Examples.cooperative "main" []) (Some Examples.bob)
    (Some (Registry.save Examples.claimed)) "t1" true
  = (inl (SystemExit 1), [EchoErr "Error: Task 't1' is not pending (status: claimed)."]).
Proof.
  apply (claimed_task_cannot_be_claimed_again
           (Examples.cooperative "main" []) (Examples.cooperative "main" [])
           Examples.alice Examples.bob (Some (Registry.save Examples.fresh))
           "/repo" "/repo" Examples.fresh "t1" false true
           (Registry.save Examples.claimed)); try reflexivity.
  apply list_elem_of_In. vm_compute. auto.
Defined.

Lemma get_task_app_None (goal : string) (tasks : list Task.t) (task : Task.t)
    (task_id : string) :
  Registry.get_task (Registry.mk goal tasks) task_id = None →
  Registry.get_task (Registry.mk goal (tasks ++ [task])) task_id
  = if decide (Task.id task = task_id) then Some task else None.
Proof.
  unfold Registry.get_task, Registry.find_task. simpl.
  intros Hnone%fmap_None. case_decide as Hid.
  - assert (Hfind : list_find (λ t, Task.id t = task_id) (tasks ++ [task])
                    = Some (length tasks, task)); [|by rewrite Hfind].
    apply list_find_app_Some. right. split_and!; [done | done |].
    rewrite Nat.sub_diag. simpl. by rewrite decide_True.
  - apply fmap_None, list_find_app_None. split; [done |]. simpl. by rewrite decide_False.
Qed.

Lemma get_task_app_Some (goal : string) (tasks : list Task.t) (task found : Task.t)
    (task_id : string) :
  Registry.get_task (Registry.mk goal tasks) task_id = Some found →
  Registry.get_task (Registry.mk goal (tasks ++ [task])) task_id = Some found.
Proof.
  unfold Registry.get_task, Registry.find_task. simpl.
  intros ([i t] & Hfind & ->)%fmap_Some.
  assert (Hfind' : list_find (λ t, Task.id t = task_id) (tasks ++ [task]) = Some (i, t));
    [|by rewrite Hfind'].
  apply list_find_app_Some. by left.
Qed.

(** X21. new-task refuses an id that get_task already finds (exit code 1,
    one line on stderr, nothing saved). Otherwise its only effect is to save
    the registry with one task appended at the end: Pending, unowned,
    without branch, with the given description, files and dependencies. In
    the saved registry get_task finds the new task under its id, every other
    id resolves as before, and distinct ids stay distinct. *)
Theorem new_task_adds_a_pending_task (git : Gitops.t) (file : option yaml)
    (repo_root : string) (registry : Registry.t)
    (task_id description : string) (files depends : list string) :
  Gitops.get_repo_root git = inr repo_root →
  Registry.load repo_root file = inr registry →
  let added := fresh_task task_id description files depends in
  let after := Registry.mk (Registry.goal registry) (Registry.tasks registry ++ [added]) in
  (∀ existing, Registry.get_task registry task_id = Some existing →
     CliAdmin.new_task git file task_id description files depends
     = (inl (SystemExit 1), [EchoErr ("Error: Task '" +:+ task_id +:+ "' already exists.")]))
  ∧ (Registry.get_task registry task_id = None →
     CliAdmin.new_task git file task_id description files depends
     = (inr tt, [SaveRegistry (Registry.save after)])
     ∧ Registry.get_task after task_id = Some added
     ∧ (∀ other_id, other_id ≠ task_id →
          Registry.get_task after other_id = Registry.get_task registry other_id)
     ∧ (NoDup (task_ids registry) → NoDup (task_ids after))).
Proof.
  intros Hroot Hload added after. subst added after.
  unfold CliAdmin.new_task. rewrite (get_context_ok _ _ _ _ Hroot Hload), bind_pure.
  split.
  - intros existing ->. reflexivity.
  - intros Hnone. rewrite Hnone. destruct registry as [goal tasks]. simpl.
    split_and!.
    + reflexivity.
    + rewrite (get_task_app_None _ _ _ _ Hnone). by rewrite decide_True.
    + intros other_id Hne.
      destruct (Registry.get_task (Registry.mk goal tasks) other_id) as [found|] eqn:Hother.
      * by apply get_task_app_Some.
      * rewrite (get_task_app_None _ _ _ _ Hother). by rewrite decide_False.
    + unfold task_ids. simpl. rewrite fmap_app. simpl. intros Hnodup.
      apply NoDup_app. split_and!; [done | | apply NoDup_singleton].
      intros x Hx ->%list_elem_of_singleton.
      apply list_elem_of_fmap in Hx as (t & Hid & Ht).
      pose proof (proj1 (get_task_None _ _) Hnone) as Hfree. by apply (Hfree t Ht).
Qed.

Lemma new_task_adds_a_pending_task_witness :
  CliAdmin.new_task (Examples.cooperative "main" []) (Some (Registry.save Examples.fresh))
    "t2" "E" ["src/b"] ["t1"]
  = (inr tt,
     [SaveRegistry
        (Registry.save
           (Registry.mk "G" [Examples.t1_pending; fresh_task "t2" "E" ["src/b"] ["t1"]]))])
  ∧ CliAdmin.new_task (Examples.cooperative "main" [])
      (Some (Registry.save Examples.fresh)) "t1" "E" [] []
    = (inl (SystemExit 1), [EchoErr "Error: Task 't1' already exists."]).
Proof.
  split.
  - apply (new_task_adds_a_pending_task (Examples.cooperative "main" [])
             (Some (Registry.save Examples.fresh)) "/repo" Examples.fresh
             "t2" "E" ["src/b"] ["t1"] eq_refl eq_refl).
    reflexivity.
  - apply (proj1 (new_task_adds_a_pending_task (Examples.cooperative "main" [])
             (Some (Registry.save Examples.fresh)) "/repo" Examples.fresh
             "t1" "E" [] [] eq_refl eq_refl) Examples.t1_pending).
    reflexivity.
Defined.



(** What [submit] saves is the registry with the task of the current branch
    in Review. *)
Lemma submit_saved_at (git : Gitops.t) (agent : AgentConfig.t) (file : option yaml)
    (repo_root : string) (registry : Registry.t) (title body : option string)
    (document : yaml) :
  Gitops.get_repo_root git = inr repo_root →
  Registry.load repo_root file = inr registry →
  SaveRegistry document ∈ (Cli.submit git (Some agent) file title body).2 →
  ∃ i task,
    Registry.tasks registry !! i = Some task
    ∧ document = Registry.save (with_status REVIEW i task registry).
Proof.
  intros Hroot Hload Hin. apply elem_of_saved_documents in Hin. revert Hin.
  unfold Cli.submit. unfold lift, AgentConfig.require. rewrite bind_pure.
  rewrite (get_context_ok _ _ _ _ Hroot Hload), bind_pure.
  destruct (Gitops.get_current_branch git) as [? | current]; [by intros ?%elem_of_nil |].
  unfold ask. rewrite bind_pure.
  destruct (decide (current = Gitops.get_default_branch git)); [by intros ?%elem_of_nil |].
  destruct (list_find _ _) as [[i task]|] eqn:Hfind; [|by intros ?%elem_of_nil].
  assert (Hi : Registry.tasks registry !! i = Some task).
  { by apply list_find_Some in Hfind as (? & _). }
  destruct (decide (Task.claimed_by task ≠ Some (AgentConfig.name agent)));
    [by intros ?%elem_of_nil |].
  rewrite (update_status _ _ _ _ Hi).
  assert (Hdone : ∀ trace : list Effect,
    saved_documents trace = [Registry.save (with_status REVIEW i task registry)] →
    document ∈ saved_documents trace →
    ∃ i0 task0, Registry.tasks registry !! i0 = Some task0
                ∧ document = Registry.save (with_status REVIEW i0 task0 registry)).
  { intros trace -> ->%list_elem_of_singleton. by exists i, task. }
  destruct (Gitops.has_remote git).
  - destruct (Gitops.fetch git) as [? | []]; [by intros ?%elem_of_nil |].
    destruct (Gitops.is_rebased git _) as [? | []];
      [by intros ?%elem_of_nil | | by intros ?%elem_of_nil].
    destruct (Gitops.push git current true) as [? | []]; [by intros ?%elem_of_nil |].
    destruct (Gitops.create_pr git _ _ _) as [? | ?];
      destruct (Gitops.stage_file git _) as [? | []], (Gitops.commit git _) as [? | []],
        (Gitops.push git current false) as [? | []]; by apply Hdone.
  - destruct (Gitops.push git current true) as [? | []]; [by intros ?%elem_of_nil |].
    destruct (Gitops.create_pr git _ _ _) as [? | ?];
      destruct (Gitops.stage_file git _) as [? | []], (Gitops.commit git _) as [? | []],
        (Gitops.push git current false) as [? | []]; by apply Hdone.
Qed.

Lemma evolves_insert (registry : Registry.t) (i : nat) (task task' : Task.t) :
  Registry.tasks registry !! i = Some task →
  same_definition task task' →
  let after := Registry.mk (Registry.goal registry) (<[i := task']> (Registry.tasks registry)) in
  evolves registry after ∧ task_ids after = task_ids registry.
Proof.
  intros Hi Hsame after. subst after. split.
  - split; [done |]. exists (<[i := task']> (Registry.tasks registry)), [].
    simpl. rewrite app_nil_r. split; [done |].
    apply Forall2_same_length_lookup_2; [by rewrite length_insert |].
    intros j t t' Ht Ht'. destruct (decide (i = j)) as [-> | Hne].
    + rewrite list_lookup_insert_eq in Ht' by (by eapply lookup_lt_Some). by simplify_eq.
    + rewrite list_lookup_insert_ne in Ht' by done. simplify_eq. by repeat split.
  - unfold task_ids. simpl. rewrite list_fmap_insert.
    apply list_insert_id. rewrite list_lookup_fmap, Hi. simpl. f_equal.
    by destruct Hsame as [-> _].
Qed.

Lemma same_definition_refl (task : Task.t) : same_definition task task.
Proof. by repeat split. Qed.

(** X23. Every document that claim, submit, approve, merge or new-task saves
    is the save of a registry with the goal of the loaded one in which every
    task of the loaded registry is still at its position with the same id,
    description, files and dependencies: tasks are only ever added at the
    end, never removed or reordered. If the task ids were distinct before,
    they are distinct after. *)
Theorem commands_keep_tasks_and_ids (git : Gitops.t) (agent : AgentConfig.t)
    (file : option yaml) (repo_root : string) (registry : Registry.t)
    (task_id : string) (force : bool) (title body : option string)
    (description : string) (files depends : list string) (document : yaml) :
  Gitops.get_repo_root git = inr repo_root →
  Registry.load repo_root file = inr registry →
  SaveRegistry document ∈ (Cli.claim git (Some agent) file task_id force).2
  ∨ SaveRegistry document ∈ (Cli.submit git (Some agent) file title body).2
  ∨ SaveRegistry document ∈ (Cli.approve git (Some agent) file task_id).2
  ∨ SaveRegistry document ∈ (Cli.merge_task git (Some agent) file task_id).2
  ∨ SaveRegistry document
    ∈ (CliAdmin.new_task git file task_id description files depends).2 →
  ∃ after,
    document = Registry.save after
    ∧ evolves registry after
    ∧ (NoDup (task_ids registry) → NoDup (task_ids after)).
Proof.
  intros Hroot Hload [Hin | [Hin | [Hin | [Hin | Hin]]]].
  - destruct (claim_saved_at _ _ _ _ _ _ _ _ Hroot Hload Hin)
      as (i & task & [Hi _]%find_task_lookup & _ & ->).
    eexists. split; [reflexivity |].
    destruct (evolves_insert registry i task
                (claimed_task (AgentConfig.name agent) task_id task) Hi) as [Hev Hids].
    { by repeat split. }
    split; [done |]. by rewrite Hids.
  - destruct (submit_saved_at _ _ _ _ _ _ _ _ Hroot Hload Hin) as (i & task & Hi & ->).
    eexists. split; [reflexivity |].
    destruct (evolves_insert registry i task (Task.set_status REVIEW task) Hi)
      as [Hev Hids].
    { by repeat split. }
    split; [done |]. unfold with_status. by rewrite Hids.
  - apply elem_of_saved_documents in Hin. rewrite approve_saved_documents in Hin.
    by apply elem_of_nil in Hin.
  - apply elem_of_saved_documents in Hin.
    destruct (merge_saved_documents git agent file repo_root registry task_id
                Hroot Hload) as [Hnone | (i & task & Hi & _ & Hsaved)].
    { rewrite Hnone in Hin. by apply elem_of_nil in Hin. }
    rewrite Hsaved in Hin. apply list_elem_of_singleton in Hin as ->.
    eexists. split; [reflexivity |].
    destruct (evolves_insert registry i task (Task.set_status MERGED task) Hi)
      as [Hev Hids].
    { by repeat split. }
    split; [done |]. unfold with_status. by rewrite Hids.
  - revert Hin. unfold CliAdmin.new_task.
    rewrite (get_context_ok _ _ _ _ Hroot Hload), bind_pure.
    destruct (Registry.get_task registry task_id) as [existing|] eqn:Hget.
    { simpl. by intros [=]%list_elem_of_singleton. }
    simpl. intros [= ->]%list_elem_of_singleton.
    eexists. split; [reflexivity |]. split.
    + split; [done |].
      exists (Registry.tasks registry),
        [Task.mk task_id description PENDING None None files depends].
      split; [done |].
      apply Forall2_same_length_lookup_2; [done |].
      intros j t t' Ht Ht'. simplify_eq. apply same_definition_refl.
    + unfold task_ids. simpl. rewrite fmap_app. simpl. intros Hnodup.
      apply NoDup_app. split_and!; [done | | apply NoDup_singleton].
      intros x Hx ->%list_elem_of_singleton.
      apply list_elem_of_fmap in Hx as (t & Hid & Ht).
      pose proof (proj1 (get_task_None _ _) Hget) as Hfree. by apply (Hfree t Ht).
Qed.

Lemma commands_keep_tasks_and_ids_witness :
  ∃ after,
    Registry.save Examples.claimed = Registry.save after
    ∧ evolves Examples.fresh after
    ∧ (NoDup (task_ids Examples.fresh) → NoDup (task_ids after)).
Proof.
  apply (commands_keep_tasks_and_ids (Examples.cooperative "main" []) Examples.alice
           (Some (Registry.save Examples.fresh)) "/repo" Examples.fresh "t1" false
           None None "E" [] [] (Registry.save Examples.claimed) eq_refl eq_refl).
  left. apply list_elem_of_In. vm_compute. auto.
Defined.

(** ** Agent configuration and the gitops wrappers *)

(** X24. The configuration that 'gastown init NAME' writes is loaded back by
    AgentConfig.load as the agent NAME, and get_agent_name returns NAME.
    Without a configuration file require raises RuntimeError with the 'Agent
    not initialized' message, and a configuration mapping without the key
    'name' raises KeyError('name'). *)
Theorem agent_config_roundtrip (name_ : string) :
  AgentFile.load (Some (AgentFile.init name_)) = inr (Some (AgentConfig.mk name_))
  ∧ AgentFile.get_agent_name (Some (AgentFile.init name_)) = inr name_
  ∧ AgentFile.require None = inl (RuntimeError not_initialized)
  ∧ (∀ data, dict_get "name" data = None →
       AgentFile.require (Some (YMap data)) = inl (KeyError "name")).
Proof.
  split_and!; try reflexivity.
  intros data Hname. unfold AgentFile.require, AgentFile.load, dict_item. by rewrite Hname.
Qed.

Section WrapperProperties.

Context (strip : string → string)
        (int_of : string → Exn + Z)
        (str_of_int : Z → string)
        (json_loads : string → Exn + json)
        (run : list string → option string → Subprocess.CompletedProcess).

Lemma proc_bind_pure {A B : Type} (a : A) (k : A → Proc B) : (inr a, []) ≫= k = k a.
Proof. unfold mbind, Proc_bind. by destruct (k a). Qed.

(** The two outcomes of [run_git] with [check]. *)
Lemma run_git_checked (args : list string) (cwd : option string) :
  Wrappers.run_git strip run args cwd true
  = if (Subprocess.returncode (run ("git" :: args) cwd) =? 0)%Z
    then (inr (strip (Subprocess.stdout (run ("git" :: args) cwd))),
          [Subprocess.Started ("git" :: args) cwd])
    else (inl (GitError ("git " +:+ join " " args +:+ " failed: "
                         +:+ strip (Subprocess.stderr (run ("git" :: args) cwd)))),
          [Subprocess.Started ("git" :: args) cwd]).
Proof.
  unfold Wrappers.run_git, Wrappers.spawn. simpl.
  by destruct (Subprocess.returncode _ =? 0)%Z.
Qed.

(** X25. get_default_branch, branch_exists and has_remote each start exactly
    one git process and never raise; the exit code of that process alone
    decides the answer: 'main' exactly when 'git rev-parse --verify main'
    exits with 0 and 'master' otherwise, True exactly when 'git rev-parse
    --verify <branch>', respectively 'git remote get-url origin', exits with
    0. *)
Theorem probes_never_raise (branch : string) (cwd : option string) :
  let exit_code argv := Subprocess.returncode (run argv cwd) in
  (∃ name_,
     Wrappers.get_default_branch strip run cwd
     = (inr name_, [Subprocess.Started ["git"; "rev-parse"; "--verify"; "main"] cwd])
     ∧ (name_ = "main" ∨ name_ = "master")
     ∧ (name_ = "main" ↔ exit_code ["git"; "rev-parse"; "--verify"; "main"] = 0%Z))
  ∧ Wrappers.branch_exists strip run branch cwd
    = (inr (exit_code ["git"; "rev-parse"; "--verify"; branch] =? 0)%Z,
       [Subprocess.Started ["git"; "rev-parse"; "--verify"; branch] cwd])
  ∧ Wrappers.has_remote strip run cwd
    = (inr (exit_code ["git"; "remote"; "get-url"; "origin"] =? 0)%Z,
       [Subprocess.Started ["git"; "remote"; "get-url"; "origin"] cwd]).
Proof.
  intros exit_code. subst exit_code. split_and!.
  - unfold Wrappers.get_default_branch. rewrite run_git_checked.
    destruct (Subprocess.returncode _ =? 0)%Z eqn:Hcode; simpl.
    + exists "main". split_and!; [done | by left |]. apply Z.eqb_eq in Hcode. done.
    + exists "master". split_and!; [done | by right |]. apply Z.eqb_neq in Hcode. done.
  - unfold Wrappers.branch_exists. rewrite run_git_checked.
    by destruct (Subprocess.returncode _ =? 0)%Z.
  - unfold Wrappers.has_remote, Wrappers.get_remote_url. rewrite run_git_checked.
    by destruct (Subprocess.returncode _ =? 0)%Z.
Qed.

(** X26. create_pr first runs 'git gh pr create ...' through run_git,
    without cwd and with the exit code checked: when that git process exits
    with a non-zero code, create_pr raises GitError('git gh pr create ...
    failed: <stderr>') and the gh process is never started. *)
Theorem create_pr_needs_git_gh (title body base : string) (cwd : option string) :
  let argv := ["git"; "gh"; "pr"; "create"; "--title"; title; "--body"; body;
               "--base"; base] in
  Subprocess.returncode (run argv None) ≠ 0%Z →
  Wrappers.create_pr strip int_of run title body base cwd
  = (inl (GitError ("git " +:+ join " " (tail argv) +:+ " failed: "
                    +:+ strip (Subprocess.stderr (run argv None)))),
     [Subprocess.Started argv None]).
Proof.
  intros argv Hcode. subst argv. unfold Wrappers.create_pr. rewrite run_git_checked.
  apply Z.eqb_neq in Hcode. rewrite Hcode. reflexivity.
Qed.

Lemma split_on_after_slash (pre seg : string) :
  ∃ word words,
    split_on "/" (pre +:+ String.String "/" seg) = word :: words
    ∧ words ≠ []
    ∧ last words = last (split_on "/" seg).
Proof.
  induction pre as [|c pre (word & words & Hsplit & Hne & Hlast)].
  - rewrite append_nil_l. simpl. exists "", (split_on "/" seg). split_and!; [done | | done].
    destruct seg as [|c seg]; simpl; [done |].
    destruct (Ascii.eqb c "/"); [done |]. by destruct (split_on "/" seg).
  - rewrite append_cons. simpl. rewrite Hsplit.
    destruct (Ascii.eqb c "/").
    + exists "", (word :: words). split_and!; [done | done |].
      rewrite <- Hlast. by destruct words.
    + by exists (String.String c word), words.
Qed.

Lemma split_on_no_slash (seg : string) : no_slash seg → split_on "/" seg = [seg].
Proof.
  induction seg as [|c seg IH]; [done |]. intros [Hc Hseg]. simpl.
  destruct (Ascii.eqb c "/") eqn:Heq; [by apply Ascii.eqb_eq in Heq |].
  by rewrite IH.
Qed.

Lemma last_segment (pre seg : string) :
  no_slash seg → Wrappers.last_item (split_on "/" (pre +:+ "/" +:+ seg)) = seg.
Proof.
  intros Hseg. unfold Wrappers.last_item.
  destruct (split_on_after_slash pre seg) as (word & words & Hsplit & Hne & Hlast).
  change ("/" +:+ seg) with (String.String "/" seg). rewrite Hsplit.
  rewrite split_on_no_slash in Hlast by done.
  destruct words as [|w ws]; [done |]. simpl in *. by rewrite Hlast.
Qed.

(** X27. When both processes of create_pr exit with 0 and the stripped
    output of gh ends in '/' followed by a segment without slash, the number
    of the pull request is int of that segment (the exception of int
    propagates before the branch is read), and the PRInfo holds the given
    title, the current branch as a third process reports it, an empty author
    and the stripped output as url. *)
Theorem create_pr_number_from_url (title body base : string) (cwd : option string)
    (pre seg : string) :
  let create := ["pr"; "create"; "--title"; title; "--body"; body; "--base"; base] in
  let head_ := ["rev-parse"; "--abbrev-ref"; "HEAD"] in
  Subprocess.returncode (run ("git" :: "gh" :: create) None) = 0%Z →
  Subprocess.returncode (run ("gh" :: create) cwd) = 0%Z →
  strip (Subprocess.stdout (run ("gh" :: create) cwd)) = pre +:+ "/" +:+ seg →
  no_slash seg →
  Subprocess.returncode (run ("git" :: head_) cwd) = 0%Z →
  Wrappers.create_pr strip int_of run title body base cwd
  = match int_of seg with
    | inr number =>
        (inr (Gitops.mkPR number title
                (strip (Subprocess.stdout (run ("git" :: head_) cwd))) ""
                (pre +:+ "/" +:+ seg)),
         [git_call ("gh" :: create) None;
          Subprocess.Started ("gh" :: create) cwd;
          git_call head_ cwd])
    | inl e =>
        (inl e, [git_call ("gh" :: create) None; Subprocess.Started ("gh" :: create) cwd])
    end.
Proof.
  intros create head_ Hgit Hgh Hurl Hseg Hhead. subst create head_.
  unfold Wrappers.create_pr, Wrappers.get_current_branch. rewrite !run_git_checked.
  rewrite Hgit, Hhead. unfold Wrappers.spawn. simpl. rewrite Hgh. simpl.
  rewrite Hurl, (last_segment _ _ Hseg).
  by destruct (int_of seg).
Qed.

Lemma pr_info_same (pr : json) (info : Gitops.PRInfo) :
  Wrappers.pr_info pr = inr info → same_pr pr info.
Proof.
  unfold Wrappers.pr_info, same_pr.
  destruct (Wrappers.json_item "number" pr) as [? | v_number]; [done |]. simpl.
  destruct v_number; try done. simpl.
  destruct (Wrappers.json_item "title" pr) as [? | v_title]; [done |]. simpl.
  destruct (Wrappers.json_str v_title); [done |]. simpl.
  destruct (Wrappers.json_item "headRefName" pr) as [? | v_branch]; [done |]. simpl.
  destruct v_branch; try done. simpl.
  match goal with |- bind_exn ?a _ = _ → _ => destruct a; [done |] end. simpl.
  destruct (Wrappers.json_item "url" pr) as [? | v_url]; [done |]. simpl.
  destruct (Wrappers.json_str v_url); [done |]. simpl.
  by intros [= <-].
Qed.

Lemma pr_infos_same (prs : list json) (infos : list Gitops.PRInfo) :
  Wrappers.pr_infos prs = inr infos → Forall2 same_pr prs infos.
Proof.
  revert infos. induction prs as [|pr prs IH]; intros infos; simpl.
  - intros [= <-]. constructor.
  - destruct (Wrappers.pr_info pr) as [? | info] eqn:Hinfo; [done |]. simpl.
    destruct (Wrappers.pr_infos prs) as [? | rest]; [done |]. simpl.
    intros [= <-]. constructor; [by apply pr_info_same | by apply IH].
Qed.

(** X28. list_prs starts one gh process. A non-zero exit code raises
    GitError('Failed to list PRs: <stderr>'); output that is blank gives the
    empty list without parsing it; for a JSON array whose entries convert,
    the result has one PRInfo per entry, in the order of the array, each
    with the number and the headRefName of its entry. *)
Theorem list_prs_keeps_the_listing (state : string) (cwd : option string) :
  let argv := ["gh"; "pr"; "list"; "--state"; state; "--json";
               "number,title,headRefName,author,url"] in
  let proc := run argv cwd in
  (Subprocess.returncode proc ≠ 0%Z →
     Wrappers.list_prs strip json_loads run state cwd
     = (inl (GitError ("Failed to list PRs: " +:+ strip (Subprocess.stderr proc))),
        [Subprocess.Started argv cwd]))
  ∧ (Subprocess.returncode proc = 0%Z → strip (Subprocess.stdout proc) = "" →
     Wrappers.list_prs strip json_loads run state cwd = (inr [], [Subprocess.Started argv cwd]))
  ∧ (∀ prs infos,
       Subprocess.returncode proc = 0%Z → strip (Subprocess.stdout proc) ≠ "" →
       json_loads (Subprocess.stdout proc) = inr (JArr prs) →
       Wrappers.pr_infos prs = inr infos →
       Wrappers.list_prs strip json_loads run state cwd
       = (inr infos, [Subprocess.Started argv cwd])
       ∧ Forall2 same_pr prs infos).
Proof.
  intros argv proc. subst argv proc. unfold Wrappers.list_prs, Wrappers.spawn. simpl.
  split_and!.
  - intros Hcode%Z.eqb_neq. by rewrite Hcode.
  - intros Hcode%Z.eqb_eq Hout. by rewrite Hcode, Hout.
  - intros prs infos Hcode%Z.eqb_eq Hout Hjson Hinfos. rewrite Hcode. simpl.
    unfold Wrappers.nonempty.
    destruct (String.eqb_spec (strip (Subprocess.stdout
      (run ["gh"; "pr"; "list"; "--state"; state; "--json";
            "number,title,headRefName,author,url"] cwd))) ""); [done |].
    simpl. rewrite Hjson, Hinfos. split; [done | by apply pr_infos_same].
Qed.

Lemma proc_bind_log {A B : Type} (a : A) (log : list Subprocess.Event) (k : A → Proc B) :
  ((inr a, log) : Proc A) ≫= k = ((k a).1, log ++ (k a).2).
Proof. unfold mbind, Proc_bind. by destruct (k a). Qed.

Lemma run_git_ok (args : list string) (cwd : option string) :
  Subprocess.returncode (run ("git" :: args) cwd) = 0%Z →
  Wrappers.run_git strip run args cwd true
  = (inr (strip (Subprocess.stdout (run ("git" :: args) cwd))), [git_call args cwd]).
Proof. intros Hcode. rewrite run_git_checked. by rewrite Hcode. Qed.

Lemma run_git_failed (args : list string) (cwd : option string) :
  Subprocess.returncode (run ("git" :: args) cwd) ≠ 0%Z →
  Wrappers.run_git strip run args cwd true
  = (inl (GitError ("git " +:+ join " " args +:+ " failed: "
                    +:+ strip (Subprocess.stderr (run ("git" :: args) cwd)))),
     [git_call args cwd]).
Proof. intros Hcode%Z.eqb_neq. rewrite run_git_checked. by rewrite Hcode. Qed.

Lemma get_default_branch_eq (cwd : option string) :
  Wrappers.get_default_branch strip run cwd
  = (inr (if (Subprocess.returncode (run ["git"; "rev-parse"; "--verify"; "main"] cwd) =? 0)%Z
          then "main" else "master"),
     [git_call ["rev-parse"; "--verify"; "main"] cwd]).
Proof.
  unfold Wrappers.get_default_branch. rewrite run_git_checked.
  by destruct (Subprocess.returncode _ =? 0)%Z.
Qed.

Lemma has_remote_eq (cwd : option string) :
  Wrappers.has_remote strip run cwd
  = (inr (Subprocess.returncode (run ["git"; "remote"; "get-url"; "origin"] cwd) =? 0)%Z,
     [git_call ["remote"; "get-url"; "origin"] cwd]).
Proof.
  unfold Wrappers.has_remote, Wrappers.get_remote_url. rewrite run_git_checked.
  by destruct (Subprocess.returncode _ =? 0)%Z.
Qed.

Lemma get_context_proc_ok (registry_file : option yaml) (registry : Registry.t) :
  Subprocess.returncode (run ["git"; "rev-parse"; "--show-toplevel"] None) = 0%Z →
  Registry.load
    (strip (Subprocess.stdout (run ["git"; "rev-parse"; "--show-toplevel"] None)))
    registry_file = inr registry →
  Wrappers.get_context strip run registry_file
  = (inr (strip (Subprocess.stdout (run ["git"; "rev-parse"; "--show-toplevel"] None)),
          registry),
     [git_call ["rev-parse"; "--show-toplevel"] None]).
Proof.
  intros Hroot Hload. unfold Wrappers.get_context, Wrappers.get_repo_root.
  rewrite (run_git_ok _ _ Hroot). cbn [proc_except_GitError].
  rewrite proc_bind_log, Hload. reflexivity.
Qed.

(** The start of [sync] in a repository whose registry loads. *)
Lemma sync_enters (registry_file : option yaml)
    (registry : Registry.t) (k : string → string → string → Proc unit) :
  let repo_root :=
    strip (Subprocess.stdout (run ["git"; "rev-parse"; "--show-toplevel"] None)) in
  let here := Some repo_root in
  let current := strip (Subprocess.stdout (run ["git"; "rev-parse"; "--abbrev-ref"; "HEAD"] here)) in
  let default_branch :=
    if (Subprocess.returncode (run ["git"; "rev-parse"; "--verify"; "main"] here) =? 0)%Z
    then "main" else "master" in
  Subprocess.returncode (run ["git"; "rev-parse"; "--show-toplevel"] None) = 0%Z →
  Registry.load repo_root registry_file = inr registry →
  Subprocess.returncode (run ["git"; "rev-parse"; "--abbrev-ref"; "HEAD"] here) = 0%Z →
  (Wrappers.get_context strip run registry_file ≫= λ '(root, _),
     Wrappers.get_current_branch strip run (Some root) ≫= λ current_branch,
       Wrappers.get_default_branch strip run (Some root) ≫= λ default_,
         k root current_branch default_)
  = ((k repo_root current default_branch).1,
     sync_probes repo_root ++ (k repo_root current default_branch).2).
Proof.
  intros repo_root here current default_branch Hroot Hload Hcurrent.
  subst repo_root here current default_branch.
  rewrite (get_context_proc_ok _ _ Hroot Hload), proc_bind_log. cbv beta iota zeta.
  unfold Wrappers.get_current_branch.
  rewrite (run_git_ok _ _ Hcurrent), proc_bind_log. cbv beta iota zeta.
  rewrite get_default_branch_eq, proc_bind_log. cbn [fst snd].
  reflexivity.
Qed.

(** X29. sync on the default branch, with agent and registry in place:
    without a remote it succeeds after finding out the repository root, the
    current and the default branch and that there is no remote, and runs
    nothing else; with a remote whose fetch and pull succeed it runs 'git
    fetch --all' and then 'git pull' in the repository root and succeeds. It
    neither looks at the working tree nor rebases. *)
Theorem sync_on_default_branch (config_file registry_file : option yaml)
    (agent : AgentConfig.t) (registry : Registry.t) :
  let repo_root :=
    strip (Subprocess.stdout (run ["git"; "rev-parse"; "--show-toplevel"] None)) in
  let here := Some repo_root in
  let code args := Subprocess.returncode (run ("git" :: args) here) in
  AgentFile.require config_file = inr agent →
  Subprocess.returncode (run ["git"; "rev-parse"; "--show-toplevel"] None) = 0%Z →
  Registry.load repo_root registry_file = inr registry →
  code ["rev-parse"; "--abbrev-ref"; "HEAD"] = 0%Z →
  strip (Subprocess.stdout (run ["git"; "rev-parse"; "--abbrev-ref"; "HEAD"] here))
  = (if (code ["rev-parse"; "--verify"; "main"] =? 0)%Z then "main" else "master") →
  (code ["remote"; "get-url"; "origin"] ≠ 0%Z →
     Wrappers.sync strip run config_file registry_file
     = (inr tt, sync_probes repo_root ++ [git_call ["remote"; "get-url"; "origin"] here]))
  ∧ (code ["remote"; "get-url"; "origin"] = 0%Z →
     code ["fetch"; "--all"] = 0%Z →
     code ["pull"] = 0%Z →
     Wrappers.sync strip run config_file registry_file
     = (inr tt,
        sync_probes repo_root
        ++ [git_call ["remote"; "get-url"; "origin"] here;
            git_call ["fetch"; "--all"] here;
            git_call ["pull"] here])).
Proof.
  intros repo_root here code Hagent Hroot Hload Hcurrent Hdefault.
  subst repo_root here code. cbv beta in *.
  unfold Wrappers.sync. rewrite Hagent, proc_bind_pure.
  rewrite (sync_enters registry_file registry
    (λ root current_branch default_branch,
       if decide (current_branch = default_branch)
       then _ else _) Hroot Hload Hcurrent).
  rewrite decide_True by done.
  rewrite has_remote_eq, proc_bind_log. cbn [fst snd]. split.
  - intros Hremote%Z.eqb_neq. rewrite Hremote. reflexivity.
  - intros Hremote Hfetch Hpull. rewrite Hremote.
    unfold Wrappers.fetch, Wrappers.pull.
    rewrite (run_git_ok _ _ Hfetch), (run_git_ok _ _ Hpull). reflexivity.
Qed.

(** X30. sync on a branch that is not the default branch: with uncommitted
    changes it exits with code 1 and the 'uncommitted changes' message right
    after 'git status --porcelain', before asking for the remote or
    rebasing; with a clean tree and no remote it skips the fetch and rebases
    onto origin/<default>, succeeding exactly when the rebase exits with 0
    and otherwise writing 'Rebase failed: <message of the GitError>' and the
    hint to stderr and exiting with code 1. *)
Theorem sync_on_task_branch (config_file registry_file : option yaml)
    (agent : AgentConfig.t) (registry : Registry.t) :
  let repo_root :=
    strip (Subprocess.stdout (run ["git"; "rev-parse"; "--show-toplevel"] None)) in
  let here := Some repo_root in
  let code args := Subprocess.returncode (run ("git" :: args) here) in
  let default_branch :=
    if (code ["rev-parse"; "--verify"; "main"] =? 0)%Z then "main" else "master" in
  let onto := "origin/" +:+ default_branch in
  AgentFile.require config_file = inr agent →
  Subprocess.returncode (run ["git"; "rev-parse"; "--show-toplevel"] None) = 0%Z →
  Registry.load repo_root registry_file = inr registry →
  code ["rev-parse"; "--abbrev-ref"; "HEAD"] = 0%Z →
  strip (Subprocess.stdout (run ["git"; "rev-parse"; "--abbrev-ref"; "HEAD"] here))
  ≠ default_branch →
  code ["status"; "--porcelain"] = 0%Z →
  (strip (Subprocess.stdout (run ["git"; "status"; "--porcelain"] here)) ≠ "" →
     Wrappers.sync strip run config_file registry_file
     = (inl (SystemExit 1),
        sync_probes repo_root
        ++ [git_call ["status"; "--porcelain"] here;
            Subprocess.Stderr
              "Error: You have uncommitted changes. Commit or stash first."]))
  ∧ (strip (Subprocess.stdout (run ["git"; "status"; "--porcelain"] here)) = "" →
     code ["remote"; "get-url"; "origin"] ≠ 0%Z →
     Wrappers.sync strip run config_file registry_file
     = (if (code ["rebase"; onto] =? 0)%Z then inr tt else inl (SystemExit 1),
        sync_probes repo_root
        ++ [git_call ["status"; "--porcelain"] here;
            git_call ["remote"; "get-url"; "origin"] here;
            git_call ["rebase"; onto] here]
        ++ (if (code ["rebase"; onto] =? 0)%Z then []
            else [Subprocess.Stderr
                    ("Rebase failed: " +:+ "git " +:+ join " " ["rebase"; onto]
                     +:+ " failed: "
                     +:+ strip (Subprocess.stderr (run ["git"; "rebase"; onto] here)));
                  Subprocess.Stderr
                    "Resolve conflicts and run 'git rebase --continue'"]))).
Proof.
  intros repo_root here code default_branch onto Hagent Hroot Hload Hcurrent Hdefault
    Hstatus.
  subst repo_root here code default_branch onto. cbv beta in *.
  unfold Wrappers.sync. rewrite Hagent, proc_bind_pure.
  rewrite (sync_enters registry_file registry
    (λ root current_branch default_branch,
       if decide (current_branch = default_branch)
       then _ else _) Hroot Hload Hcurrent).
  rewrite decide_False by done.
  unfold Wrappers.has_changes. rewrite (run_git_ok _ _ Hstatus), !proc_bind_log.
  cbn [fst snd]. unfold Wrappers.nonempty. split.
  - intros Hdirty. apply String.eqb_neq in Hdirty. rewrite Hdirty. reflexivity.
  - intros Hclean Hremote%Z.eqb_neq. rewrite Hclean. cbn [String.eqb negb].
    rewrite has_remote_eq, proc_bind_log. cbn [fst snd]. rewrite Hremote.
    unfold Wrappers.rebase. rewrite run_git_checked.
    repeat match goal with
           | |- context [(?code =? 0)%Z] => destruct (code =? 0)%Z
           end; reflexivity.
Qed.

End WrapperProperties.

(** *** Runs of the wrappers on scripted processes *)

Lemma create_pr_needs_git_gh_witness :
  Wrappers.create_pr Scripted.strip Scripted.int_of (Scripted.run []) "T" "B" "main"
    (Some "/repo")
  = (inl (GitError
            "git gh pr create --title T --body B --base main failed: unknown command"),
     [Subprocess.Started
        ["git"; "gh"; "pr"; "create"; "--title"; "T"; "--body"; "B"; "--base"; "main"]
        None]).
Proof.
  apply (create_pr_needs_git_gh Scripted.strip Scripted.int_of (Scripted.run [])
           "T" "B" "main" (Some "/repo")).
  discriminate.
Defined.

Lemma create_pr_number_from_url_witness :
  Wrappers.create_pr Scripted.strip Scripted.int_of
    (Scripted.run (Scripted.pr_opened ++ Scripted.clone "agent/alice/t1"))
    "T" "B" "main" (Some "/repo")
  = (inr (Gitops.mkPR 12 "T" "agent/alice/t1" "" "https://github.com/o/r/pull/12"),
     [git_call ["gh"; "pr"; "create"; "--title"; "T"; "--body"; "B"; "--base"; "main"]
        None;
      Subprocess.Started
        ["gh"; "pr"; "create"; "--title"; "T"; "--body"; "B"; "--base"; "main"]
        (Some "/repo");
      git_call ["rev-parse"; "--abbrev-ref"; "HEAD"] (Some "/repo")]).
Proof.
  apply (create_pr_number_from_url Scripted.strip Scripted.int_of
           (Scripted.run (Scripted.pr_opened ++ Scripted.clone "agent/alice/t1"))
           "T" "B" "main" (Some "/repo") "https://github.com/o/r/pull" "12");
    try reflexivity.
  simpl. split_and!; (discriminate || exact I).
Defined.

Lemma sync_on_default_branch_witness :
  Wrappers.sync Scripted.strip (Scripted.run (Scripted.clone "main"))
    (Some (AgentFile.init "alice")) (Some (Registry.save Examples.fresh))
  = (inr tt,
     sync_probes "/repo" ++ [git_call ["remote"; "get-url"; "origin"] (Some "/repo")]).
Proof.
  apply (sync_on_default_branch Scripted.strip (Scripted.run (Scripted.clone "main"))
           (Some (AgentFile.init "alice")) (Some (Registry.save Examples.fresh))
           Examples.alice Examples.fresh); try reflexivity.
  discriminate.
Defined.

Lemma sync_on_task_branch_witness :
  Wrappers.sync Scripted.strip
    (Scripted.run (Scripted.dirty ++ Scripted.clone "agent/alice/t1"))
    (Some (AgentFile.init "alice")) (Some (Registry.save Examples.claimed))
  = (inl (SystemExit 1),
     sync_probes "/repo"
     ++ [git_call ["status"; "--porcelain"] (Some "/repo");
         Subprocess.Stderr "Error: You have uncommitted changes. Commit or stash first."]).
Proof.
  apply (sync_on_task_branch Scripted.strip
           (Scripted.run (Scripted.dirty ++ Scripted.clone "agent/alice/t1"))
           (Some (AgentFile.init "alice")) (Some (Registry.save Examples.claimed))
           Examples.alice Examples.claimed); try reflexivity; discriminate.
Defined.
